(** * The metrics pipeline of dcgm-exporter

    A shallow embedding of [pkg/dcgmexporter]: the data model of [types.go]
    ([Counter], [Metric], [MetricsByCounter], [metricFingerprint]) and the
    pipeline ([NewMetricsPipeline], [Run], [run], the [OtelObserve*]
    emitters, [FormatMetrics]).

    Conventions of the embedding.
    - A Go [map] is a [gmap]; a [for k, v := range m] visits the entries in
      an order chosen by the runtime, so every loop over a map takes the
      visit order as an argument ([VisitOrder] says that a list of keys is
      such an order).
    - [float64] is the kernel's binary64 [float]; [+=] is [PrimFloat.add].
    - [error] values are their messages; [fmt.Errorf] with [%w] and [%v]
      appends the message of the wrapped error.
    - A panic is an outcome of its own ([Panicked]); mutable state
      (the accumulator, what was sent to the push sink, what was logged) is
      threaded through every call and survives a panic or an error. *)

From Stdlib Require Import Floats Ascii.
From stdpp Require Import gmap strings list sorting pretty.


(** ** Data model ([types.go]) *)

Record Counter := mkCounter {
  FieldID : Z;
  FieldName : string;
  PromType : string;
  Help : string
}.

Record Metric := mkMetric {
  mCounter : Counter;
  Value : string;
  GPU : string;
  GPUUUID : string;
  GPUDevice : string;
  GPUModelName : string;
  GPUPCIBusID : string;
  UUID : string;
  MigProfile : string;
  GPUInstanceID : string;
  Hostname : string;
  Labels : gmap string string;
  Attributes : gmap string string
}.

Global Instance Counter_eq_dec : EqDecision Counter.
Proof. solve_decision. Defined.

Definition Counter_to_tuple (c : Counter) : Z * string * string * string :=
  (FieldID c, FieldName c, PromType c, Help c).

Definition Counter_of_tuple (t : Z * string * string * string) : Counter :=
  let '(i, n, p, h) := t in mkCounter i n p h.

Global Instance Counter_countable : Countable Counter.
Proof.
  apply (inj_countable' Counter_to_tuple Counter_of_tuple).
  by intros [].
Defined.

(** [type MetricsByCounter map[Counter][]Metric] *)
Abbreviation MetricsByCounter := (gmap Counter (list Metric)).

(** ** Ranging over a map *)

(** [ks] lists every key of [m] exactly once: a possible visit order of
    [for k := range m]. *)
Definition VisitOrder `{Countable K} {V} (ks : list K) (m : gmap K V) : Prop :=
  ks ≡ₚ (map_to_list m).*1.

(** The order used when nothing depends on it. *)
Definition keysOf `{Countable K} {V} (m : gmap K V) : list K :=
  (map_to_list m).*1.

(** The entries a loop sees when the runtime visits the keys as [ks]. *)
Definition rangeMap `{Countable K} {V} (ks : list K) (m : gmap K V) : list (K * V) :=
  omap (λ k, (k,.) <$> m !! k) ks.

(** ** [metricFingerprint] *)

(** [sort.Strings]: ascending byte-wise order. *)
Definition sortStrings (ks : list string) : list string :=
  merge_sort String.le ks.

(** [fmt.Fprintf(&sb, "<name>=%s,", arg)] appends this text. *)
Definition field (name arg : string) : string := name +:+ "=" +:+ arg +:+ ",".

(** [m[k]] on a [map[string]string]: the zero value when [k] is absent. *)
Definition index (m : gmap string string) (k : string) : string :=
  default "" (m !! k).

(** The two loops [for _, k := range keys { Fprintf("%s=%s,", k, m[k]) }]. *)
Definition pairsText (m : gmap string string) (keys : list string) : string :=
  String.concat "" ((λ k, field k (index m k)) <$> keys).

(** [metricFingerprint], with the orders in which the two [range] loops
    delivered the keys of [Labels] and of [Attributes]. *)
Definition metricFingerprintAt (lks aks : list string) (m : Metric) : string :=
  field "name" (FieldName (mCounter m)) +:+
  field "gpu" (GPU m) +:+
  field "gpu_uuid" (GPUUUID m) +:+
  field "gpu_device" (GPUDevice m) +:+
  field "gpu_model_name" (GPUModelName m) +:+
  field "gpu_pci_bus_id" (GPUPCIBusID m) +:+
  field "uuid" (UUID m) +:+
  field "mig_profile" (MigProfile m) +:+
  field "gpu_instance_id" (GPUInstanceID m) +:+
  field "hostname" (Hostname m) +:+
  pairsText (Labels m) (sortStrings lks) +:+
  pairsText (Attributes m) (sortStrings aks).

Definition metricFingerprint (m : Metric) : string :=
  metricFingerprintAt (keysOf (Labels m)) (keysOf (Attributes m)) m.

(** ** Errors, panics and the state of a running pipeline *)

(** A Go [error], kept as its message. *)
Definition error := string.

(** A call that returns [(value, err)]. *)
Inductive result (A : Type) : Type :=
  | Ok (a : A)
  | Err (e : error).
Global Arguments Ok {A} a.
Global Arguments Err {A} e.

Inductive InstrumentKind := KGauge | KCounter | KHistogram.

Global Instance InstrumentKind_eq_dec : EqDecision InstrumentKind.
Proof. solve_decision. Defined.

(** What a goroutine can panic with in this package. *)
Inductive PanicValue :=
  | IndexOutOfRange (i len : nat)
      (* [metricVals[0]] on an empty slice *)
  | NilPointerDereference
      (* a field of [m.otelMeters] when [m.otelMeters] is nil *)
  | AssignmentToNilMap
      (* [m.gpuCounters[fp] += val] when [m.gpuCounters] is nil *)
  | InstrumentNotFound (kind : InstrumentKind) (fieldName : string)
      (* [panic(fmt.Sprintf("Counter %q not found in otelMeters", fieldName))] *)
  | ValueNotFloat (value : string) (err : error).
      (* [panic(fmt.Sprintf("Failed to parse metric value %s as float64: %v", ...))] *)

Inductive Outcome (A : Type) : Type :=
  | Done (a : A)
  | Panicked (p : PanicValue).
Global Arguments Done {A} a.
Global Arguments Panicked {A} p.

(** An instrument handle handed out by the metering API. *)
Record Instrument := mkInstrument {
  instrumentKind : InstrumentKind;
  instrumentName : string;
  instrumentDescription : string
}.

Definition KeyValue : Type := string * string.

(** One call on the push sink: [c.Add], [g.Record] or [h.Record] with the
    value and [metric.WithAttributes(attrs...)]. *)
Record OtelEvent := mkOtelEvent {
  evInstrument : Instrument;
  evValue : float;
  evAttrs : list KeyValue
}.

Inductive Level := DebugLevel | InfoLevel | WarnLevel | ErrorLevel.

Definition LogEntry : Type := Level * string.

(** Everything that changes while a pipeline runs. [gpuCounters] is the map
    the field [m.gpuCounters] points to ([None] is the nil map); [sink] and
    [logs] record, oldest first, the calls on the push sink and on logrus. *)
Record State := mkState {
  gpuCounters : option (gmap string float);
  sink : list OtelEvent;
  logs : list LogEntry
}.

Definition M (A : Type) : Type := State → Outcome A * State.

Global Instance M_ret : MRet M := λ A a s, (Done a, s).
Global Instance M_bind : MBind M := λ A B f ma s,
  match ma s with
  | (Done a, s') => f a s'
  | (Panicked p, s') => (Panicked p, s')
  end.

Definition panic {A} (p : PanicValue) : M A := λ s, (Panicked p, s).

Definition logf (lvl : Level) (msg : string) : M unit := λ s,
  (Done (), mkState (gpuCounters s) (sink s) (logs s ++ [(lvl, msg)])).

Definition emit (e : OtelEvent) : M unit := λ s,
  (Done (), mkState (gpuCounters s) (sink s ++ [e]) (logs s)).

(** [for _, x := range xs { body }] where the body may panic. *)
Fixpoint forEach {A} (body : A → M unit) (xs : list A) : M unit :=
  match xs with
  | [] => mret ()
  | x :: xs => body x ;; forEach body xs
  end.

(** The same loop when the body updates a local variable. *)
Fixpoint forEachWith {A B} (body : B → A → M B) (b : B) (xs : list A) : M B :=
  match xs with
  | [] => mret b
  | x :: xs => b' ← body b x; forEachWith body b' xs
  end.

(** ** The pipeline and what it is built from *)

(** [dcgm.FE_GPU], [dcgm.FE_SWITCH], ... : the five entity groups. *)
Inductive EntityGroup := FE_GPU | FE_SWITCH | FE_LINK | FE_CPU | FE_CPU_CORE.

Global Instance EntityGroup_eq_dec : EqDecision EntityGroup.
Proof. solve_decision. Defined.

(** The five format strings of the package. *)
Inductive Format :=
  | MigFormat | SwitchFormat | LinkFormat | CpuFormat | CpuCoreFormat.

Global Instance Format_eq_dec : EqDecision Format.
Proof. solve_decision. Defined.

(** [template.Must(template.New(name).Parse(format))] *)
Record Template := mkTemplate {
  templateName : string;
  templateFormat : Format
}.

(** [config.OtelMeter]: the metering API that hands out instruments. *)
Record Meter := mkMeter {
  Float64Gauge : string → string → result Instrument;
  Float64Counter : string → string → result Instrument;
  Float64Histogram : string → string → result Instrument
}.

Record Config := mkConfig {
  CollectInterval : Z;
  Kubernetes : bool;
  HPCJobMappingDir : string;
  OtelMeter : option Meter
}.

Record OtelMeters := mkOtelMeters {
  Gauge : gmap string Instrument;
  CounterMeters : gmap string Instrument;
  Histogram : gmap string Instrument
}.

(** The places of [run] that range over a [MetricsByCounter]. *)
Inductive RangeSite :=
  | ObserveSite (g : EntityGroup)
  | AccumulateSite.

(** What the package takes from outside itself.
    [World]: the state of what lies outside the process when a cycle runs
    (the devices behind DCGM, the pods, the job directory). [SystemInfo],
    [Item], [Cleanup]: types of the packages that the pipeline only passes
    around. Then four library functions: [strings.ToLower],
    [strconv.ParseFloat(s, 64)], [strconv.FormatFloat(f, 'f', -1, 64)] and
    [Template.Execute] into a [bytes.Buffer] (the text written and the
    error). *)
Class Externals := {
  World : Type;
  SystemInfo : Type;
  Item : Type;
  Cleanup : Type;
  ToLower : string → string;
  ParseFloat : string → result float;
  FormatFloat : float → string;
  Execute : Template → MetricsByCounter → string * option error
}.

Record DCGMCollector `{!Externals} := mkDCGMCollector {
  SysInfo : SystemInfo;
  GetMetrics : World → result MetricsByCounter
}.
Global Arguments mkDCGMCollector {_} _ _.

(** [Process] changes the grouping it is given in place; here it returns
    the grouping as it left it. *)
Record Transform `{!Externals} := mkTransform {
  Name : string;
  Process : World → MetricsByCounter → SystemInfo → MetricsByCounter * option error
}.
Global Arguments mkTransform {_} _ _.

Record MetricsPipeline `{!Externals} := mkMetricsPipeline {
  config : Config;
  transformations : list Transform;
  migMetricsFormat : Template;
  switchMetricsFormat : Template;
  linkMetricsFormat : Template;
  cpuMetricsFormat : Template;
  cpuCoreMetricsFormat : Template;
  counters : list Counter;
  gpuCollector : option DCGMCollector;
  switchCollector : option DCGMCollector;
  linkCollector : option DCGMCollector;
  cpuCollector : option DCGMCollector;
  coreCollector : option DCGMCollector;
  otelMeters : option OtelMeters
}.
Global Arguments mkMetricsPipeline {_} _ _ _ _ _ _ _ _ _ _ _ _ _ _.

(** What one cycle meets: the outside world and the orders in which the
    runtime makes each [range] visit a map. *)
Record Env `{!Externals} := mkEnv {
  world : World;
  visit : RangeSite → MetricsByCounter → list Counter;
  visitLabels : gmap string string → list string
}.
Global Arguments mkEnv {_} _ _ _.

Definition EnvOK `{!Externals} (env : Env) : Prop :=
  (∀ site g, VisitOrder (visit env site g) g) ∧
  (∀ m, VisitOrder (visitLabels env m) m).

(** *** [NewMetricsPipeline] *)

Definition getTransformations `{!Externals}
    (NewPodMapper : Config → result Transform) (newHPCMapper : Config → Transform)
    (c : Config) : list Transform * list LogEntry :=
  let '(transformations, logged) :=
    if Kubernetes c then
      match NewPodMapper c with
      | Err err =>
          ([], [(WarnLevel, "Could not enable kubernetes metric collection: " +:+ err)])
      | Ok podMapper => ([podMapper], [])
      end
    else ([], []) in
  if decide (HPCJobMappingDir c ≠ "")
  then (transformations ++ [newHPCMapper c], logged)
  else (transformations, logged).

Definition DCGMCollectorConstructor `{!Externals} : Type :=
  list Counter → string → Config → Item → option DCGMCollector * Cleanup * option error.

(** One of the five blocks
    [if item, exists := fieldEntityGroupTypeSystemInfo.Get(g); exists { ... }]. *)
Definition newCollectorFor `{!Externals} (cfg : Config) (cs : list Counter) (hostname : string)
    (newDCGMCollector : DCGMCollectorConstructor)
    (Get : EntityGroup → option Item) (g : EntityGroup) (warning : string)
    : option DCGMCollector * list Cleanup * list LogEntry :=
  match Get g with
  | Some item =>
      let '(collector, cleanup, err) := newDCGMCollector cs hostname cfg item in
      (collector, [cleanup],
       match err with Some _ => [(WarnLevel, warning)] | None => [] end)
  | None => (None, [], [])
  end.

(** The body of [for _, counter := range counters] that registers the
    instruments. *)
Definition registerCounter `{!Externals} (meter : Meter) (om : OtelMeters) (counter : Counter)
    : result OtelMeters :=
  let fieldName := ToLower (FieldName counter) in
  if decide (PromType counter = "gauge") then
    match Float64Gauge meter fieldName (Help counter) with
    | Ok i => Ok (mkOtelMeters (<[fieldName := i]> (Gauge om)) (CounterMeters om) (Histogram om))
    | Err err => Err ("failed to create gauge metric " +:+ FieldName counter +:+ ": " +:+ err)
    end
  else if decide (PromType counter = "counter") then
    match Float64Counter meter fieldName (Help counter) with
    | Ok i => Ok (mkOtelMeters (Gauge om) (<[fieldName := i]> (CounterMeters om)) (Histogram om))
    | Err err => Err ("failed to create counter metric " +:+ FieldName counter +:+ ": " +:+ err)
    end
  else if decide (PromType counter = "histogram") then
    match Float64Histogram meter fieldName (Help counter) with
    | Ok i => Ok (mkOtelMeters (Gauge om) (CounterMeters om) (<[fieldName := i]> (Histogram om)))
    | Err err => Err ("failed to create histogram metric " +:+ FieldName counter +:+ ": " +:+ err)
    end
  else Ok om.

Fixpoint registerCounters `{!Externals} (meter : Meter) (om : OtelMeters) (cs : list Counter)
    : result OtelMeters :=
  match cs with
  | [] => Ok om
  | counter :: cs =>
      match registerCounter meter om counter with
      | Ok om' => registerCounters meter om' cs
      | Err err => Err err
      end
  end.

Definition parsedTemplates : Template * Template * Template * Template * Template :=
  (mkTemplate "migMetrics" MigFormat,
   mkTemplate "switchMetrics" SwitchFormat,
   mkTemplate "switchMetrics" LinkFormat,
   mkTemplate "cpuMetrics" CpuFormat,
   mkTemplate "cpuMetrics" CpuCoreFormat).

(** The pipeline, the state it starts in ([gpuCounters] is an empty map)
    and the cleanups, or the error; and what was logged on the way. *)
Definition NewMetricsPipeline `{!Externals}
    (NewPodMapper : Config → result Transform) (newHPCMapper : Config → Transform)
    (cfg : Config) (cs : list Counter) (hostname : string)
    (newDCGMCollector : DCGMCollectorConstructor) (Get : EntityGroup → option Item)
    : result (MetricsPipeline * State * list Cleanup) * list LogEntry :=
  let mk := newCollectorFor cfg cs hostname newDCGMCollector Get in
  let '(gpuC, cl1, lg1) := mk FE_GPU "Cannot create DCGMCollector for dcgm.FE_GPU" in
  let '(switchC, cl2, lg2) := mk FE_SWITCH "Cannot create DCGMCollector for dcgm.FE_SWITCH" in
  let '(linkC, cl3, lg3) := mk FE_LINK "Cannot create DCGMCollector for dcgm.FE_LINK" in
  let '(cpuC, cl4, lg4) := mk FE_CPU "Cannot create DCGMCollector for dcgm.FE_CPU" in
  let '(coreC, cl5, lg5) := mk FE_CPU_CORE "Cannot create DCGMCollector for dcgm.FE_CPU_CORE" in
  let '(transforms, lg6) := getTransformations NewPodMapper newHPCMapper cfg in
  let logged :=
    [(DebugLevel, "Counters are initialized")] ++
    lg1 ++ lg2 ++ lg3 ++ lg4 ++ lg5 ++ lg6 in
  let meters :=
    match OtelMeter cfg with
    | Some meter =>
        match registerCounters meter (mkOtelMeters ∅ ∅ ∅) cs with
        | Ok om => Ok (Some om)
        | Err err => Err err
        end
    | None => Ok None
    end in
  match meters with
  | Err err => (Err err, logged)
  | Ok om =>
      let '(mig, sw, link, cpu, core) := parsedTemplates in
      (Ok (mkMetricsPipeline cfg transforms mig sw link cpu core cs
             gpuC switchC linkC cpuC coreC om,
           mkState (Some ∅) [] logged,
           cl1 ++ cl2 ++ cl3 ++ cl4 ++ cl5),
       logged)
  end.

(** [NewMetricsPipelineWithGPUCollector] ("primarely for testing"): no
    transformations, no instruments, and [gpuCounters] left nil.
    [collectorCounters] is [collector.Counters]. *)
Definition NewMetricsPipelineWithGPUCollector `{!Externals} (c : Config)
    (collector : DCGMCollector) (collectorCounters : list Counter)
    : MetricsPipeline * State :=
  let '(mig, sw, link, cpu, core) := parsedTemplates in
  (mkMetricsPipeline c [] mig sw link cpu core collectorCounters
     (Some collector) None None None None None,
   mkState None [] []).

(** *** The Meter Emitter: [OtelObserve] and the five [OtelObserve*Metrics] *)

(** [for i := range attrs { attrs[i].Key = ToLower(attrs[i].Key) }]; the
    slice shares its array with the caller's, which sees the change. *)
Definition lowerKeys `{!Externals} (attrs : list KeyValue) : list KeyValue :=
  (λ kv, (ToLower kv.1, kv.2)) <$> attrs.

(** One [case] of the [switch counter.PromType]: look the instrument up,
    parse the value, call the instrument. *)
Definition observeWith `{!Externals} (m : MetricsPipeline) (kind : InstrumentKind)
    (registry : OtelMeters → gmap string Instrument)
    (fieldName : string) (metricVal : Metric) (attrs : list KeyValue) : M unit :=
  match otelMeters m with
  | None => panic NilPointerDereference
  | Some om =>
      match registry om !! fieldName with
      | None => panic (InstrumentNotFound kind fieldName)
      | Some c =>
          match ParseFloat (Value metricVal) with
          | Err err => panic (ValueNotFloat (Value metricVal) err)
          | Ok val => emit (mkOtelEvent c val attrs)
          end
      end
  end.

(** Returns [attrs] as the caller finds it afterwards. *)
Definition OtelObserve `{!Externals} (m : MetricsPipeline) (counter : Counter) (metricVal : Metric)
    (attrs : list KeyValue) : M (list KeyValue) :=
  let attrs := lowerKeys attrs in
  let fieldName := ToLower (FieldName counter) in
  (if decide (PromType counter = "counter") then
     observeWith m KCounter CounterMeters fieldName metricVal attrs
   else if decide (PromType counter = "gauge") then
     observeWith m KGauge Gauge fieldName metricVal attrs
   else if decide (PromType counter = "histogram") then
     observeWith m KHistogram Histogram fieldName metricVal attrs
   else mret ()) ;;
  mret attrs.

(** [for k, v := range metricVal.Labels { append } ] and the same for
    [Attributes]. *)
Definition labelAttrs `{!Externals} (env : Env) (metricVal : Metric) : list KeyValue :=
  rangeMap (visitLabels env (Labels metricVal)) (Labels metricVal) ++
  rangeMap (visitLabels env (Attributes metricVal)) (Attributes metricVal).

Definition hostnameAttr (metricVal : Metric) : list KeyValue :=
  if decide (Hostname metricVal ≠ "") then [("Hostname", Hostname metricVal)] else [].

Definition hostnameCount (first : Metric) : nat :=
  if decide (Hostname first ≠ "") then 1 else 0.

(** The shape shared by the five emitters: for every counter, size the
    buffer from [metricVals[0]], then append each metric's attributes to
    the same buffer and observe. *)
Definition observeGroup `{!Externals} (env : Env) (m : MetricsPipeline) (g : EntityGroup)
    (capacity : Metric → nat) (attrsOf : Metric → list KeyValue)
    (metrics : MetricsByCounter) : M unit :=
  forEach (λ '(counter, metricVals),
    match metricVals with
    | [] => panic (IndexOutOfRange 0 0)
    | first :: _ =>
        let n := capacity first in
        let attrs : list KeyValue := [] (* make([]attribute.KeyValue, 0, n) *) in
        forEachWith (λ attrs metricVal,
          OtelObserve m counter metricVal (attrs ++ attrsOf metricVal))
          attrs metricVals ;;
        mret ()
    end) (rangeMap (visit env (ObserveSite g) metrics) metrics).

Definition OtelObserveGpuMetrics `{!Externals} (env : Env) (m : MetricsPipeline) : MetricsByCounter → M unit :=
  observeGroup env m FE_GPU
    (λ first,
       5 + size (Labels first) + size (Attributes first)
       + (if decide (MigProfile first ≠ "") then 2 else 0) + hostnameCount first)%nat
    (λ metricVal,
       [("gpu", GPU metricVal); (UUID metricVal, GPUUUID metricVal);
        ("pci_bus_id", GPUPCIBusID metricVal); ("device", GPUDevice metricVal);
        ("modelName", GPUModelName metricVal)] ++
       (if decide (MigProfile metricVal ≠ "")
        then [("GPU_I_PROFILE", MigProfile metricVal);
              ("GPU_I_ID", GPUInstanceID metricVal)]
        else []) ++
       hostnameAttr metricVal ++ labelAttrs env metricVal).

Definition OtelObserveSwitchMetrics `{!Externals} (env : Env) (m : MetricsPipeline) : MetricsByCounter → M unit :=
  observeGroup env m FE_SWITCH
    (λ first, 2 + size (Labels first) + size (Attributes first) + hostnameCount first)%nat
    (λ metricVal,
       [("nvswitch", GPU metricVal)] ++ hostnameAttr metricVal ++ labelAttrs env metricVal).

Definition OtelObserveLinkMetrics `{!Externals} (env : Env) (m : MetricsPipeline) : MetricsByCounter → M unit :=
  observeGroup env m FE_LINK
    (λ first, 2 + size (Labels first) + size (Attributes first) + hostnameCount first)%nat
    (λ metricVal,
       [("nvlink", GPU metricVal); ("nvswitch", GPUDevice metricVal)] ++
       hostnameAttr metricVal ++ labelAttrs env metricVal).

Definition OtelObserveCpuMetrics `{!Externals} (env : Env) (m : MetricsPipeline) : MetricsByCounter → M unit :=
  observeGroup env m FE_CPU
    (λ first, 1 + size (Labels first) + size (Attributes first) + hostnameCount first)%nat
    (λ metricVal,
       [("cpu", GPU metricVal)] ++ hostnameAttr metricVal ++ labelAttrs env metricVal).

Definition OtelObserveCpuCoreMetrics `{!Externals} (env : Env) (m : MetricsPipeline) : MetricsByCounter → M unit :=
  observeGroup env m FE_CPU_CORE
    (λ first, 2 + size (Labels first) + size (Attributes first) + hostnameCount first)%nat
    (λ metricVal,
       [("cpucore", GPU metricVal); ("cpu", GPUDevice metricVal)] ++
       hostnameAttr metricVal ++ labelAttrs env metricVal).

(** *** The counter accumulator (the loop over [metrics] in [run]) *)

(** [newCounter := counter; newCounter.FieldName += "_COUNTER";
    newCounter.PromType = "counter"] *)
Definition derivedCounter (counter : Counter) : Counter :=
  mkCounter (FieldID counter) (FieldName counter +:+ "_COUNTER") "counter" (Help counter).

(** [newMetricVal := metricVal; newMetricVal.Counter = newCounter;
    newMetricVal.Value = value] *)
Definition derivedMetric (metricVal : Metric) (newCounter : Counter) (value : string) : Metric :=
  mkMetric newCounter value (GPU metricVal) (GPUUUID metricVal) (GPUDevice metricVal)
    (GPUModelName metricVal) (GPUPCIBusID metricVal) (UUID metricVal)
    (MigProfile metricVal) (GPUInstanceID metricVal) (Hostname metricVal)
    (Labels metricVal) (Attributes metricVal).

(** [gc[fp]] on a [map[string]float64]: zero when [fp] is absent. *)
Definition readCounter (gc : gmap string float) (fp : string) : float :=
  default 0%float (gc !! fp).

(** [m.gpuCounters[fp] += val], then the read [m.gpuCounters[fp]]. *)
Definition addToCounter (fp : string) (val : float) : M float := λ s,
  match gpuCounters s with
  | None => (Panicked AssignmentToNilMap, s)
  | Some gc =>
      let total := PrimFloat.add (readCounter gc fp) val in
      (Done total, mkState (Some (<[fp := total]> gc)) (sink s) (logs s))
  end.

(** The body of [for _, metricVal := range metricVals]. *)
Definition accumulateMetric `{!Externals} (newCounter : Counter) (newMetrics : list Metric)
    (metricVal : Metric) : M (list Metric) :=
  let fp := metricFingerprint metricVal in
  match ParseFloat (Value metricVal) with
  | Err err =>
      logf WarnLevel ("Failed to parse metric value " +:+ Value metricVal +:+
                      " as uint64: " +:+ err) ;;
      mret newMetrics
  | Ok val =>
      total ← addToCounter fp val;
      mret (newMetrics ++ [derivedMetric metricVal newCounter (FormatFloat total)])
  end.

(** The body of [for counter, metricVals := range metrics]. *)
Definition accumulateCounter `{!Externals} (extended : MetricsByCounter)
    (entry : Counter * list Metric) : M MetricsByCounter :=
  let '(counter, metricVals) := entry in
  let newCounter := derivedCounter counter in
  newMetrics ← forEachWith (accumulateMetric newCounter) [] metricVals;
  mret (<[newCounter := newMetrics]> extended).

(** [extended := maps.Clone(metrics)] and the loop that fills it. *)
Definition extendWithCounters `{!Externals} (env : Env) (metrics : MetricsByCounter) : M MetricsByCounter :=
  forEachWith accumulateCounter metrics
    (rangeMap (visit env AccumulateSite metrics) metrics).

(** *** [FormatMetrics] *)

Definition FormatMetrics `{!Externals} (t : Template) (groupedMetrics : MetricsByCounter)
    : string * option error :=
  match Execute t groupedMetrics with
  | (_, Some err) => ("", Some err)
  | (res, None) => (res, None)
  end.

(** *** [run]: one cycle *)

(** How a block of [run] ends: it falls through with the text gathered so
    far in [formatted], or it returns from [run]. *)
Inductive Flow :=
  | Next (formatted : string)
  | Return (text : string) (err : option error).

(** [for _, transform := range m.transformations { transform.Process(...) }] *)
Fixpoint applyTransformations `{!Externals} (w : World) (ts : list Transform)
    (metrics : MetricsByCounter) (sysInfo : SystemInfo) : result MetricsByCounter :=
  match ts with
  | [] => Ok metrics
  | transform :: ts =>
      match Process transform w metrics sysInfo with
      | (_, Some err) =>
          Err ("failed to transform metrics for transform '" +:+ Name transform +:+
               "'; err: " +:+ err)
      | (metrics, None) => applyTransformations w ts metrics sysInfo
      end
  end.

Definition whenMetered `{!Externals} (m : MetricsPipeline) (observe : M unit) : M unit :=
  match OtelMeter (config m) with
  | Some _ => observe
  | None => mret ()
  end.

(** The GPU block from the collector to the grouping that goes to the
    template: collect, transform, emit, extend. [inl] when the block returned
    from [run] on the way. *)
Definition gpuExtended `{!Externals} (env : Env) (m : MetricsPipeline)
    (collector : DCGMCollector) : M (Flow + MetricsByCounter) :=
  match GetMetrics collector (world env) with
  | Err err => mret (inl (Return "" (Some ("failed to collect gpu metrics; err: " +:+ err))))
  | Ok metrics =>
      match applyTransformations (world env) (transformations m) metrics
              (SysInfo collector) with
      | Err err => mret (inl (Return "" (Some err)))
      | Ok metrics =>
          whenMetered m (OtelObserveGpuMetrics env m metrics) ;;
          extended ← extendWithCounters env metrics;
          mret (inr extended)
      end
  end.

(** [if m.gpuCollector != nil { ... }] *)
Definition gpuStage `{!Externals} (env : Env) (m : MetricsPipeline) : M Flow :=
  match gpuCollector m with
  | None => mret (Next "")
  | Some collector =>
      r ← gpuExtended env m collector;
      match r with
      | inl flow => mret flow
      | inr extended =>
          match FormatMetrics (migMetricsFormat m) extended with
          | (_, Some err) =>
              mret (Return "" (Some ("failed to format metrics; err: " +:+ err)))
          | (formatted, None) => mret (Next formatted)
          end
      end
  end.

(** The block of each other group; they differ in the collector, the
    emitter, the template and the two messages. *)
Definition groupStage `{!Externals} (env : Env) (m : MetricsPipeline)
    (collector : option DCGMCollector) (collectFailed : string)
    (observe : MetricsByCounter → M unit) (t : Template) (formatFailed : string)
    (formatted : string) : M Flow :=
  match collector with
  | None => mret (Next formatted)
  | Some collector =>
      match GetMetrics collector (world env) with
      | Err err => mret (Return "" (Some (collectFailed +:+ err)))
      | Ok metrics =>
          whenMetered m (observe metrics) ;;
          if decide (0 < size metrics) then
            let '(groupFormatted, err) := FormatMetrics t metrics in
            match err with
            | Some err => logf WarnLevel (formatFailed +:+ err)
            | None => mret ()
            end ;;
            mret (Next (formatted +:+ groupFormatted))
          else mret (Next formatted)
      end
  end.

Definition switchStage `{!Externals} (env : Env) (m : MetricsPipeline) : string → M Flow :=
  groupStage env m (switchCollector m) "failed to collect switch metrics; err: "
    (OtelObserveSwitchMetrics env m) (switchMetricsFormat m)
    "Failed to format switch metrics with error: ".

Definition linkStage `{!Externals} (env : Env) (m : MetricsPipeline) : string → M Flow :=
  groupStage env m (linkCollector m) "failed to collect link metrics; err: "
    (OtelObserveLinkMetrics env m) (linkMetricsFormat m)
    "failed to format link metrics; err: ".

Definition cpuStage `{!Externals} (env : Env) (m : MetricsPipeline) : string → M Flow :=
  groupStage env m (cpuCollector m) "failed to collect CPU metrics; err: "
    (OtelObserveCpuMetrics env m) (cpuMetricsFormat m)
    "Failed to format cpu metrics with error: ".

Definition coreStage `{!Externals} (env : Env) (m : MetricsPipeline) : string → M Flow :=
  groupStage env m (coreCollector m) "failed to collect CPU core metrics; err: "
    (OtelObserveCpuCoreMetrics env m) (cpuCoreMetricsFormat m)
    "failed to format cpu core metrics; err: ".

(** Go on with the next block unless the last one returned. *)
Definition andThen (block : M Flow) (next : string → M Flow) : M Flow :=
  flow ← block;
  match flow with
  | Next formatted => next formatted
  | Return text err => mret (Return text err)
  end.

Definition run `{!Externals} (env : Env) (m : MetricsPipeline) : M (string * option error) :=
  flow ← andThen (gpuStage env m) (λ formatted,
          andThen (switchStage env m formatted) (λ formatted,
          andThen (linkStage env m formatted) (λ formatted,
          andThen (cpuStage env m formatted) (λ formatted,
          coreStage env m formatted))));
  match flow with
  | Next formatted => mret (formatted, None)
  | Return text err => mret (text, err)
  end.

(** *** [Run]: the scheduler loop *)

(** The channel [out]: its buffer (oldest first), its capacity, the number
    of receivers parked on it, and what was handed to parked receivers. *)
Record Chan := mkChan {
  buf : list string;
  cap : nat;
  parked : nat;
  handed : list string
}.

Inductive SendOutcome :=
  | Sent (out : Chan)
  | SendBlocks.

(** [out <- v]: hand [v] to a parked receiver, or put it in the buffer, or
    else block until a receiver comes. *)
Definition send (out : Chan) (v : string) : SendOutcome :=
  if decide (0 < parked out) then
    Sent (mkChan (buf out) (cap out) (parked out - 1) (handed out ++ [v]))
  else if decide (length (buf out) < cap out) then
    Sent (mkChan (buf out ++ [v]) (cap out) (parked out) (handed out))
  else SendBlocks.

(** Which [case] of the [select] fired. *)
Inductive Selected := StopCase | TickCase.

(** How one pass through the [for { select { ... } }] ends. *)
Inductive LoopStep :=
  | Returns
  | Continues (out : Chan)
  | BlocksSending (v : string).

Definition iteration `{!Externals} (env : Env) (m : MetricsPipeline) (sel : Selected) (out : Chan)
    : M LoopStep :=
  match sel with
  | StopCase => mret Returns
  | TickCase =>
      r ← run env m;
      match r with
      | (_, Some err) =>
          logf ErrorLevel ("Failed to collect metrics; err: " +:+ err) ;;
          match send out "" with
          | Sent out => mret (Continues out)
          | SendBlocks => mret (BlocksSending "")
          end
      | (o, None) =>
          if decide (length (buf out) = cap out) then
            logf ErrorLevel "Channel is full skipping." ;;
            mret (Continues out)
          else
            match send out o with
            | Sent out => mret (Continues out)
            | SendBlocks => mret (BlocksSending o)
            end
      end
  end.

(** The loop along a finite run of [select] outcomes, each with the cycle
    environment of that moment. *)
Fixpoint loop `{!Externals} (m : MetricsPipeline) (events : list (Selected * Env)) (out : Chan)
    : M LoopStep :=
  match events with
  | [] => mret (Continues out)
  | (sel, env) :: events =>
      step ← iteration env m sel out;
      match step with
      | Continues out => loop m events out
      | Returns => mret Returns
      | BlocksSending v => mret (BlocksSending v)
      end
  end.

Definition Run `{!Externals} (m : MetricsPipeline) (events : list (Selected * Env)) (out : Chan)
    : M LoopStep :=
  logf InfoLevel "Pipeline starting" ;;
  loop m events out.

(** ** What the loops of the accumulator compute

    The accumulator map after one metric, after a list of metrics, and the
    derived metrics a list gives, written as plain functions of the map the
    loop starts from. *)

Definition addMetric `{!Externals} (gc : gmap string float) (metricVal : Metric)
    : gmap string float :=
  match ParseFloat (Value metricVal) with
  | Ok val =>
      <[metricFingerprint metricVal :=
          PrimFloat.add (readCounter gc (metricFingerprint metricVal)) val]> gc
  | Err _ => gc
  end.

Definition totals `{!Externals} (gc : gmap string float) (metricVals : list Metric)
    : gmap string float :=
  foldl addMetric gc metricVals.

Fixpoint derivedList `{!Externals} (gc : gmap string float) (newCounter : Counter)
    (metricVals : list Metric) : list Metric :=
  match metricVals with
  | [] => []
  | metricVal :: metricVals =>
      match ParseFloat (Value metricVal) with
      | Ok val =>
          let total := PrimFloat.add (readCounter gc (metricFingerprint metricVal)) val in
          derivedMetric metricVal newCounter (FormatFloat total)
          :: derivedList (<[metricFingerprint metricVal := total]> gc) newCounter metricVals
      | Err _ => derivedList gc newCounter metricVals
      end
  end.

Definition parseWarning `{!Externals} (metricVal : Metric) : list LogEntry :=
  match ParseFloat (Value metricVal) with
  | Ok _ => []
  | Err err => [(WarnLevel, "Failed to parse metric value " +:+ Value metricVal +:+
                             " as uint64: " +:+ err)]
  end.

(** The metrics of the entries a loop visits, in the order it meets them. *)
Definition metricsOf (entries : list (Counter * list Metric)) : list Metric :=
  entries ≫= snd.

(** [v] added [k] times to zero, one float64 addition after the other. *)
Definition kfold (k : nat) (v : float) : float :=
  Nat.iter k (λ a, PrimFloat.add a v) 0%float.

(** The grouping that reaches the emitter and the accumulator in a cycle:
    what the GPU collector returned, after the transformations. *)
Definition gpuSample `{!Externals} (env : Env) (m : MetricsPipeline)
    (collector : DCGMCollector) : option MetricsByCounter :=
  match GetMetrics collector (world env) with
  | Ok metrics =>
      match applyTransformations (world env) (transformations m) metrics
              (SysInfo collector) with
      | Ok metrics => Some metrics
      | Err _ => None
      end
  | Err _ => None
  end.

(** The entries of a grouping whose metric has fingerprint [fp]. *)
Definition series (g : MetricsByCounter) (fp : string) : list Metric :=
  filter (λ metricVal, metricFingerprint metricVal = fp) (metricsOf (map_to_list g)).

(** The instrument registered for a counter: the entry under its lower-cased
    field name in the map of its [PromType]. *)
Definition registered `{!Externals} (om : OtelMeters) (counter : Counter)
    : option Instrument :=
  if decide (PromType counter = "counter") then CounterMeters om !! ToLower (FieldName counter)
  else if decide (PromType counter = "gauge") then Gauge om !! ToLower (FieldName counter)
  else if decide (PromType counter = "histogram") then Histogram om !! ToLower (FieldName counter)
  else None.

(** The instrument [OtelObserve] looks up for a counter, if it finds one. *)
Definition instrumentFor `{!Externals} (m : MetricsPipeline) (counter : Counter)
    : option Instrument :=
  om ← otelMeters m; registered om counter.

Definition Metered (counter : Counter) : Prop :=
  PromType counter = "counter" ∨ PromType counter = "gauge" ∨
  PromType counter = "histogram".

(** The blocks of [run] in the order they run. *)
Definition stageOf `{!Externals} (env : Env) (m : MetricsPipeline) (g : EntityGroup)
    : string → M Flow :=
  match g with
  | FE_GPU => λ _, gpuStage env m
  | FE_SWITCH => switchStage env m
  | FE_LINK => linkStage env m
  | FE_CPU => cpuStage env m
  | FE_CPU_CORE => coreStage env m
  end.

Fixpoint stages `{!Externals} (env : Env) (m : MetricsPipeline) (gs : list EntityGroup)
    (formatted : string) : M Flow :=
  match gs with
  | [] => mret (Next formatted)
  | g :: gs => andThen (stageOf env m g formatted) (stages env m gs)
  end.

Definition groupsBefore (g : EntityGroup) : list EntityGroup :=
  match g with
  | FE_GPU => []
  | FE_SWITCH => [FE_GPU]
  | FE_LINK => [FE_GPU; FE_SWITCH]
  | FE_CPU => [FE_GPU; FE_SWITCH; FE_LINK]
  | FE_CPU_CORE => [FE_GPU; FE_SWITCH; FE_LINK; FE_CPU]
  end.

Definition collectorOf `{!Externals} (m : MetricsPipeline) (g : EntityGroup)
    : option DCGMCollector :=
  match g with
  | FE_GPU => gpuCollector m
  | FE_SWITCH => switchCollector m
  | FE_LINK => linkCollector m
  | FE_CPU => cpuCollector m
  | FE_CPU_CORE => coreCollector m
  end.

(** The text [run] puts before the collector's error. *)
Definition collectFailed (g : EntityGroup) : string :=
  match g with
  | FE_GPU => "failed to collect gpu metrics; err: "
  | FE_SWITCH => "failed to collect switch metrics; err: "
  | FE_LINK => "failed to collect link metrics; err: "
  | FE_CPU => "failed to collect CPU metrics; err: "
  | FE_CPU_CORE => "failed to collect CPU core metrics; err: "
  end.

(** ** The library functions, for running the model on examples

    [strconv] and [strings] are outside the package. The functions below
    follow their documentation on the inputs the examples use. *)

Module Strconv.

(** The double quote character. *)
Definition dquote : string := String (ascii_of_nat 34) "".

Definition syntaxError (s : string) : string :=
  "strconv.ParseFloat: parsing " +:+ dquote +:+ s +:+ dquote +:+ ": invalid syntax".

Definition rangeError (s : string) : string :=
  "strconv.ParseFloat: parsing " +:+ dquote +:+ s +:+ dquote +:+ ": value out of range".

Definition code (c : ascii) : Z := Z.of_N (Ascii.N_of_ascii c).

Definition isDigit (c : ascii) : bool := (48 <=? code c)%Z && (code c <=? 57)%Z.

(** [lower(c)] of the package: [c | ('x' - 'X')]. *)
Definition lower (c : ascii) : ascii :=
  ascii_of_N (N.lor (Ascii.N_of_ascii c) 32).

(** The digits at the front of [s]: their value after [acc], how many they
    are after [n], and the rest of [s]. *)
Fixpoint readDigits (s : string) (acc : Z) (n : Z) : Z * Z * string :=
  match s with
  | String c s' =>
      if isDigit c then readDigits s' (10 * acc + (code c - 48))%Z (n + 1)%Z
      else (acc, n, s)
  | EmptyString => (acc, n, s)
  end.

Fixpoint lowerAll (s : string) : string :=
  match s with
  | String c s' => String (lower c) (lowerAll s')
  | EmptyString => EmptyString
  end.

(** The nearest binary64 to [n / d] (for [n], [d] positive), ties to even, as
    [(m, e)] for [m * 2^e]; [None] when it is beyond the largest finite
    value. *)
Definition scaled (n d e : Z) : Z * Z :=
  if (0 <=? e)%Z then (n, d * 2 ^ e)%Z else (n * 2 ^ (- e), d)%Z.

Definition nearest (n d : Z) : option (Z * Z) :=
  let e0 := (Z.log2 n - Z.log2 d - 52)%Z in
  let e1 :=
    let '(n', d') := scaled n d e0 in
    if (n' / d' <? 2 ^ 52)%Z then (e0 - 1)%Z
    else if (2 ^ 53 <=? n' / d')%Z then (e0 + 1)%Z else e0 in
  let e := Z.max e1 (-1074) in
  let '(n', d') := scaled n d e in
  let q := (n' / d')%Z in
  let r := (n' - q * d')%Z in
  let m :=
    match (2 * r ?= d')%Z with
    | Lt => q
    | Gt => (q + 1)%Z
    | Eq => if Z.even q then q else (q + 1)%Z
    end in
  let '(m, e) := if (m =? 2 ^ 53)%Z then (2 ^ 52, e + 1)%Z else (m, e) in
  if (971 <? e)%Z then None else Some (m, e).

Definition toFloat (neg : bool) (m e : Z) : float :=
  match m with
  | Zpos p => SF2Prim (S754_finite neg p e)
  | _ => SF2Prim (S754_zero neg)
  end.

(** [mant * 10^exp10] with the sign, rounded. *)
Definition decimalToFloat (s : string) (neg : bool) (mant ndigits exp10 : Z) : result float :=
  if (mant =? 0)%Z then Ok (toFloat neg 0 0)
  else if (310 <? ndigits + exp10)%Z then Err (rangeError s)
  else if (ndigits + exp10 <? -330)%Z then Ok (toFloat neg 0 0)
  else
    let '(n, d) := if (0 <=? exp10)%Z then (mant * 10 ^ exp10, 1)%Z
                   else (mant, 10 ^ (- exp10))%Z in
    match nearest n d with
    | Some (m, e) => Ok (toFloat neg m e)
    | None => Err (rangeError s)
    end.

Definition splitSign (s : string) : bool * string :=
  match s with
  | String "+"%char s' => (false, s')
  | String "-"%char s' => (true, s')
  | _ => (false, s)
  end.

(** [special]: the infinities and NaN, in any letter case. *)
Definition special (s : string) : option float :=
  let l := lowerAll s in
  if decide (l = "nan") then Some nan
  else
    let '(neg, body) := splitSign l in
    if decide (body = "inf" ∨ body = "infinity")
    then Some (if neg then neg_infinity else infinity)
    else None.

(** [strconv.ParseFloat(s, 64)] on decimal literals
    [[+-]digits[.digits][(e|E)[+-]digits]] and on the special values.
    Hexadecimal literals and the digit separator [_] are left out: this
    function reports them as a syntax error. *)
Definition ParseFloat (s : string) : result float :=
  match special s with
  | Some f => Ok f
  | None =>
      let '(neg, s1) := splitSign s in
      let '(ival, icount, s2) := readDigits s1 0 0 in
      let '(mant, fcount, s3) :=
        match s2 with
        | String "."%char s2' =>
            let '(v, n, rest) := readDigits s2' ival 0 in (v, n, rest)
        | _ => (ival, 0%Z, s2)
        end in
      if (icount + fcount =? 0)%Z then Err (syntaxError s)
      else
        let ndigits := Z.of_nat (String.length (pretty mant)) in
        match s3 with
        | EmptyString => decimalToFloat s neg mant ndigits (- fcount)
        | String c s4 =>
            if decide (lower c = "e"%char) then
              let '(eneg, s5) := splitSign s4 in
              let '(e, ecount, s6) := readDigits s5 0 0 in
              if (ecount =? 0)%Z then Err (syntaxError s)
              else
                match s6 with
                | EmptyString =>
                    decimalToFloat s neg mant ndigits
                      ((if eneg then - e else e) - fcount)
                | _ => Err (syntaxError s)
                end
            else Err (syntaxError s)
        end
  end.

(** The decimal exponent of [x / d]: the least [p] with [x / d < 10^p]. *)
Fixpoint expUp (fuel : nat) (x d : Z) (p : Z) : Z :=
  match fuel with
  | O => p
  | S fuel => if (x <? d * 10 ^ p)%Z then p else expUp fuel x d (p + 1)%Z
  end.

Fixpoint expDown (fuel : nat) (x d : Z) (q : Z) : Z :=
  match fuel with
  | O => (- q)%Z
  | S fuel =>
      if (x * 10 ^ (q + 1) <? d)%Z then expDown fuel x d (q + 1)%Z else (- q)%Z
  end.

Definition decimalExponent (x d : Z) : Z :=
  if (d <=? x)%Z then expUp (Z.to_nat (Z.log2 x + 2)) x d 1
  else expDown (Z.to_nat (Z.log2 d + 2)) x d 0.

(** The decimal [c * 10^k] chosen at exponent [k], if one of the two
    multiples of [10^k] around [x / d] lies between [lo / d] and [hi / d]
    (bounds included when [inclusive]): the nearer one to [x / d] when both
    do, the even one on a tie. *)
Definition candidate (inclusive : bool) (x lo hi d k : Z) : option Z :=
  let '(x', lo', hi', d') :=
    if (0 <=? k)%Z then (x, lo, hi, d * 10 ^ k)%Z
    else (x * 10 ^ (- k), lo * 10 ^ (- k), hi * 10 ^ (- k), d)%Z in
  let dn := (x' / d')%Z in
  let up := (dn + 1)%Z in
  let okdown := if inclusive then (lo' <=? dn * d')%Z else (lo' <? dn * d')%Z in
  let okup := if inclusive then (up * d' <=? hi')%Z else (up * d' <? hi')%Z in
  match okdown, okup with
  | true, true =>
      match (2 * (x' - dn * d') ?= d')%Z with
      | Lt => Some dn
      | Gt => Some up
      | Eq => Some (if Z.even dn then dn else up)
      end
  | true, false => Some dn
  | false, true => Some up
  | false, false => None
  end.

Fixpoint shortestFrom (fuel : nat) (inclusive : bool) (x lo hi d k : Z) : Z * Z :=
  match fuel with
  | O => (0, 0)%Z
  | S fuel =>
      match candidate inclusive x lo hi d k with
      | Some c => (c, k)
      | None => shortestFrom fuel inclusive x lo hi d (k - 1)%Z
      end
  end.

(** The shortest decimal that rounds to [m * 2^e], as [(c, k)] for
    [c * 10^k]. The bounds are the midpoints to the neighbouring floats. *)
Definition shortest (m e : Z) : Z * Z :=
  let loNum := if (m =? 2 ^ 52)%Z && (-1074 <? e)%Z then (4 * m - 1)%Z else (4 * m - 2)%Z in
  let '(x, lo, hi, d) :=
    if (0 <=? e)%Z then (4 * m * 2 ^ e, loNum * 2 ^ e, (4 * m + 2) * 2 ^ e, 4)%Z
    else (4 * m, loNum, 4 * m + 2, 4 * 2 ^ (- e))%Z in
  shortestFrom (Z.to_nat (Z.log2 d + 25)) (Z.even m) x lo hi d (decimalExponent x d).

Fixpoint zeros (n : nat) : string :=
  match n with
  | O => ""
  | S n => String "0"%char (zeros n)
  end.

(** The [%f] layout of [c * 10^k] with no digit more than needed. *)
Definition fmtF (c k : Z) : string :=
  let digits := pretty c in
  if (0 <=? k)%Z then digits +:+ zeros (Z.to_nat k)
  else
    let len := String.length digits in
    let frac := Z.to_nat (- k) in
    if decide (frac < len)
    then String.substring 0 (len - frac) digits +:+ "." +:+
         String.substring (len - frac) frac digits
    else "0." +:+ zeros (frac - len) +:+ digits.

(** [strconv.FormatFloat(f, 'f', -1, 64)] *)
Definition FormatFloat (f : float) : string :=
  match Prim2SF f with
  | S754_nan => "NaN"
  | S754_infinity false => "+Inf"
  | S754_infinity true => "-Inf"
  | S754_zero false => "0"
  | S754_zero true => "-0"
  | S754_finite neg m e =>
      let '(c, k) := shortest (Zpos m) e in
      (if neg then "-" else "") +:+ fmtF c k
  end.

End Strconv.

(** [strings.ToLower] on ASCII text; other bytes are left as they are. *)
Fixpoint asciiLower (s : string) : string :=
  match s with
  | String c s' =>
      String (if (65 <=? Strconv.code c)%Z && (Strconv.code c <=? 90)%Z
              then ascii_of_N (N_of_ascii c + 32) else c) (asciiLower s')
  | EmptyString => EmptyString
  end.

(** ** Notions used to state what the pipeline does *)

(** The state after the accumulator ran: its map is [gc] and [lg] was logged. *)
Definition withCounters (s : State) (gc : gmap string float) (lg : list LogEntry) : State :=
  mkState (Some gc) (sink s) (logs s ++ lg).

(** One turn of the loop over the counters, on the grouping being built and
    the accumulator map. *)
Definition extendEntry `{!Externals} (st : MetricsByCounter * gmap string float)
    (entry : Counter * list Metric) : MetricsByCounter * gmap string float :=
  (<[derivedCounter entry.1 := derivedList st.2 (derivedCounter entry.1) entry.2]> st.1,
   totals st.2 entry.2).

Definition extendEntries `{!Externals} (ext : MetricsByCounter) (gc : gmap string float)
    (entries : list (Counter * list Metric)) : MetricsByCounter * gmap string float :=
  foldl extendEntry (ext, gc) entries.


(** Whatever [ma] does, the state it leaves is related by [R] to the state
    it found. *)
Definition Effect (R : relation State) {A} (ma : M A) : Prop :=
  ∀ s r s', ma s = (r, s') → R s s'.

Definition SameCounters : relation State :=
  λ s s', gpuCounters s' = gpuCounters s.

Definition SameSink : relation State :=
  λ s s', sink s' = sink s.

(** The push sink received some more events, all of them in [Q]. *)
Definition Emitted (Q : OtelEvent → Prop) : relation State :=
  λ s s', ∃ evs, sink s' = sink s ++ evs ∧ Forall Q evs.

(** [e] is what observing a metric of the grouping [g] under its own counter
    sends: the instrument of that counter and the parsed value. *)
Definition ObservationOf `{!Externals} (m : MetricsPipeline) (g : MetricsByCounter)
    (e : OtelEvent) : Prop :=
  ∃ counter metricVals metricVal,
    g !! counter = Some metricVals ∧ metricVal ∈ metricVals ∧
    instrumentFor m counter = Some (evInstrument e) ∧
    ParseFloat (Value metricVal) = Ok (evValue e).

(** [OtelObserve] goes through for this metric. *)
Definition Observable `{!Externals} (m : MetricsPipeline) (counter : Counter)
    (metricVal : Metric) : Prop :=
  Metered counter →
  is_Some (instrumentFor m counter) ∧ ∃ val, ParseFloat (Value metricVal) = Ok val.

Definition emitterOf `{!Externals} (env : Env) (m : MetricsPipeline) (g : EntityGroup)
    : MetricsByCounter → M unit :=
  match g with
  | FE_GPU => OtelObserveGpuMetrics env m
  | FE_SWITCH => OtelObserveSwitchMetrics env m
  | FE_LINK => OtelObserveLinkMetrics env m
  | FE_CPU => OtelObserveCpuMetrics env m
  | FE_CPU_CORE => OtelObserveCpuCoreMetrics env m
  end.

Definition templateOf `{!Externals} (m : MetricsPipeline) (g : EntityGroup) : Template :=
  match g with
  | FE_GPU => migMetricsFormat m
  | FE_SWITCH => switchMetricsFormat m
  | FE_LINK => linkMetricsFormat m
  | FE_CPU => cpuMetricsFormat m
  | FE_CPU_CORE => cpuCoreMetricsFormat m
  end.

(** The text of the warning (of the error, for the GPU group) before the
    template's error. *)
Definition formatFailed (g : EntityGroup) : string :=
  match g with
  | FE_GPU => "failed to format metrics; err: "
  | FE_SWITCH => "Failed to format switch metrics with error: "
  | FE_LINK => "failed to format link metrics; err: "
  | FE_CPU => "Failed to format cpu metrics with error: "
  | FE_CPU_CORE => "failed to format cpu core metrics; err: "
  end.

(** ** A world to run the model in

    The examples run the pipeline against a world that says what each
    collector answers, with a template engine that writes one line for a
    counter and one for each of its metrics and that fails on the formats
    listed in [broken]. *)

Definition newline : string := String (ascii_of_nat 10) "".

Definition exampleExecute (broken : list Format) (t : Template) (g : MetricsByCounter)
    : string * option error :=
  if bool_decide (templateFormat t ∈ broken) then ("", Some "template: cannot write")
  else
    (String.concat ""
       ((λ entry : Counter * list Metric,
           "# TYPE " +:+ FieldName entry.1 +:+ " " +:+ PromType entry.1 +:+ newline +:+
           String.concat ""
             ((λ metricVal, FieldName entry.1 +:+ " " +:+ Value metricVal +:+ newline)
                <$> entry.2))
          <$> map_to_list g),
     None).

Definition exampleExternals (broken : list Format) : Externals :=
  {| World := EntityGroup → result MetricsByCounter;
     SystemInfo := unit;
     Item := EntityGroup;
     Cleanup := EntityGroup;
     ToLower := asciiLower;
     ParseFloat := Strconv.ParseFloat;
     FormatFloat := Strconv.FormatFloat;
     Execute := exampleExecute broken |}.

Section examples.
Context (broken : list Format).
Local Existing Instance exampleExternals.
Let ex : Externals := exampleExternals broken.

(** The collector of a group answers what the world says for the group. *)
Definition exampleCollector (g : EntityGroup) : @DCGMCollector ex :=
  @mkDCGMCollector ex tt (λ w : EntityGroup → result MetricsByCounter, w g).

(** The runtime visits every map in the order [keysOf] lists it. *)
Definition exampleEnv (w : EntityGroup → result MetricsByCounter) : @Env ex :=
  @mkEnv ex w (λ _ g, keysOf g) keysOf.

Definition exampleMeter : Meter :=
  mkMeter (λ name description, Ok (mkInstrument KGauge name description))
          (λ name description, Ok (mkInstrument KCounter name description))
          (λ name description, Ok (mkInstrument KHistogram name description)).

(** A pipeline with a collector for each group of [groups]. *)
Definition examplePipeline (meter : option Meter) (om : option OtelMeters)
    (cs : list Counter) (groups : list EntityGroup) : @MetricsPipeline ex :=
  let collector g :=
    if bool_decide (g ∈ groups) then Some (exampleCollector g) else None in
  let '(mig, sw, link, cpu, core) := @parsedTemplates in
  @mkMetricsPipeline ex (mkConfig 30000 false "" meter) [] mig sw link cpu core cs
    (collector FE_GPU) (collector FE_SWITCH) (collector FE_LINK) (collector FE_CPU)
    (collector FE_CPU_CORE) om.

(** [NewMetricsPipeline] on a node that has GPUs only, with a meter. *)
Definition exampleNew (cs : list Counter)
    : result (@MetricsPipeline ex * State * list EntityGroup) * list LogEntry :=
  @NewMetricsPipeline ex
    (λ _, Err "unable to load in-cluster configuration")
    (λ _, @mkTransform ex "hpcMapper" (λ _ metrics _, (metrics, None)))
    (mkConfig 30000 false "" (Some exampleMeter)) cs "node-1"
    (λ _ _ _ item, (Some (exampleCollector item), item, None))
    (λ g, if decide (g = FE_GPU) then Some g else None).

(** The state of a cycle run in [s], and the state after [k] cycles. *)
Definition afterCycle (env : @Env ex) (m : @MetricsPipeline ex) (s : State) : State :=
  (@run ex env m s).2.

Definition afterCycles (env : @Env ex) (m : @MetricsPipeline ex) (s : State) (k : nat)
    : State :=
  Nat.iter k (afterCycle env m) s.

End examples.

Definition utilCounter : Counter :=
  mkCounter 203 "DCGM_FI_DEV_GPU_UTIL" "gauge" "GPU utilization (in %).".

Definition driverCounter : Counter :=
  mkCounter 1 "DCGM_FI_DRIVER_VERSION" "label" "Driver Version".

Definition powerCounter : Counter :=
  mkCounter 857 "DCGM_FI_DEV_NVSWITCH_POWER" "gauge" "Switch power.".

(** A metric of GPU 0 of the node. *)
Definition gpuMetric (counter : Counter) (value : string) : Metric :=
  mkMetric counter value "0" "GPU-5fd4f087" "nvidia0" "NVIDIA A100" "00000000:00:04.0"
    "UUID" "" "" "node-1" ∅ ∅.

Definition gpuGrouping (value : string) : MetricsByCounter :=
  {[ utilCounter := [gpuMetric utilCounter value] ]}.

Definition otherGrouping : MetricsByCounter :=
  {[ powerCounter := [gpuMetric powerCounter "7"] ]}.

(** Every group answers: the GPUs with [value], the others with one metric. *)
Definition calmWorld (value : string) (g : EntityGroup) : result MetricsByCounter :=
  match g with
  | FE_GPU => Ok (gpuGrouping value)
  | _ => Ok otherGrouping
  end.

(** The switch collector fails. *)
Definition switchDownWorld (g : EntityGroup) : result MetricsByCounter :=
  match g with
  | FE_SWITCH => Err "dcgm: connection lost"
  | g => calmWorld "42" g
  end.

Definition freshState : State := mkState (Some ∅) [] [].



(** Two metrics of one series, the second as a later cycle would report it. *)
Definition labelled (value : string) : Metric :=
  mkMetric utilCounter value "0" "GPU-5fd4f087" "nvidia0" "NVIDIA A100" "00000000:00:04.0"
    "UUID" "" "" "node-1" {[ "zone" := "a"; "rack" := "7" ]}
    {[ "pod" := "trainer-0"; "namespace" := "ml" ]}.

(** A channel of capacity one that holds one text, nobody receiving. *)
Definition fullChan : Chan := mkChan ["# stale"] 1 0 [].

(** The instruments [NewMetricsPipeline] registers for [utilCounter]. *)
Definition gaugeRegistry : OtelMeters :=
  mkOtelMeters
    {[ "dcgm_fi_dev_gpu_util" :=
         mkInstrument KGauge "dcgm_fi_dev_gpu_util" "GPU utilization (in %)." ]} ∅ ∅.

(** The pipeline [exampleNew] builds for [utilCounter]. *)
Definition builtPipeline : @MetricsPipeline (exampleExternals []) :=
  examplePipeline [] (Some exampleMeter) (Some gaugeRegistry) [utilCounter] [FE_GPU].

Definition allGroups : list EntityGroup :=
  [FE_GPU; FE_SWITCH; FE_LINK; FE_CPU; FE_CPU_CORE].

(** A pipeline without a meter that collects from every group. *)
Definition plainPipeline (broken : list Format) : @MetricsPipeline (exampleExternals broken) :=
  examplePipeline broken None None [utilCounter] allGroups.

Definition driverMetric : Metric := gpuMetric driverCounter "535.104.05".

Definition gpuText (value : string) : string :=
  "# TYPE DCGM_FI_DEV_GPU_UTIL gauge" +:+ newline +:+
  "DCGM_FI_DEV_GPU_UTIL " +:+ value +:+ newline.

Definition gpuCounterText (value : string) : string :=
  "# TYPE DCGM_FI_DEV_GPU_UTIL_COUNTER counter" +:+ newline +:+
  "DCGM_FI_DEV_GPU_UTIL_COUNTER " +:+ value +:+ newline.

Definition otherText : string :=
  "# TYPE DCGM_FI_DEV_NVSWITCH_POWER gauge" +:+ newline +:+
  "DCGM_FI_DEV_NVSWITCH_POWER 7" +:+ newline.

(** A pipeline without a meter that collects from the GPUs only. *)
Definition gpuPipeline : @MetricsPipeline (exampleExternals []) :=
  examplePipeline [] None None [utilCounter] [FE_GPU].

(** The state of [gpuPipeline] after [k] cycles that report [value]. *)
Definition stateAfter (value : string) (k : nat) : State :=
  afterCycles [] (exampleEnv [] (calmWorld value)) gpuPipeline freshState k.

(** What the cycle after [k] cycles that reported [value] returns. *)
Definition cycleAfter (value : string) (k : nat) : Outcome (string * option error) :=
  (@run (exampleExternals []) (exampleEnv [] (calmWorld value)) gpuPipeline
     (stateAfter value k)).1.

(** What a monadic computation returned, or [default] when it panicked. *)
Definition returned {A} (default : A) (r : Outcome A * State) : A :=
  match r.1 with
  | Done x => x
  | Panicked _ => default
  end.

(** Whether a computation returned a grouping on its right, and which. *)
Definition isExtended (r : Outcome (Flow + MetricsByCounter)) : bool :=
  match r with
  | Done (inr _) => true
  | _ => false
  end.

Definition extendedOf (r : Outcome (Flow + MetricsByCounter)) : MetricsByCounter :=
  match r with
  | Done (inr ext) => ext
  | _ => ∅
  end.

(** ** Words of the further statements *)

(** Whether the value of a metric is a number for [strconv.ParseFloat]. *)
Definition parses `{!Externals} (metricVal : Metric) : bool :=
  match ParseFloat (Value metricVal) with
  | Ok _ => true
  | Err _ => false
  end.

(** The attributes an emitter appends to its buffer for one metric: the
    [append] calls in the body of the inner loop of the emitter of [g]. *)
Definition groupAttrs `{!Externals} (env : Env) (g : EntityGroup) (metricVal : Metric)
    : list KeyValue :=
  match g with
  | FE_GPU =>
      [("gpu", GPU metricVal); (UUID metricVal, GPUUUID metricVal);
       ("pci_bus_id", GPUPCIBusID metricVal); ("device", GPUDevice metricVal);
       ("modelName", GPUModelName metricVal)] ++
      (if decide (MigProfile metricVal ≠ "")
       then [("GPU_I_PROFILE", MigProfile metricVal);
             ("GPU_I_ID", GPUInstanceID metricVal)]
       else []) ++
      hostnameAttr metricVal ++ labelAttrs env metricVal
  | FE_SWITCH =>
      [("nvswitch", GPU metricVal)] ++ hostnameAttr metricVal ++ labelAttrs env metricVal
  | FE_LINK =>
      [("nvlink", GPU metricVal); ("nvswitch", GPUDevice metricVal)] ++
      hostnameAttr metricVal ++ labelAttrs env metricVal
  | FE_CPU =>
      [("cpu", GPU metricVal)] ++ hostnameAttr metricVal ++ labelAttrs env metricVal
  | FE_CPU_CORE =>
      [("cpucore", GPU metricVal); ("cpu", GPUDevice metricVal)] ++
      hostnameAttr metricVal ++ labelAttrs env metricVal
  end.

(** The buffer [attrs] of an emitter after the inner loop went through the
    metrics [l]: each turn appends and [OtelObserve] lower-cases the keys of
    the whole buffer. *)
Fixpoint attrsAfter `{!Externals} (attrsOf : Metric → list KeyValue)
    (attrs : list KeyValue) (l : list Metric) : list KeyValue :=
  match l with
  | [] => attrs
  | metricVal :: l => attrsAfter attrsOf (lowerKeys (attrs ++ attrsOf metricVal)) l
  end.

(** The events the inner loop of an emitter sends for the metrics [l] of a
    counter whose instrument is [i], the buffer holding [attrs] at first. *)
Fixpoint eventsOf `{!Externals} (i : Instrument) (attrsOf : Metric → list KeyValue)
    (attrs : list KeyValue) (l : list Metric) : list OtelEvent :=
  match l with
  | [] => []
  | metricVal :: l =>
      match ParseFloat (Value metricVal) with
      | Ok val =>
          mkOtelEvent i val (lowerKeys (attrs ++ attrsOf metricVal))
          :: eventsOf i attrsOf (lowerKeys (attrs ++ attrsOf metricVal)) l
      | Err _ => []
      end
  end.

(** The events of one counter of a grouping. *)
Definition entryEvents `{!Externals} (m : MetricsPipeline)
    (attrsOf : Metric → list KeyValue) (entry : Counter * list Metric) : list OtelEvent :=
  if decide (Metered entry.1) then
    match instrumentFor m entry.1 with
    | Some i => eventsOf i attrsOf [] entry.2
    | None => []
    end
  else [].

(** The metrics of a grouping that are under a counter, a gauge or a
    histogram. *)
Definition meteredMetrics (entries : list (Counter * list Metric)) : list Metric :=
  entries ≫= λ entry, if decide (Metered entry.1) then entry.2 else [].

(** The accumulator still has every key it had. *)
Definition KeepsKeys : relation State :=
  λ s s', ∀ gc, gpuCounters s = Some gc →
    ∃ gc', gpuCounters s' = Some gc' ∧ ∀ fp, is_Some (gc !! fp) → is_Some (gc' !! fp).

(** The call [NewMetricsPipeline] makes on the meter for a counter: the kind
    of instrument, as the error message names it, and what the meter
    answered; none for a counter of another type. *)
Definition instrumentCall `{!Externals} (meter : Meter) (counter : Counter)
    : option (string * result Instrument) :=
  let fieldName := ToLower (FieldName counter) in
  if decide (PromType counter = "gauge") then
    Some ("gauge", Float64Gauge meter fieldName (Help counter))
  else if decide (PromType counter = "counter") then
    Some ("counter", Float64Counter meter fieldName (Help counter))
  else if decide (PromType counter = "histogram") then
    Some ("histogram", Float64Histogram meter fieldName (Help counter))
  else None.

(** What the constructor of the collectors answered for a group that the
    system information lists. *)
Definition constructed `{!Externals} (cfg : Config) (cs : list Counter) (hostname : string)
    (newDCGMCollector : DCGMCollectorConstructor) (Get : EntityGroup → option Item)
    (g : EntityGroup) : option (option DCGMCollector * Cleanup * option error) :=
  newDCGMCollector cs hostname cfg <$> Get g.

(** A metric with other labels and attributes. *)
Definition withPairs (m : Metric) (labels attributes : gmap string string) : Metric :=
  mkMetric (mCounter m) (Value m) (GPU m) (GPUUUID m) (GPUDevice m) (GPUModelName m)
    (GPUPCIBusID m) (UUID m) (MigProfile m) (GPUInstanceID m) (Hostname m)
    labels attributes.

(** The character [c] does not occur in [s]. *)
Fixpoint freeOf (c : ascii) (s : string) : bool :=
  match s with
  | EmptyString => true
  | String c' s => negb (Ascii.eqb c' c) && freeOf c s
  end.

(** The fields [metricFingerprint] writes before the labels. *)
Definition identifiers (m : Metric) : list string :=
  [FieldName (mCounter m); GPU m; GPUUUID m; GPUDevice m; GPUModelName m;
   GPUPCIBusID m; UUID m; MigProfile m; GPUInstanceID m; Hostname m].

(** The text the block of a group other than the GPUs adds to [formatted]
    when its collector answers: what the template gives for a grouping that
    is not empty. *)
Definition sectionText `{!Externals} (env : Env) (m : MetricsPipeline) (g : EntityGroup)
    : string :=
  match collectorOf m g with
  | None => ""
  | Some collector =>
      match GetMetrics collector (world env) with
      | Ok metrics =>
          if decide (0 < size metrics) then (FormatMetrics (templateOf m g) metrics).1
          else ""
      | Err _ => ""
      end
  end.

(** An event whose attribute keys went through [strings.ToLower]. *)
Definition LowerCased `{!Externals} (e : OtelEvent) : Prop :=
  ∃ attrs, evAttrs e = lowerKeys attrs.

(** ** [getIDOfType] *)

(** [KubernetesGPUIDType] is a string type. Its constants [GPUUID] and
    [DeviceName] are declared in another file of the package; the function
    is given them. *)
Definition KubernetesGPUIDType := string.

Definition getIDOfType (GPUUID DeviceName : KubernetesGPUIDType) (m : Metric)
    (idType : KubernetesGPUIDType) : result string :=
  if decide (MigProfile m ≠ "") then Ok (GPU m +:+ "-" +:+ GPUInstanceID m)
  else if decide (idType = GPUUID) then Ok (GPUUUID m)
  else if decide (idType = DeviceName) then Ok (GPUDevice m)
  else Err ("unsupported KubernetesGPUIDType for MetricID '" +:+ idType +:+ "'").

(** * The pod watcher (package [podwatcher]) *)

Module podwatcher.

(** [metav1.ObjectMeta]: the fields that tell the objects of a cluster
    apart, and the labels. *)
Record ObjectMeta := mkObjectMeta {
  Name : string;
  Namespace : string;
  UID : string;
  Labels : gmap string string
}.

(** [corev1.Pod], of which the handlers read the embedded [ObjectMeta]. *)
Record Pod := mkPod {
  PodObjectMeta : ObjectMeta
}.

(** What the informer hands to a handler as [interface{}]: a pointer to a
    pod, or something else, such as the tombstone of a missed deletion. *)
Inductive Object :=
  | PodObject (pod : Pod)
  | OtherObject.

(** The watcher: whether [mu] is locked, and the map [m]. The map holds
    pointers to the metadata of the informer's objects, which nobody
    changes; here it holds the metadata. *)
Record PodWatcher := mkPodWatcher {
  mu : bool;
  m : gmap string ObjectMeta
}.

(** How a method ends: it returns, leaving the watcher in some state; the
    type assertion on its argument panics; or [Lock] blocks. *)
Inductive Outcome (A : Type) :=
  | Returns (a : A) (pw : PodWatcher)
  | Panics
  | Blocks.
Global Arguments Returns {_} _ _.
Global Arguments Panics {_}.
Global Arguments Blocks {_}.

Definition namespacedName (meta : ObjectMeta) : string :=
  Namespace meta +:+ "/" +:+ Name meta.

Definition addPod (pw : PodWatcher) (obj : Object) : Outcome unit :=
  match obj with
  | OtherObject => Panics
  | PodObject pod =>
      if mu pw then Blocks
      else Returns () (mkPodWatcher false
                         (<[namespacedName (PodObjectMeta pod) := PodObjectMeta pod]> (m pw)))
  end.

Definition updatePod (pw : PodWatcher) (oldObj newObj : Object) : Outcome unit :=
  match newObj with
  | OtherObject => Panics
  | PodObject pod =>
      if mu pw then Blocks
      else Returns () (mkPodWatcher false
                         (<[namespacedName (PodObjectMeta pod) := PodObjectMeta pod]> (m pw)))
  end.

Definition deletePod (pw : PodWatcher) (obj : Object) : Outcome unit :=
  match obj with
  | OtherObject => Panics
  | PodObject pod =>
      if mu pw then Blocks
      else Returns () (mkPodWatcher false
                         (delete (namespacedName (PodObjectMeta pod)) (m pw)))
  end.

(** [GetObjectMeta]: the pointer in the map, [nil] when there is none. *)
Definition GetObjectMeta (pw : PodWatcher) (namespace name : string)
    : Outcome (option ObjectMeta) :=
  if mu pw then Blocks
  else Returns (m pw !! (namespace +:+ "/" +:+ name)) pw.

End podwatcher.

(** An example pod. *)
Definition trainerPod : podwatcher.Pod :=
  podwatcher.mkPod (podwatcher.mkObjectMeta "trainer-0" "ml" "uid-1" ∅).

(** A second GPU, and a grouping with both under one counter. *)
Definition gpu1Metric (counter : Counter) (value : string) : Metric :=
  mkMetric counter value "1" "GPU-0a1b2c3d" "nvidia1" "NVIDIA A100" "00000000:00:05.0"
    "UUID" "" "" "node-1" ∅ ∅.

Definition twoGpus : MetricsByCounter :=
  {[ utilCounter := [gpuMetric utilCounter "42"; gpu1Metric utilCounter "17"] ]}.

(** The switches report nothing. *)
Definition quietWorld (g : EntityGroup) : result MetricsByCounter :=
  match g with
  | FE_SWITCH => Ok ∅
  | g => calmWorld "42" g
  end.

(** The GPUs report nothing. *)
Definition idleWorld (g : EntityGroup) : result MetricsByCounter :=
  match g with
  | FE_GPU => Ok ∅
  | g => calmWorld "42" g
  end.

(** A transformation that fails, and a pipeline that runs it. *)
Definition failingTransform : @Transform (exampleExternals []) :=
  @mkTransform (exampleExternals []) "podMapper"
    (λ _ metrics _, (metrics, Some "kubelet: connection refused")).

Definition transformingPipeline : @MetricsPipeline (exampleExternals []) :=
  @mkMetricsPipeline (exampleExternals []) (mkConfig 30000 true "" None) [failingTransform]
    (mkTemplate "migMetrics" MigFormat) (mkTemplate "switchMetrics" SwitchFormat)
    (mkTemplate "switchMetrics" LinkFormat) (mkTemplate "cpuMetrics" CpuFormat)
    (mkTemplate "cpuMetrics" CpuCoreFormat) [utilCounter]
    (Some (exampleCollector [] FE_GPU)) None None None None None.

(** A pipeline that has a meter and no instruments. *)
Definition bareMeteredPipeline : @MetricsPipeline (exampleExternals []) :=
  examplePipeline [] (Some exampleMeter) None [] [FE_GPU].

(** An unbuffered channel on which one receiver waits. *)
Definition unbufferedChan : Chan := mkChan [] 0 1 [].

(** An accumulator that has an entry. *)
Definition usedState : State := mkState (Some {[ "old" := 1%float ]}) [] [].

(** A MIG instance of GPU 0. *)
Definition migMetric (instance : string) : Metric :=
  mkMetric utilCounter "42" "0" "GPU-5fd4f087" "nvidia0" "NVIDIA A100" "00000000:00:04.0"
    "UUID" "1g.5gb" instance "node-1" ∅ ∅.


(** * Facts *)

(** ** The fingerprint does not see the visit order *)

Lemma sortStrings_perm (l1 l2 : list string) :
  l1 ≡ₚ l2 → sortStrings l1 = sortStrings l2.
Proof.
  intros Hp. unfold sortStrings.
  apply (Sorted_unique String.le).
  - apply (Sorted_merge_sort String.le).
  - apply (Sorted_merge_sort String.le).
  - rewrite !merge_sort_Permutation. exact Hp.
Qed.

Lemma VisitOrder_ext `{Countable K} {V} (ks1 ks2 : list K) (m1 m2 : gmap K V) :
  (∀ k, m1 !! k = m2 !! k) → VisitOrder ks1 m1 → VisitOrder ks2 m2 → ks1 ≡ₚ ks2.
Proof.
  intros Hext H1 H2. apply map_eq in Hext. subst m2.
  unfold VisitOrder in *. by rewrite H1, H2.
Qed.

Lemma pairsText_ext (m1 m2 : gmap string string) (ks : list string) :
  (∀ k, m1 !! k = m2 !! k) → pairsText m1 ks = pairsText m2 ks.
Proof.
  intros Hext. unfold pairsText, index. f_equal.
  apply list_fmap_ext. intros _ k _. by rewrite Hext.
Qed.

(** C7. Two metrics with the same field name, the same entity identifiers and
    hostname, and the same key/value pairs in [Labels] and in [Attributes]
    have the same fingerprint, whatever order the runtime visited the keys of
    the four maps in. *)
Theorem metricFingerprint_order_independent
    (m1 m2 : Metric) (lks1 aks1 lks2 aks2 : list string) :
  FieldName (mCounter m1) = FieldName (mCounter m2) →
  GPU m1 = GPU m2 →
  GPUUUID m1 = GPUUUID m2 →
  GPUDevice m1 = GPUDevice m2 →
  GPUModelName m1 = GPUModelName m2 →
  GPUPCIBusID m1 = GPUPCIBusID m2 →
  UUID m1 = UUID m2 →
  MigProfile m1 = MigProfile m2 →
  GPUInstanceID m1 = GPUInstanceID m2 →
  Hostname m1 = Hostname m2 →
  (∀ k, Labels m1 !! k = Labels m2 !! k) →
  (∀ k, Attributes m1 !! k = Attributes m2 !! k) →
  VisitOrder lks1 (Labels m1) → VisitOrder aks1 (Attributes m1) →
  VisitOrder lks2 (Labels m2) → VisitOrder aks2 (Attributes m2) →
  metricFingerprintAt lks1 aks1 m1 = metricFingerprintAt lks2 aks2 m2.
Proof.
  intros E1 E2 E3 E4 E5 E6 E7 E8 E9 E10 HL HA Hl1 Ha1 Hl2 Ha2.
  unfold metricFingerprintAt.
  rewrite E1, E2, E3, E4, E5, E6, E7, E8, E9, E10.
  rewrite (sortStrings_perm lks1 lks2) by eauto using VisitOrder_ext.
  rewrite (sortStrings_perm aks1 aks2) by eauto using VisitOrder_ext.
  by rewrite (pairsText_ext _ _ _ HL), (pairsText_ext _ _ _ HA).
Qed.


(** ** Strings *)

Lemma string_app_nil_r (s : string) : s +:+ "" = s.
Proof.
  induction s as [|a s IH]; [done|].
  transitivity (String a (s +:+ "")); [reflexivity|by rewrite IH].
Qed.



(** ** The monad *)

Lemma bind_Done {A B} (ma : M A) (f : A → M B) s a s' :
  ma s = (Done a, s') → (ma ≫= f) s = f a s'.
Proof. intros E. unfold mbind, M_bind. by rewrite E. Qed.

Lemma bind_Panicked {A B} (ma : M A) (f : A → M B) s p s' :
  ma s = (Panicked p, s') → (ma ≫= f) s = (Panicked p, s').
Proof. intros E. unfold mbind, M_bind. by rewrite E. Qed.

Lemma bind_inv_Done {A B} (ma : M A) (f : A → M B) s b s' :
  (ma ≫= f) s = (Done b, s') → ∃ a s1, ma s = (Done a, s1) ∧ f a s1 = (Done b, s').
Proof.
  unfold mbind, M_bind. destruct (ma s) as [[a|p] s1]; [eauto|discriminate].
Qed.

Lemma bind_ext_l {A B} (ma ma' : M A) (f : A → M B) s :
  (∀ s, ma s = ma' s) → (ma ≫= f) s = (ma' ≫= f) s.
Proof. intros E. unfold mbind, M_bind. by rewrite E. Qed.

Lemma andThen_ext (block : M Flow) (next1 next2 : string → M Flow) s :
  (∀ f s, next1 f s = next2 f s) → andThen block next1 s = andThen block next2 s.
Proof.
  intros E. unfold andThen, mbind, M_bind.
  destruct (block s) as [[[f|t e]|p] s']; auto.
Qed.

Lemma andThen_Next (block : M Flow) s :
  andThen block (λ formatted, mret (Next formatted)) s = block s.
Proof.
  unfold andThen, mbind, M_bind. destruct (block s) as [[[f|t e]|p] s']; done.
Qed.

(** ** Effects that compose *)

Section effects.
Context (R : relation State) `{!PreOrder R}.

Lemma effect_ret {A} (a : A) : Effect R (mret a).
Proof. intros s r s' E. unfold mret, M_ret in E. by simplify_eq. Qed.

Lemma effect_panic {A} p : Effect R (@panic A p).
Proof. intros s r s' E. unfold panic in E. by simplify_eq. Qed.

Lemma effect_bind {A B} (ma : M A) (f : A → M B) :
  Effect R ma → (∀ a, Effect R (f a)) → Effect R (ma ≫= f).
Proof.
  intros Hma Hf s r s' E. unfold mbind, M_bind in E.
  destruct (ma s) as [[a|p] s1] eqn:E1.
  - etrans; [by eapply Hma|by eapply Hf].
  - simplify_eq. by eapply Hma.
Qed.

Lemma effect_forEach {A} (body : A → M unit) xs :
  (∀ x, x ∈ xs → Effect R (body x)) → Effect R (forEach body xs).
Proof.
  induction xs as [|x xs IH]; intros Hb; simpl.
  - apply effect_ret.
  - apply effect_bind; [apply Hb; by left|].
    intros _. apply IH. intros y Hy. apply Hb. by right.
Qed.

Lemma effect_forEachWith {A B} (body : B → A → M B) xs : ∀ b,
  (∀ b x, x ∈ xs → Effect R (body b x)) → Effect R (forEachWith body b xs).
Proof.
  induction xs as [|x xs IH]; intros b Hb; simpl.
  - apply effect_ret.
  - apply effect_bind; [apply Hb; by left|].
    intros b'. apply IH. intros b'' y Hy. apply Hb. by right.
Qed.

Lemma effect_andThen (block : M Flow) (next : string → M Flow) :
  Effect R block → (∀ f, Effect R (next f)) → Effect R (andThen block next).
Proof.
  intros. unfold andThen. apply effect_bind; [done|].
  intros [f|t e]; [done|apply effect_ret].
Qed.

End effects.

Global Instance SameCounters_preorder : PreOrder SameCounters.
Proof.
  split; [by intros s|]. intros s1 s2 s3 E1 E2. unfold SameCounters in *. congruence.
Qed.

Global Instance SameSink_preorder : PreOrder SameSink.
Proof.
  split; [by intros s|]. intros s1 s2 s3 E1 E2. unfold SameSink in *. congruence.
Qed.

Global Instance Emitted_preorder Q : PreOrder (Emitted Q).
Proof.
  split.
  - intros s. exists []. by rewrite app_nil_r.
  - intros s1 s2 s3 (e1 & E1 & F1) (e2 & E2 & F2). exists (e1 ++ e2).
    split; [by rewrite E2, E1, app_assoc|by apply Forall_app].
Qed.

Create HintDb effects.

Lemma keeps_logf lvl msg : Effect SameCounters (logf lvl msg).
Proof. intros s r s' E. unfold logf in E. by simplify_eq. Qed.

Lemma keeps_emit e : Effect SameCounters (emit e).
Proof. intros s r s' E. unfold emit in E. by simplify_eq. Qed.

Lemma quiet_logf lvl msg : Effect SameSink (logf lvl msg).
Proof. intros s r s' E. unfold logf in E. by simplify_eq. Qed.

Lemma quiet_addToCounter fp val : Effect SameSink (addToCounter fp val).
Proof.
  intros s r s' E. unfold addToCounter in E.
  destruct (gpuCounters s); by simplify_eq.
Qed.

Lemma emitted_logf Q lvl msg : Effect (Emitted Q) (logf lvl msg).
Proof.
  intros s r s' E. unfold logf in E. simplify_eq. exists []. simpl.
  by rewrite app_nil_r.
Qed.

Lemma emitted_emit (Q : OtelEvent → Prop) e : Q e → Effect (Emitted Q) (emit e).
Proof.
  intros Qe s r s' E. unfold emit in E. simplify_eq. exists [e]. simpl.
  split; [done|]. by constructor.
Qed.

Lemma emitted_quiet Q {A} (ma : M A) : Effect SameSink ma → Effect (Emitted Q) ma.
Proof.
  intros Hq s r s' E. exists []. rewrite app_nil_r. split; [|done].
  by eapply Hq.
Qed.

Global Hint Resolve effect_ret effect_panic keeps_logf keeps_emit quiet_logf
  quiet_addToCounter emitted_logf : effects.

(** ** What a loop over a map visits *)

Lemma omap_lookup_keys `{Countable K} {V} (m : gmap K V) (l : list (K * V)) :
  (∀ k v, (k, v) ∈ l → m !! k = Some v) →
  omap (λ k, (k,.) <$> m !! k) l.*1 = l.
Proof.
  induction l as [|[k v] l IH]; intros Hl; [done|].
  simpl. rewrite (Hl k v) by left. simpl. f_equal.
  apply IH. intros k' v' Hin. apply Hl. by right.
Qed.

Lemma rangeMap_perm `{Countable K} {V} (ks : list K) (m : gmap K V) :
  VisitOrder ks m → rangeMap ks m ≡ₚ map_to_list m.
Proof.
  unfold VisitOrder, rangeMap. intros ->.
  rewrite omap_lookup_keys; [done|].
  intros k v. apply elem_of_map_to_list.
Qed.

Lemma elem_of_rangeMap `{Countable K} {V} (ks : list K) (m : gmap K V) k v :
  VisitOrder ks m → (k, v) ∈ rangeMap ks m ↔ m !! k = Some v.
Proof.
  intros Hv. rewrite (rangeMap_perm ks m Hv). apply elem_of_map_to_list.
Qed.

(** Whatever the order, a loop only sees entries of the map. *)
Lemma elem_of_rangeMap_lookup `{Countable K} {V} (ks : list K) (m : gmap K V) k v :
  (k, v) ∈ rangeMap ks m → m !! k = Some v.
Proof.
  unfold rangeMap. intros (k' & Hk' & Hf)%list_elem_of_omap.
  destruct (m !! k') as [v'|] eqn:E; simpl in Hf; by simplify_eq.
Qed.

Lemma rangeMap_NoDup `{Countable K} {V} (ks : list K) (m : gmap K V) :
  VisitOrder ks m → NoDup (rangeMap ks m).*1.
Proof.
  intros Hv. rewrite (rangeMap_perm ks m Hv). apply NoDup_fst_map_to_list.
Qed.

Lemma later_no_clash `{Countable K} {V} (ks : list K) (g : gmap K V) (f : K → K)
    before c l after :
  VisitOrder ks g →
  rangeMap ks g = before ++ (c, l) :: after →
  (∀ c', is_Some (g !! c') → f c' = f c → c' = c) →
  ∀ c' l', (c', l') ∈ after → f c' ≠ f c.
Proof.
  intros Hv Hes Hinj c' l' Hin' Heq.
  pose proof (rangeMap_NoDup _ _ Hv) as Hnd.
  rewrite Hes, fmap_app, fmap_cons in Hnd. simpl in Hnd.
  apply NoDup_app in Hnd as (_ & _ & Hnd). apply NoDup_cons in Hnd as [Hnotin _].
  apply Hnotin.
  assert (g !! c' = Some l') as Hc'.
  { apply (elem_of_rangeMap ks g c' l' Hv). rewrite Hes.
    apply elem_of_app. right. by right. }
  assert (c' = c) as -> by eauto.
  apply list_elem_of_fmap. exists (c, l'). by split.
Qed.

(** ** The Meter Emitter *)

(** [OtelObserve] as a function of the instrument it finds and of what the
    value parses to. *)
Lemma OtelObserve_cases `{!Externals} m counter metricVal attrs s :
  OtelObserve m counter metricVal attrs s =
    if decide (Metered counter) then
      match instrumentFor m counter, ParseFloat (Value metricVal) with
      | Some i, Ok val =>
          (Done (lowerKeys attrs),
           mkState (gpuCounters s) (sink s ++ [mkOtelEvent i val (lowerKeys attrs)]) (logs s))
      | Some i, Err err => (Panicked (ValueNotFloat (Value metricVal) err), s)
      | None, _ =>
          (Panicked
             (match otelMeters m with
              | None => NilPointerDereference
              | Some _ =>
                  InstrumentNotFound
                    (if decide (PromType counter = "counter") then KCounter
                     else if decide (PromType counter = "gauge") then KGauge
                     else KHistogram)
                    (ToLower (FieldName counter))
              end), s)
      end
    else (Done (lowerKeys attrs), s).
Proof.
  unfold OtelObserve, Metered, instrumentFor, registered, observeWith.
  destruct (decide (PromType counter = "counter")) as [E1|E1].
  { rewrite decide_True by auto.
    destruct (otelMeters m) as [om|]; simpl; [|done].
    destruct (CounterMeters om !! _); [|done].
    by destruct (ParseFloat _). }
  destruct (decide (PromType counter = "gauge")) as [E2|E2].
  { rewrite decide_True by auto.
    destruct (otelMeters m) as [om|]; simpl; [|done].
    destruct (Gauge om !! _); [|done].
    by destruct (ParseFloat _). }
  destruct (decide (PromType counter = "histogram")) as [E3|E3].
  { rewrite decide_True by auto.
    destruct (otelMeters m) as [om|]; simpl; [|done].
    destruct (Histogram om !! _); [|done].
    by destruct (ParseFloat _). }
  rewrite decide_False by (intros [?|[?|?]]; done). done.
Qed.

Lemma OtelObserve_Done `{!Externals} m counter metricVal attrs s :
  Observable m counter metricVal →
  ∃ s', OtelObserve m counter metricVal attrs s = (Done (lowerKeys attrs), s').
Proof.
  intros Hobs. rewrite OtelObserve_cases.
  destruct (decide (Metered counter)) as [Hm|Hm]; [|eauto].
  destruct (Hobs Hm) as [[i ->] [val ->]]. eauto.
Qed.

Section emitter_effects.
Context `{!Externals} (R : relation State) `{!PreOrder R}.

Lemma effect_OtelObserve m counter metricVal attrs :
  (∀ i val attrs', instrumentFor m counter = Some i →
     ParseFloat (Value metricVal) = Ok val →
     Effect R (emit (mkOtelEvent i val attrs'))) →
  Effect R (OtelObserve m counter metricVal attrs).
Proof.
  intros Hemit s r s' E. rewrite OtelObserve_cases in E.
  destruct (decide (Metered counter)); [|by simplify_eq].
  destruct (instrumentFor m counter) as [i|] eqn:Ei; [|by simplify_eq].
  destruct (ParseFloat (Value metricVal)) as [val|err] eqn:Ev; [|by simplify_eq].
  simplify_eq. by eapply (Hemit i val (lowerKeys attrs)).
Qed.

Lemma effect_observeGroup env m g capacity attrsOf metrics :
  (∀ counter metricVals metricVal i val attrs',
     metrics !! counter = Some metricVals → metricVal ∈ metricVals →
     instrumentFor m counter = Some i →
     ParseFloat (Value metricVal) = Ok val →
     Effect R (emit (mkOtelEvent i val attrs'))) →
  Effect R (observeGroup env m g capacity attrsOf metrics).
Proof.
  intros Hemit. unfold observeGroup. apply effect_forEach; [done|].
  intros [counter metricVals] Hin%elem_of_rangeMap_lookup.
  destruct metricVals as [|first rest] eqn:El; [by apply effect_panic|].
  rewrite <- El in *. clear El.
  apply effect_bind; [done| |intros; by apply effect_ret].
  apply effect_forEachWith; [done|]. intros attrs metricVal Hmv.
  apply effect_OtelObserve. eauto.
Qed.

Lemma effect_emitterOf env m g metrics :
  (∀ counter metricVals metricVal i val attrs',
     metrics !! counter = Some metricVals → metricVal ∈ metricVals →
     instrumentFor m counter = Some i →
     ParseFloat (Value metricVal) = Ok val →
     Effect R (emit (mkOtelEvent i val attrs'))) →
  Effect R (emitterOf env m g metrics).
Proof. intros. destruct g; by apply effect_observeGroup. Qed.

Lemma effect_whenMetered m (observe : M unit) :
  Effect R observe → Effect R (whenMetered m observe).
Proof. intros. unfold whenMetered. case_match; [done|by apply effect_ret]. Qed.

End emitter_effects.

Lemma keeps_emitterOf `{!Externals} env m g metrics :
  Effect SameCounters (emitterOf env m g metrics).
Proof. apply effect_emitterOf; [apply _|]. intros. apply keeps_emit. Qed.

Lemma emitted_emitterOf `{!Externals} env m g metrics :
  Effect (Emitted (ObservationOf m metrics)) (emitterOf env m g metrics).
Proof.
  apply effect_emitterOf; [apply _|].
  intros counter metricVals metricVal i val attrs' ????.
  apply emitted_emit. exists counter, metricVals, metricVal. done.
Qed.

(** ** Instruments registered at construction *)

Lemma registerCounter_mono `{!Externals} meter om counter om' c0 :
  registerCounter meter om counter = Ok om' →
  is_Some (registered om c0) → is_Some (registered om' c0).
Proof.
  unfold registerCounter, registered. intros Hreg.
  repeat case_decide; try (by simplify_eq);
    repeat case_match; simplify_eq; simpl; try done;
    intros Hs;
    first [ exact Hs
          | destruct (decide (ToLower (FieldName counter) = ToLower (FieldName c0)))
              as [->|Hne];
            [rewrite lookup_insert_eq; eauto|by rewrite lookup_insert_ne] ].
Qed.

Lemma registerCounter_self `{!Externals} meter om counter om' :
  registerCounter meter om counter = Ok om' →
  Metered counter → is_Some (registered om' counter).
Proof.
  unfold registerCounter, registered, Metered. intros Hreg Hm.
  destruct Hm as [E|[E|E]]; rewrite E in *;
    repeat (case_decide; try done);
    repeat case_match; simplify_eq; simpl; rewrite lookup_insert_eq; eauto.
Qed.

Lemma registerCounters_registered `{!Externals} meter cs : ∀ om om',
  registerCounters meter om cs = Ok om' →
  (∀ c0, is_Some (registered om c0) → is_Some (registered om' c0)) ∧
  (∀ counter, counter ∈ cs → Metered counter → is_Some (registered om' counter)).
Proof.
  induction cs as [|c cs IH]; intros om om' Hreg; simpl in Hreg.
  { simplify_eq. split; [done|]. by intros ? ?%elem_of_nil. }
  destruct (registerCounter meter om c) as [om1|] eqn:E1; [|done].
  destruct (IH _ _ Hreg) as [Hmono Hall]. split.
  - intros c0 Hc0. apply Hmono. by eapply registerCounter_mono.
  - intros counter [->|Hin]%elem_of_cons Hm; [|by apply Hall].
    apply Hmono. by eapply registerCounter_self.
Qed.

Lemma NewMetricsPipeline_meters `{!Externals} NewPodMapper newHPCMapper cfg cs hostname
    newDCGMCollector Get meter m s0 cleanups lg :
  NewMetricsPipeline NewPodMapper newHPCMapper cfg cs hostname newDCGMCollector Get =
    (Ok (m, s0, cleanups), lg) →
  OtelMeter cfg = Some meter →
  ∃ om, otelMeters m = Some om ∧ registerCounters meter (mkOtelMeters ∅ ∅ ∅) cs = Ok om.
Proof.
  unfold NewMetricsPipeline. intros Hnew Hmeter. rewrite Hmeter in Hnew.
  repeat (destruct (newCollectorFor _ _ _ _ _ _ _) as [[? ?] ?]).
  destruct (getTransformations _ _ _) as [? ?].
  destruct (registerCounters _ _ _) as [om|]; [|done].
  simpl in Hnew. simplify_eq. eauto.
Qed.

(** C8. A metric whose counter is a counter, a gauge or a histogram makes
    [OtelObserve] panic, the state left as it was, when no instrument is
    registered under the lower-cased field name or when its value does not
    parse. In a pipeline built by [NewMetricsPipeline] with a meter, a metric
    of a configured counter with a numeric value is observed without a panic,
    and a metered one sends exactly one event to the sink. *)
Theorem emitter_panics_unless_registered_and_numeric `{!Externals} :
  (∀ m counter metricVal attrs s,
     Metered counter →
     instrumentFor m counter = None ∨ (∃ err, ParseFloat (Value metricVal) = Err err) →
     ∃ p, OtelObserve m counter metricVal attrs s = (Panicked p, s)) ∧
  (∀ NewPodMapper newHPCMapper cfg cs hostname newDCGMCollector Get meter m s0 cleanups lg
     counter metricVal val attrs s,
     NewMetricsPipeline NewPodMapper newHPCMapper cfg cs hostname newDCGMCollector Get =
       (Ok (m, s0, cleanups), lg) →
     OtelMeter cfg = Some meter →
     counter ∈ cs →
     ParseFloat (Value metricVal) = Ok val →
     ∃ s', OtelObserve m counter metricVal attrs s = (Done (lowerKeys attrs), s') ∧
       (Metered counter →
        ∃ i, instrumentFor m counter = Some i ∧
             s' = mkState (gpuCounters s)
                    (sink s ++ [mkOtelEvent i val (lowerKeys attrs)]) (logs s))).
Proof.
  split.
  - intros m counter metricVal attrs s Hm Hbad. rewrite OtelObserve_cases.
    rewrite decide_True by done.
    destruct Hbad as [->|[err Herr]]; [eauto|].
    rewrite Herr. destruct (instrumentFor m counter); eauto.
  - intros NewPodMapper newHPCMapper cfg cs hostname newDCGMCollector Get meter m s0
      cleanups lg counter metricVal val attrs s Hnew Hmeter Hin Hval.
    destruct (NewMetricsPipeline_meters _ _ _ _ _ _ _ _ _ _ _ _ Hnew Hmeter)
      as (om & Hom & Hreg).
    apply registerCounters_registered in Hreg as [_ Hall].
    rewrite OtelObserve_cases, Hval.
    destruct (decide (Metered counter)) as [Hm|Hm].
    + destruct (Hall counter Hin Hm) as [i Hi].
      unfold instrumentFor. rewrite Hom. simpl. rewrite Hi.
      eexists. split; [done|]. intros _. eauto.
    + eexists. split; [done|]. done.
Qed.

(** ** Loops that panic *)

Lemma forEach_panics {A} (Pp : PanicValue → Prop) (body : A → M unit) xs x :
  x ∈ xs →
  (∀ s, ∃ p s', body x s = (Panicked p, s') ∧ Pp p) →
  (∀ y s p s', y ∈ xs → body y s = (Panicked p, s') → Pp p) →
  ∀ s, ∃ p s', forEach body xs s = (Panicked p, s') ∧ Pp p.
Proof.
  induction xs as [|y xs IH]; intros Hin Hx Hall s; [by apply elem_of_nil in Hin|].
  simpl. destruct (body y s) as [[[]|p] s1] eqn:E.
  - erewrite bind_Done by done.
    apply elem_of_cons in Hin as [->|Hin].
    + destruct (Hx s) as (p & s' & E' & _). congruence.
    + apply IH; [done|done|]. intros y' ???? ?. eapply Hall; [by right|done].
  - erewrite bind_Panicked by done. exists p, s1. split; [done|].
    eapply Hall; [by left|done].
Qed.

Lemma forEachWith_Done {A B} (body : B → A → M B) xs : ∀ b s,
  (∀ b x s, x ∈ xs → ∃ b' s', body b x s = (Done b', s')) →
  ∃ b' s', forEachWith body b xs s = (Done b', s').
Proof.
  induction xs as [|x xs IH]; intros b s Hb; simpl; [by eexists _, _|].
  destruct (Hb b x s) as (b1 & s1 & E); [by left|].
  erewrite bind_Done by done. apply IH. intros. apply Hb. by right.
Qed.

Lemma observeGroup_empty_list `{!Externals} env m g capacity attrsOf metrics counter :
  VisitOrder (visit env (ObserveSite g) metrics) metrics →
  metrics !! counter = Some [] →
  ∀ s,
    (∃ p s', observeGroup env m g capacity attrsOf metrics s = (Panicked p, s')) ∧
    ((∀ c l metricVal, metrics !! c = Some l → metricVal ∈ l → Observable m c metricVal) →
     ∃ s', observeGroup env m g capacity attrsOf metrics s =
             (Panicked (IndexOutOfRange 0 0), s')).
Proof.
  intros Hv Hc s. unfold observeGroup.
  set (body := λ '(counter, metricVals), _).
  assert (Hin : (counter, []) ∈ rangeMap (visit env (ObserveSite g) metrics) metrics).
  { by apply elem_of_rangeMap. }
  assert (Hx : ∀ s, ∃ s', body (counter, []) s = (Panicked (IndexOutOfRange 0 0), s')).
  { intros s0. by exists s0. }
  split.
  - destruct (forEach_panics (λ _, True) body _ _ Hin) with (s := s)
      as (p & s' & E & _); [|done|eauto].
    intros s0. destruct (Hx s0) as [s' E]. eauto.
  - intros Hobs.
    destruct (forEach_panics (λ p, p = IndexOutOfRange 0 0) body _ _ Hin) with (s := s)
      as (p & s' & E & ->); [| |eauto].
    + intros s0. destruct (Hx s0) as [s' E]. eauto.
    + intros [c l] s0 p s' Hy%elem_of_rangeMap_lookup E.
      destruct l as [|first rest] eqn:El.
      { unfold body, panic in E. by simplify_eq. }
      rewrite <- El in *. exfalso.
      unfold body in E. rewrite El in E. rewrite <- El in E.
      destruct (forEachWith_Done
                  (λ attrs metricVal, OtelObserve m c metricVal (attrs ++ attrsOf metricVal))
                  l [] s0) as (b' & s1 & E1).
      { intros b x s2 Hx'.
        destruct (OtelObserve_Done m c x (b ++ attrsOf x) s2) as [s3 E3]; [eauto|eauto]. }
      erewrite bind_Done in E by done. unfold mret, M_ret in E. done.
Qed.

(** C10. Each of the five emitters reads [metricVals[0]] of every counter it
    visits: on a grouping in which some counter has an empty list it panics,
    and the panic is the index out of range whenever every metric of the
    grouping can itself be observed. *)
Theorem emitter_panics_on_empty_list `{!Externals} (env : Env) (m : MetricsPipeline)
    (g : EntityGroup) (metrics : MetricsByCounter) (counter : Counter) (s : State) :
  EnvOK env →
  metrics !! counter = Some [] →
  (∃ p s', emitterOf env m g metrics s = (Panicked p, s')) ∧
  ((∀ c l metricVal, metrics !! c = Some l → metricVal ∈ l → Observable m c metricVal) →
   ∃ s', emitterOf env m g metrics s = (Panicked (IndexOutOfRange 0 0), s')).
Proof.
  intros [Hvisit _] Hc.
  destruct g; apply (observeGroup_empty_list env m _ _ _ metrics counter); auto.
Qed.

(** ** The accumulator as a function of the map it starts from *)

Lemma accumulateMetric_spec `{!Externals} nc nm mv s gc :
  gpuCounters s = Some gc →
  accumulateMetric nc nm mv s =
    (Done (nm ++ derivedList gc nc [mv]), withCounters s (addMetric gc mv) (parseWarning mv)).
Proof.
  intros Hgc. unfold accumulateMetric, addMetric, parseWarning, withCounters. simpl.
  destruct (ParseFloat (Value mv)) as [val|err].
  - unfold mbind, M_bind, addToCounter. rewrite Hgc. simpl.
    unfold mret, M_ret. by rewrite app_nil_r.
  - unfold mbind, M_bind, logf, mret, M_ret. simpl.
    by rewrite Hgc, app_nil_r.
Qed.

Lemma derivedList_app `{!Externals} gc nc l1 l2 :
  derivedList gc nc (l1 ++ l2) = derivedList gc nc l1 ++ derivedList (totals gc l1) nc l2.
Proof.
  revert gc. induction l1 as [|mv l1 IH]; intros gc; [done|]. simpl.
  unfold totals. simpl. unfold addMetric at 2.
  destruct (ParseFloat (Value mv)); simpl; by rewrite IH.
Qed.

Lemma accumulateList_spec `{!Externals} nc mvs : ∀ nm s gc,
  gpuCounters s = Some gc →
  forEachWith (accumulateMetric nc) nm mvs s =
    (Done (nm ++ derivedList gc nc mvs),
     withCounters s (totals gc mvs) (mvs ≫= parseWarning)).
Proof.
  induction mvs as [|mv mvs IH]; intros nm s gc Hgc.
  - simpl. unfold mret, M_ret, withCounters. destruct s; simpl in *.
    by rewrite Hgc, !app_nil_r.
  - simpl. erewrite bind_Done by (by apply accumulateMetric_spec).
    erewrite IH by done. unfold withCounters. simpl.
    f_equal.
    + f_equal. rewrite <- app_assoc. f_equal.
      unfold addMetric. by destruct (ParseFloat (Value mv)).
    + f_equal. by rewrite <- app_assoc.
Qed.

Lemma totals_app `{!Externals} gc l1 l2 :
  totals gc (l1 ++ l2) = totals (totals gc l1) l2.
Proof. unfold totals. apply foldl_app. Qed.

Lemma extendEntries_cons `{!Externals} c l es ext gc :
  extendEntries ext gc ((c, l) :: es) =
  extendEntries (<[derivedCounter c := derivedList gc (derivedCounter c) l]> ext)
    (totals gc l) es.
Proof. reflexivity. Qed.

Lemma extendEntries_totals `{!Externals} es : ∀ ext gc,
  (extendEntries ext gc es).2 = totals gc (metricsOf es).
Proof.
  induction es as [|[c l] es IH]; intros ext gc; [done|].
  rewrite extendEntries_cons, IH.
  unfold metricsOf. simpl. by rewrite totals_app.
Qed.

Lemma extendEntries_app `{!Externals} es1 es2 ext gc :
  extendEntries ext gc (es1 ++ es2) =
  extendEntries (extendEntries ext gc es1).1 (extendEntries ext gc es1).2 es2.
Proof.
  unfold extendEntries. rewrite foldl_app.
  by destruct (foldl extendEntry (ext, gc) es1).
Qed.

Lemma accumulateEntries_spec `{!Externals} es : ∀ ext s gc,
  gpuCounters s = Some gc →
  forEachWith accumulateCounter ext es s =
    (Done (extendEntries ext gc es).1,
     withCounters s (extendEntries ext gc es).2 (metricsOf es ≫= parseWarning)).
Proof.
  induction es as [|[c l] es IH]; intros ext s gc Hgc.
  - simpl. unfold mret, M_ret, withCounters. destruct s; simpl in *.
    by rewrite Hgc, app_nil_r.
  - simpl. unfold accumulateCounter at 1.
    erewrite bind_Done; last first.
    { erewrite bind_Done by (by apply accumulateList_spec). reflexivity. }
    rewrite extendEntries_cons.
    erewrite IH by done. unfold withCounters. simpl.
    unfold metricsOf. simpl. rewrite bind_app, app_assoc. done.
Qed.

Lemma extendEntries_lookup_other `{!Externals} es : ∀ ext gc k,
  (∀ c l, (c, l) ∈ es → derivedCounter c ≠ k) →
  (extendEntries ext gc es).1 !! k = ext !! k.
Proof.
  induction es as [|[c l] es IH]; intros ext gc k Hk; [done|].
  rewrite extendEntries_cons, IH.
  - apply lookup_insert_ne. apply (Hk c l). by left.
  - intros c' l' Hin. apply (Hk c' l'). by right.
Qed.

Lemma extendEntries_lookup_derived `{!Externals} es1 c l es2 ext gc :
  (∀ c' l', (c', l') ∈ es2 → derivedCounter c' ≠ derivedCounter c) →
  (extendEntries ext gc (es1 ++ (c, l) :: es2)).1 !! derivedCounter c =
    Some (derivedList (totals gc (metricsOf es1)) (derivedCounter c) l).
Proof.
  intros Hlater. rewrite extendEntries_app.
  change ((c, l) :: es2) with ([(c, l)] ++ es2). rewrite extendEntries_app.
  rewrite extendEntries_lookup_other by done.
  rewrite extendEntries_cons. unfold extendEntries at 1. simpl.
  rewrite lookup_insert_eq. by rewrite extendEntries_totals.
Qed.

Lemma extendEntries_lookup_is_Some `{!Externals} es : ∀ ext gc c l,
  (c, l) ∈ es → is_Some ((extendEntries ext gc es).1 !! derivedCounter c).
Proof.
  induction es as [|[c0 l0] es IH] using rev_ind; intros ext gc c l Hin.
  { by apply elem_of_nil in Hin. }
  rewrite extendEntries_app, extendEntries_cons. unfold extendEntries at 1. simpl.
  destruct (decide (derivedCounter c0 = derivedCounter c)) as [->|Hne].
  - rewrite lookup_insert_eq. eauto.
  - rewrite lookup_insert_ne by done. apply elem_of_app in Hin as [Hin|Hin].
    + by eapply IH.
    + apply list_elem_of_singleton in Hin. by simplify_eq.
Qed.

Lemma extendWithCounters_spec `{!Externals} env metrics s gc :
  gpuCounters s = Some gc →
  let entries := rangeMap (visit env AccumulateSite metrics) metrics in
  extendWithCounters env metrics s =
    (Done (extendEntries metrics gc entries).1,
     withCounters s (totals gc (metricsOf entries)) (metricsOf entries ≫= parseWarning)).
Proof.
  intros Hgc entries. unfold extendWithCounters. fold entries.
  rewrite (accumulateEntries_spec entries metrics s gc Hgc).
  by rewrite extendEntries_totals.
Qed.





(** ** A metric whose value does not parse *)





(** ** The blocks of [run] *)

Lemma keeps_stageOf `{!Externals} env m g formatted :
  g ≠ FE_GPU → Effect SameCounters (stageOf env m g formatted).
Proof.
  intros Hg.
  assert (∀ collector collectFailed t formatFailed g',
            Effect SameCounters
              (groupStage env m collector collectFailed (emitterOf env m g') t
                 formatFailed formatted)) as Hgroup.
  { intros collector cf t ff g'. unfold groupStage.
    destruct collector as [collector|]; [|apply effect_ret; apply _].
    destruct (GetMetrics collector (world env)) as [metrics|];
      [|apply effect_ret; apply _].
    apply effect_bind; [apply _| |intros _].
    { apply effect_whenMetered; [apply _|]. apply keeps_emitterOf. }
    case_decide; [|apply effect_ret; apply _].
    destruct (FormatMetrics t metrics) as [txt [e|]];
      (apply effect_bind; [apply _| |intros; apply effect_ret; apply _]);
      auto with effects. apply effect_ret; apply _. }
  destruct g; [done|..].
  - apply (Hgroup _ _ _ _ FE_SWITCH).
  - apply (Hgroup _ _ _ _ FE_LINK).
  - apply (Hgroup _ _ _ _ FE_CPU).
  - apply (Hgroup _ _ _ _ FE_CPU_CORE).
Qed.

Lemma keeps_stages `{!Externals} env m gs : ∀ formatted,
  FE_GPU ∉ gs → Effect SameCounters (stages env m gs formatted).
Proof.
  induction gs as [|g gs IH]; intros formatted Hg; simpl; [apply effect_ret; apply _|].
  apply not_elem_of_cons in Hg as [? ?].
  apply effect_andThen; [apply _|by apply keeps_stageOf|]. intros. by apply IH.
Qed.

(** [run] is the five blocks in a row. *)
Lemma run_stages `{!Externals} env m s :
  run env m s =
  (flow ← stages env m [FE_GPU; FE_SWITCH; FE_LINK; FE_CPU; FE_CPU_CORE] "";
   match flow with
   | Next formatted => mret (formatted, None)
   | Return text err => mret (text, err)
   end) s.
Proof.
  unfold run. apply bind_ext_l. clear s. intros s. simpl.
  repeat (apply andThen_ext; intros ??).
  symmetry. apply andThen_Next.
Qed.

Lemma stages_app `{!Externals} env m gs1 gs2 : ∀ formatted s,
  stages env m (gs1 ++ gs2) formatted s =
  andThen (stages env m gs1 formatted) (stages env m gs2) s.
Proof.
  induction gs1 as [|g gs1 IH]; intros formatted s; simpl.
  - unfold andThen. by erewrite bind_Done by done.
  - unfold andThen at 1 2 3. unfold mbind, M_bind.
    destruct (stageOf env m g formatted s) as [[[f|t e]|p] s1]; [|done..].
    apply IH.
Qed.

Lemma quiet_extendWithCounters `{!Externals} env metrics :
  Effect SameSink (extendWithCounters env metrics).
Proof.
  unfold extendWithCounters. apply effect_forEachWith; [apply _|].
  intros ext [c l] _. unfold accumulateCounter.
  apply effect_bind; [apply _| |intros; apply effect_ret; apply _].
  apply effect_forEachWith; [apply _|]. intros nm mv _. unfold accumulateMetric.
  destruct (ParseFloat (Value mv));
    (apply effect_bind; [apply _| |intros; apply effect_ret; apply _]);
    auto with effects.
Qed.

Lemma gpuExtended_sample `{!Externals} env m collector g s :
  gpuSample env m collector = Some g →
  gpuExtended env m collector s =
    (whenMetered m (OtelObserveGpuMetrics env m g) ;;
     extended ← extendWithCounters env g; mret (inr extended)) s.
Proof.
  unfold gpuSample, gpuExtended. intros Hg.
  destruct (GetMetrics collector (world env)) as [metrics|]; [|done].
  destruct (applyTransformations _ _ _ _) as [metrics'|]; [|done].
  by simplify_eq.
Qed.

Lemma gpuExtended_inv `{!Externals} env m collector g s r s2 :
  gpuSample env m collector = Some g →
  gpuExtended env m collector s = (Done r, s2) →
  ∃ s1 ext,
    whenMetered m (OtelObserveGpuMetrics env m g) s = (Done (), s1) ∧
    gpuCounters s1 = gpuCounters s ∧
    extendWithCounters env g s1 = (Done ext, s2) ∧
    r = inr ext.
Proof.
  intros Hg. rewrite (gpuExtended_sample _ _ _ _ _ Hg). intros Hrun.
  apply bind_inv_Done in Hrun as ([] & s1 & Hobs & Hrun).
  apply bind_inv_Done in Hrun as (ext & s2' & Hext & Hrun).
  unfold mret, M_ret in Hrun. simplify_eq.
  exists s1, ext. split; [done|]. split; [|done].
  eapply (effect_whenMetered SameCounters); [|done]. apply (keeps_emitterOf env m FE_GPU).
Qed.

Lemma run_gpu_inv `{!Externals} env m collector g s r s' :
  gpuCollector m = Some collector →
  gpuSample env m collector = Some g →
  run env m s = (Done r, s') →
  ∃ s1 ext s2,
    whenMetered m (OtelObserveGpuMetrics env m g) s = (Done (), s1) ∧
    gpuCounters s1 = gpuCounters s ∧
    extendWithCounters env g s1 = (Done ext, s2) ∧
    gpuExtended env m collector s = (Done (inr ext), s2) ∧
    gpuCounters s' = gpuCounters s2.
Proof.
  intros Hc Hg. rewrite run_stages. intros Hrun.
  apply bind_inv_Done in Hrun as (flow & s3 & Hst & Hret).
  assert (s' = s3) as ->.
  { destruct flow; unfold mret, M_ret in Hret; by simplify_eq. }
  clear Hret. simpl in Hst. unfold andThen in Hst.
  apply bind_inv_Done in Hst as (flow1 & s2 & Hgpu & Hrest).
  assert (gpuCounters s3 = gpuCounters s2) as Hkeep.
  { destruct flow1 as [f|t e].
    - eapply (keeps_stages env m [FE_SWITCH; FE_LINK; FE_CPU; FE_CPU_CORE]); [|done].
      intros Hin. repeat (apply elem_of_cons in Hin as [?|Hin]; [done|]).
      by apply elem_of_nil in Hin.
    - unfold mret, M_ret in Hrest. by simplify_eq. }
  unfold gpuStage in Hgpu. rewrite Hc in Hgpu.
  apply bind_inv_Done in Hgpu as (r1 & s2' & Hext & Hfmt).
  assert (s2' = s2) as ->.
  { destruct r1 as [fl|ext]; [unfold mret, M_ret in Hfmt; by simplify_eq|].
    destruct (FormatMetrics _ _) as [txt [err|]];
      unfold mret, M_ret in Hfmt; by simplify_eq. }
  destruct (gpuExtended_inv _ _ _ _ _ _ _ Hg Hext) as (s1 & ext & ? & ? & ? & ->).
  exists s1, ext, s2. done.
Qed.

(** ** One series through the accumulator *)

Lemma totals_lookup_other `{!Externals} l : ∀ gc fp,
  (∀ metricVal, metricVal ∈ l → metricFingerprint metricVal ≠ fp) →
  totals gc l !! fp = gc !! fp.
Proof.
  induction l as [|mv l IH]; intros gc fp Hl; [done|].
  unfold totals in *. simpl. rewrite IH.
  - unfold addMetric. destruct (ParseFloat (Value mv)); [|done].
    apply lookup_insert_ne. apply Hl. by left.
  - intros mv' Hin. apply Hl. by right.
Qed.

Lemma filter_singleton_split {A} (P : A → Prop) `{∀ x, Decision (P x)} (l : list A) x :
  filter P l = [x] →
  ∃ l1 l2, l = l1 ++ x :: l2 ∧ P x ∧ (∀ y, y ∈ l1 → ¬ P y) ∧ (∀ y, y ∈ l2 → ¬ P y).
Proof.
  induction l as [|a l IH]; intros Hf; [done|].
  rewrite filter_cons in Hf. destruct (decide (P a)) as [Ha|Ha].
  - simplify_eq. exists [], l. split; [done|]. split; [done|].
    split; [by intros ? ?%elem_of_nil|].
    intros y Hy Py. eapply (filter_nil_not_elem_of P); eauto.
  - destruct (IH Hf) as (l1 & l2 & -> & Px & H1 & H2).
    exists (a :: l1), l2. split; [done|]. split; [done|]. split; [|done].
    intros y [->|Hy]%elem_of_cons; auto.
Qed.

(** A series that occurs once in the visit: its entry after the visit, and
    the derived metric it gives. *)
Lemma one_series_split `{!Externals} (entries : list (Counter * list Metric)) fp metricVal :
  filter (λ mv, metricFingerprint mv = fp) (metricsOf entries) = [metricVal] →
  ∃ before c l1 l2 after,
    entries = before ++ (c, l1 ++ metricVal :: l2) :: after ∧
    metricFingerprint metricVal = fp ∧
    (∀ mv, mv ∈ metricsOf before ++ l1 → metricFingerprint mv ≠ fp) ∧
    (∀ mv, mv ∈ l2 ++ metricsOf after → metricFingerprint mv ≠ fp).
Proof.
  induction entries as [|[c l] entries IH]; intros Hf; [done|].
  unfold metricsOf in Hf. simpl in Hf. rewrite filter_app in Hf.
  destruct (filter (λ mv, metricFingerprint mv = fp) l) as [|x [|y xs]] eqn:Hl.
  - simpl in Hf. destruct (IH Hf) as (before & c' & l1 & l2 & after & -> & Hfp & H1 & H2).
    exists ((c, l) :: before), c', l1, l2, after. split; [done|]. split; [done|].
    split; [|done]. unfold metricsOf. simpl. rewrite <- app_assoc.
    intros mv [Hin|Hin]%elem_of_app; [|by apply H1].
    intros Hmv. eapply (filter_nil_not_elem_of _ _ _ Hl); eauto.
  - simpl in Hf. injection Hf as -> Hrest.
    destruct (filter_singleton_split _ _ _ Hl) as (l1 & l2 & -> & Hfp & H1 & H2).
    exists [], c, l1, l2, entries. split; [done|]. split; [done|].
    split; [simpl; auto|].
    intros mv [Hin|Hin]%elem_of_app; [auto|].
    intros Hmv. eapply (filter_nil_not_elem_of _ _ _ Hrest); eauto.
  - simpl in Hf. discriminate.
Qed.

Lemma series_visited `{!Externals} env (g : MetricsByCounter) fp metricVal :
  EnvOK env →
  series g fp = [metricVal] →
  filter (λ mv, metricFingerprint mv = fp)
    (metricsOf (rangeMap (visit env AccumulateSite g) g)) = [metricVal].
Proof.
  intros [Hvisit _] Hs. apply Permutation_singleton_r.
  rewrite <- Hs. unfold series, metricsOf.
  by rewrite (rangeMap_perm _ _ (Hvisit AccumulateSite g)).
Qed.

Lemma cycle_adds_once `{!Externals} env (g : MetricsByCounter) s1 gc fp metricVal v ext s2 :
  EnvOK env →
  gpuCounters s1 = Some gc →
  series g fp = [metricVal] →
  ParseFloat (Value metricVal) = Ok v →
  extendWithCounters env g s1 = (Done ext, s2) →
  (∃ gc2, gpuCounters s2 = Some gc2 ∧
          gc2 !! fp = Some (PrimFloat.add (readCounter gc fp) v)) ∧
  ∃ c l, g !! c = Some l ∧ metricVal ∈ l ∧
    ((∀ c', is_Some (g !! c') → derivedCounter c' = derivedCounter c → c' = c) →
     ∃ l', ext !! derivedCounter c = Some l' ∧
       derivedMetric metricVal (derivedCounter c)
         (FormatFloat (PrimFloat.add (readCounter gc fp) v)) ∈ l').
Proof.
  intros Henv Hgc Hs Hv Hext.
  pose proof (series_visited env g fp metricVal Henv Hs) as Hf.
  destruct Henv as [Hvisit _]. pose proof (Hvisit AccumulateSite g) as Hvo.
  rewrite (extendWithCounters_spec env g s1 gc Hgc) in Hext.
  set (entries := rangeMap (visit env AccumulateSite g) g) in *.
  injection Hext as <- <-.
  destruct (one_series_split entries fp metricVal Hf)
    as (before & c & l1 & l2 & after & Hes & Hfp & Hb & Ha).
  assert (Hread : readCounter (totals gc (metricsOf before ++ l1)) fp = readCounter gc fp).
  { unfold readCounter. by rewrite totals_lookup_other. }
  split.
  - eexists. split; [reflexivity|].
    assert (metricsOf entries =
              ((metricsOf before ++ l1) ++ [metricVal]) ++ (l2 ++ metricsOf after)) as ->.
    { rewrite Hes. unfold metricsOf. rewrite bind_app. simpl.
      by rewrite <- !app_assoc. }
    rewrite (totals_app gc (_ ++ [metricVal])), (totals_lookup_other _ _ _ Ha).
    rewrite (totals_app gc _ [metricVal]).
    unfold totals at 1. simpl. unfold addMetric. rewrite Hv, Hfp.
    rewrite lookup_insert_eq. f_equal. f_equal. apply Hread.
  - exists c, (l1 ++ metricVal :: l2). split; [|split].
    + apply (elem_of_rangeMap _ g c _ Hvo). fold entries. rewrite Hes.
      apply elem_of_app. right. by left.
    + apply elem_of_app. right. by left.
    + intros Hinj. rewrite Hes.
      rewrite extendEntries_lookup_derived
        by (eapply (later_no_clash _ g derivedCounter); eauto).
      eexists. split; [reflexivity|].
      rewrite derivedList_app. apply elem_of_app. right.
      simpl. rewrite Hv, Hfp, <- totals_app, Hread. by left.
Qed.

Lemma kfold_S k v : kfold (S k) v = PrimFloat.add (kfold k v) v.
Proof. reflexivity. Qed.


(** C4 (as amended). A series that the GPU grouping holds once in each of [k]
    cycles, with a value that parses to [v], in a pipeline whose accumulator
    had not seen its fingerprint: after cycle [i+1] the accumulator entry of
    the fingerprint is [v] added [i+1] times to zero in float64 arithmetic,
    and the grouping that goes to the template in that cycle holds, under the
    derived counter (when no other key has the same derived counter), the
    derived metric whose value is that sum, formatted. *)
Theorem derived_counter_after_k_cycles `{!Externals} (m : MetricsPipeline)
    (collector : DCGMCollector) (envs : nat → Env) (st : nat → State)
    (g : nat → MetricsByCounter) (metricVal : nat → Metric)
    (fp : string) (v : float) (gc0 : gmap string float) (k : nat) :
  gpuCollector m = Some collector →
  gpuCounters (st 0) = Some gc0 →
  gc0 !! fp = None →
  (∀ i, i < k →
     EnvOK (envs i) ∧
     (∃ r, run (envs i) m (st i) = (Done r, st (S i))) ∧
     gpuSample (envs i) m collector = Some (g i) ∧
     series (g i) fp = [metricVal i] ∧
     ParseFloat (Value (metricVal i)) = Ok v) →
  ∀ i, i < k →
    (∃ gc, gpuCounters (st (S i)) = Some gc ∧ gc !! fp = Some (kfold (S i) v)) ∧
    ∃ ext s2 c l,
      gpuExtended (envs i) m collector (st i) = (Done (inr ext), s2) ∧
      g i !! c = Some l ∧ metricVal i ∈ l ∧
      ((∀ c', is_Some (g i !! c') → derivedCounter c' = derivedCounter c → c' = c) →
       ∃ l', ext !! derivedCounter c = Some l' ∧
         derivedMetric (metricVal i) (derivedCounter c) (FormatFloat (kfold (S i) v)) ∈ l').
Proof.
  intros Hc Hgc0 Hfresh Hcycles.
  assert (Hinv : ∀ i, i ≤ k →
            ∃ gc, gpuCounters (st i) = Some gc ∧ readCounter gc fp = kfold i v).
  { induction i as [|i IH]; intros Hi.
    - exists gc0. split; [done|]. unfold readCounter. by rewrite Hfresh.
    - destruct IH as (gc & Hgc & Hread); [lia|].
      destruct (Hcycles i) as (Henv & [r Hrun] & Hg & Hs & Hv); [lia|].
      destruct (run_gpu_inv _ _ _ _ _ _ _ Hc Hg Hrun)
        as (s1 & ext & s2 & _ & Hk1 & Hext & _ & Hk2).
      rewrite Hgc in Hk1.
      destruct (cycle_adds_once _ _ _ _ _ _ _ _ _ Henv Hk1 Hs Hv Hext)
        as ((gc2 & Hgc2 & Hfp) & _).
      exists gc2. split; [by rewrite Hk2|].
      unfold readCounter. by rewrite Hfp, Hread. }
  intros i Hi.
  destruct (Hinv i) as (gc & Hgc & Hread); [lia|].
  destruct (Hcycles i Hi) as (Henv & [r Hrun] & Hg & Hs & Hv).
  destruct (run_gpu_inv _ _ _ _ _ _ _ Hc Hg Hrun)
    as (s1 & ext & s2 & _ & Hk1 & Hext & Hgx & Hk2).
  rewrite Hgc in Hk1.
  destruct (cycle_adds_once _ _ _ _ _ _ _ _ _ Henv Hk1 Hs Hv Hext)
    as ((gc2 & Hgc2 & Hfp) & c & l & Hcl & Hin & Hder).
  rewrite Hread in Hfp, Hder. split.
  - exists gc2. split; [by rewrite Hk2|done].
  - exists ext, s2, c, l. done.
Qed.

(** ** What the GPU block sends to the push sink *)

(** C9. In the GPU block the emitter runs on the grouping as collected and
    transformed, before the accumulator extends it: what the push sink
    receives during the block are observations of metrics of that grouping
    under their own counters, the sink after the block is the sink the
    emitter left, and the extended grouping, with the derived counters in
    it, is what goes to the template. *)
Theorem derived_series_not_emitted `{!Externals} (env : Env) (m : MetricsPipeline)
    (collector : DCGMCollector) (g : MetricsByCounter) (s : State)
    (r : Outcome (Flow + MetricsByCounter)) (s2 : State) :
  gpuSample env m collector = Some g →
  gpuExtended env m collector s = (r, s2) →
  (∃ evs, sink s2 = sink s ++ evs ∧ Forall (ObservationOf m g) evs) ∧
  (∃ r1 s1, whenMetered m (OtelObserveGpuMetrics env m g) s = (r1, s1) ∧
            sink s2 = sink s1) ∧
  (∀ ext gc,
     r = Done (inr ext) → EnvOK env → gpuCounters s = Some gc →
     (∀ c l, g !! c = Some l → is_Some (ext !! derivedCounter c)) ∧
     (gpuCollector m = Some collector →
      gpuStage env m s =
        (Done (match FormatMetrics (migMetricsFormat m) ext with
               | (_, Some err) =>
                   Return "" (Some ("failed to format metrics; err: " +:+ err))
               | (formatted, None) => Next formatted
               end), s2))).
Proof.
  intros Hg Hrun. rewrite (gpuExtended_sample _ _ _ _ _ Hg) in Hrun.
  split; [|split].
  - assert (Effect (Emitted (ObservationOf m g))
              (whenMetered m (OtelObserveGpuMetrics env m g) ;;
               extended ← extendWithCounters env g; mret (inr (A:=Flow) extended))) as Heff.
    { apply effect_bind; [apply _| |intros _].
      - apply effect_whenMetered; [apply _|]. apply (emitted_emitterOf env m FE_GPU).
      - apply effect_bind; [apply _| |intros; apply effect_ret; apply _].
        apply emitted_quiet, quiet_extendWithCounters. }
    exact (Heff _ _ _ Hrun).
  - unfold mbind, M_bind in Hrun.
    destruct (whenMetered m (OtelObserveGpuMetrics env m g) s) as [[[]|p] s1] eqn:E1.
    + exists (Done ()), s1. split; [done|].
      destruct (extendWithCounters env g s1) as [[ext|p] s2'] eqn:E2;
        unfold mret, M_ret in Hrun; simplify_eq;
        exact (quiet_extendWithCounters env g _ _ _ E2).
    + simplify_eq. eauto.
  - intros ext gc -> [Hvisit _] Hgc.
    apply bind_inv_Done in Hrun as ([] & s1 & Hobs & Hrun).
    apply bind_inv_Done in Hrun as (ext' & s2' & Hext & Hret).
    unfold mret, M_ret in Hret. simplify_eq.
    assert (gpuCounters s1 = Some gc) as Hgc1.
    { rewrite <- Hgc.
      eapply (effect_whenMetered SameCounters); [|done].
      apply (keeps_emitterOf env m FE_GPU). }
    split.
    + rewrite (extendWithCounters_spec env g s1 gc Hgc1) in Hext. simplify_eq.
      intros c l Hc. eapply extendEntries_lookup_is_Some.
      by apply elem_of_rangeMap.
    + intros Hcoll. unfold gpuStage. rewrite Hcoll.
      erewrite bind_Done; last first.
      { rewrite (gpuExtended_sample _ _ _ _ _ Hg).
        erewrite bind_Done by done. erewrite bind_Done by done. done. }
      lazy beta iota. by destruct (FormatMetrics _ _) as [txt [err|]].
Qed.

(** ** Failures in a cycle *)

Lemma stageOf_group `{!Externals} env m g :
  g ≠ FE_GPU →
  stageOf env m g =
  groupStage env m (collectorOf m g) (collectFailed g) (emitterOf env m g)
    (templateOf m g) (formatFailed g).
Proof. by destruct g. Qed.

Lemma stage_collect_error `{!Externals} env m g collector err formatted s :
  collectorOf m g = Some collector →
  GetMetrics collector (world env) = Err err →
  stageOf env m g formatted s = (Done (Return "" (Some (collectFailed g +:+ err))), s).
Proof.
  intros Hc Herr. destruct (decide (g = FE_GPU)) as [->|Hg].
  - simpl in *. unfold gpuStage. rewrite Hc.
    erewrite bind_Done; last first.
    { unfold gpuExtended. rewrite Herr. done. }
    done.
  - rewrite stageOf_group by done. unfold groupStage. by rewrite Hc, Herr.
Qed.

Lemma groups_split (g : EntityGroup) :
  ∃ after, [FE_GPU; FE_SWITCH; FE_LINK; FE_CPU; FE_CPU_CORE] = groupsBefore g ++ g :: after.
Proof. destruct g; simpl; eauto. Qed.

(** C1. When the collector of a group answers with an error in a cycle that
    reached it, the blocks before it having fallen through with whatever
    text they gathered, [run] returns the empty string and the wrapped
    error. *)
Theorem collection_failure_aborts_cycle `{!Externals} (env : Env) (m : MetricsPipeline)
    (g : EntityGroup) (collector : DCGMCollector) (err : error)
    (formatted : string) (s s1 : State) :
  collectorOf m g = Some collector →
  GetMetrics collector (world env) = Err err →
  stages env m (groupsBefore g) "" s = (Done (Next formatted), s1) →
  run env m s = (Done ("", Some (collectFailed g +:+ err)), s1).
Proof.
  intros Hc Herr Hbefore. rewrite run_stages.
  destruct (groups_split g) as [after ->].
  erewrite bind_Done; last first.
  { rewrite stages_app. unfold andThen at 1. erewrite bind_Done by done.
    simpl. unfold andThen at 1.
    erewrite bind_Done by (eapply stage_collect_error; eauto). done. }
  done.
Qed.

Lemma FormatMetrics_error `{!Externals} t g txt err :
  Execute t g = (txt, Some err) → FormatMetrics t g = ("", Some err).
Proof. unfold FormatMetrics. by intros ->. Qed.

Lemma FormatMetrics_ok `{!Externals} t g txt :
  Execute t g = (txt, None) → FormatMetrics t g = (txt, None).
Proof. unfold FormatMetrics. by intros ->. Qed.

(** C3. A template error in the GPU block makes [run] return the empty
    string and an error. A template error in the block of another group
    logs a warning and leaves the text gathered so far as it was, where a
    template that succeeds appends its text; and when the five blocks have
    fallen through, [run] returns the text they gathered, without error. *)
Theorem render_failure_isolated `{!Externals} (env : Env) (m : MetricsPipeline) :
  (∀ collector s ext s1 txt err,
     gpuCollector m = Some collector →
     gpuExtended env m collector s = (Done (inr ext), s1) →
     Execute (migMetricsFormat m) ext = (txt, Some err) →
     run env m s = (Done ("", Some ("failed to format metrics; err: " +:+ err)), s1)) ∧
  (∀ g collector metrics formatted s s1 txt err,
     g ≠ FE_GPU →
     collectorOf m g = Some collector →
     GetMetrics collector (world env) = Ok metrics →
     whenMetered m (emitterOf env m g metrics) s = (Done (), s1) →
     0 < size metrics →
     Execute (templateOf m g) metrics = (txt, Some err) →
     stageOf env m g formatted s =
       (Done (Next formatted),
        mkState (gpuCounters s1) (sink s1)
          (logs s1 ++ [(WarnLevel, formatFailed g +:+ err)]))) ∧
  (∀ g collector metrics formatted s s1 txt,
     g ≠ FE_GPU →
     collectorOf m g = Some collector →
     GetMetrics collector (world env) = Ok metrics →
     whenMetered m (emitterOf env m g metrics) s = (Done (), s1) →
     0 < size metrics →
     Execute (templateOf m g) metrics = (txt, None) →
     stageOf env m g formatted s = (Done (Next (formatted +:+ txt)), s1)) ∧
  (∀ s formatted s',
     stages env m [FE_GPU; FE_SWITCH; FE_LINK; FE_CPU; FE_CPU_CORE] "" s =
       (Done (Next formatted), s') →
     run env m s = (Done (formatted, None), s')).
Proof.
  split; [|split; [|split]].
  - intros collector s ext s1 txt err Hc Hext Hexec. rewrite run_stages.
    erewrite bind_Done; last first.
    { simpl. unfold andThen at 1. erewrite bind_Done; last first.
      { unfold gpuStage. rewrite Hc. erewrite bind_Done by done.
        lazy beta iota. by rewrite (FormatMetrics_error _ _ _ _ Hexec). }
      done. }
    done.
  - intros g collector metrics formatted s s1 txt err Hg Hc Hget Hobs Hsize Hexec.
    rewrite stageOf_group by done. unfold groupStage. rewrite Hc, Hget.
    erewrite bind_Done by done. rewrite decide_True by done.
    rewrite (FormatMetrics_error _ _ _ _ Hexec).
    unfold mbind, M_bind, logf, mret, M_ret. by rewrite string_app_nil_r.
  - intros g collector metrics formatted s s1 txt Hg Hc Hget Hobs Hsize Hexec.
    rewrite stageOf_group by done. unfold groupStage. rewrite Hc, Hget.
    erewrite bind_Done by done. rewrite decide_True by done.
    by rewrite (FormatMetrics_ok _ _ _ Hexec).
  - intros s formatted s' Hst. rewrite run_stages. by erewrite bind_Done by done.
Qed.

(** ** The scheduler and the channel *)

Lemma send_full (out : Chan) (v : string) :
  parked out = 0 → length (buf out) = cap out → send out v = SendBlocks.
Proof.
  intros Hp Hfull. unfold send. rewrite decide_False by lia.
  by rewrite decide_False by lia.
Qed.

Lemma send_room (out : Chan) (v : string) :
  length (buf out) ≠ cap out → length (buf out) ≤ cap out → ∃ out', send out v = Sent out'.
Proof.
  intros Hne Hle. unfold send. case_decide; [eauto|].
  rewrite decide_True by lia. eauto.
Qed.

(** After a cycle that succeeded the scheduler goes on: it sends when there
    is room and drops the text, with a log entry, when the buffer is full. *)
Lemma iteration_success `{!Externals} env m out s o s1 :
  run env m s = (Done (o, None), s1) →
  length (buf out) ≤ cap out →
  ∃ out' s', iteration env m TickCase out s = (Done (Continues out'), s') ∧
    (length (buf out) = cap out →
     out' = out ∧ s' = mkState (gpuCounters s1) (sink s1)
                         (logs s1 ++ [(ErrorLevel, "Channel is full skipping.")])).
Proof.
  intros Hrun Hle. unfold iteration. erewrite bind_Done by done.
  case_decide as Hfull.
  - eexists _, _. split; [done|]. done.
  - destruct (send_room out o Hfull Hle) as [out' ->].
    eexists _, _. split; [done|]. done.
Qed.

(** After a cycle that failed the scheduler sends the empty string without
    looking at the buffer: with the buffer full and no receiver parked, the
    send blocks. *)
Lemma iteration_failure_blocks `{!Externals} env m out s o err s1 :
  run env m s = (Done (o, Some err), s1) →
  parked out = 0 → length (buf out) = cap out →
  iteration env m TickCase out s =
    (Done (BlocksSending ""),
     mkState (gpuCounters s1) (sink s1)
       (logs s1 ++ [(ErrorLevel, "Failed to collect metrics; err: " +:+ err)])).
Proof.
  intros Hrun Hp Hfull. unfold iteration. erewrite bind_Done by done.
  unfold mbind, M_bind, logf. by rewrite send_full.
Qed.

(** ** The statements at work on the example node *)

Lemma exampleEnv_ok broken w : @EnvOK (exampleExternals broken) (exampleEnv broken w).
Proof. split; intros; unfold VisitOrder; reflexivity. Qed.

Lemma pair_eq_fst {A B} (x : A * B) (a : A) : x.1 = a → x = (a, x.2).
Proof. destruct x. simpl. by intros ->. Qed.

Lemma extendedOf_eq (x : Outcome (Flow + MetricsByCounter) * State) :
  isExtended x.1 = true → x = (Done (inr (extendedOf x.1)), x.2).
Proof. by destruct x as [[[|]|] ?]. Qed.

Lemma exampleNew_built :
  exampleNew [] [utilCounter] =
    (Ok (builtPipeline,
         mkState (Some ∅) [] [(DebugLevel, "Counters are initialized")],
         [FE_GPU]),
     [(DebugLevel, "Counters are initialized")]).
Proof. reflexivity. Qed.

Lemma fingerprint_witness :
  metricFingerprintAt ["zone"; "rack"] ["pod"; "namespace"] (labelled "1") =
  metricFingerprintAt ["rack"; "zone"] ["namespace"; "pod"] (labelled "2").
Proof.
  apply metricFingerprint_order_independent; try reflexivity;
    unfold VisitOrder; vm_compute; (reflexivity || apply perm_swap).
Defined.

Lemma empty_list_witness :
  ∃ s', @emitterOf (exampleExternals []) (exampleEnv [] (calmWorld "42"))
          (examplePipeline [] (Some exampleMeter) (Some (mkOtelMeters ∅ ∅ ∅))
             [powerCounter] [FE_SWITCH])
          FE_SWITCH {[ powerCounter := [] ]} freshState =
        (Panicked (IndexOutOfRange 0 0), s').
Proof.
  apply (emitter_panics_on_empty_list (H := exampleExternals []) _ _ _ _ powerCounter).
  - apply exampleEnv_ok.
  - reflexivity.
  - intros c l metricVal Hc Hin.
    apply lookup_singleton_Some in Hc as [_ <-]. by apply elem_of_nil in Hin.
Defined.

Lemma emitter_witness :
  (∃ p, @OtelObserve (exampleExternals [])
          (examplePipeline [] (Some exampleMeter) (Some (mkOtelMeters ∅ ∅ ∅)) [] [FE_GPU])
          utilCounter (gpuMetric utilCounter "42") [("GPU", "0")] freshState =
        (Panicked p, freshState)) ∧
  (∃ s', @OtelObserve (exampleExternals []) builtPipeline utilCounter
           (gpuMetric utilCounter "42") [("GPU", "0")] freshState =
         (Done [("gpu", "0")], s')).
Proof.
  destruct (emitter_panics_unless_registered_and_numeric (H := exampleExternals []))
    as [Hpanic Hok].
  split.
  - apply Hpanic; [right; by left|left; vm_compute; reflexivity].
  - pose proof exampleNew_built as Hnew. unfold exampleNew in Hnew.
    edestruct (Hok _ _ _ _ _ _ _ exampleMeter _ _ _ _ utilCounter
                 (gpuMetric utilCounter "42") 42%float [("GPU", "0")] freshState Hnew)
      as (s' & Hobs & _);
      [reflexivity|by left|vm_compute; reflexivity|].
    exists s'. exact Hobs.
Defined.

Lemma collection_failure_witness :
  (@stages (exampleExternals []) (exampleEnv [] switchDownWorld) (plainPipeline [])
     [FE_GPU] "" freshState).1 =
    Done (Next (gpuText "42" +:+ gpuCounterText "42")) ∧
  @run (exampleExternals []) (exampleEnv [] switchDownWorld) (plainPipeline []) freshState =
    (Done ("", Some "failed to collect switch metrics; err: dcgm: connection lost"),
     (@stages (exampleExternals []) (exampleEnv [] switchDownWorld) (plainPipeline [])
        [FE_GPU] "" freshState).2).
Proof.
  split; [vm_compute; reflexivity|].
  apply (collection_failure_aborts_cycle (H := exampleExternals [])
           (exampleEnv [] switchDownWorld) (plainPipeline []) FE_SWITCH
           (exampleCollector [] FE_SWITCH) "dcgm: connection lost"
           (gpuText "42" +:+ gpuCounterText "42")).
  - reflexivity.
  - reflexivity.
  - apply pair_eq_fst. vm_compute; reflexivity.
Defined.


Lemma derived_series_witness :
  ∃ evs,
    sink (@gpuExtended (exampleExternals []) (exampleEnv [] (calmWorld "42")) builtPipeline
            (exampleCollector [] FE_GPU) freshState).2 = evs ∧
    length evs = 1 ∧
    Forall (ObservationOf builtPipeline (gpuGrouping "42")) evs.
Proof.
  destruct (derived_series_not_emitted (H := exampleExternals [])
              (exampleEnv [] (calmWorld "42")) builtPipeline (exampleCollector [] FE_GPU)
              (gpuGrouping "42") freshState _ _ eq_refl (surjective_pairing _))
    as ((evs & Hsink & Hall) & _ & _).
  exists evs. split; [exact Hsink|]. split; [|done].
  simpl in Hsink. rewrite <- Hsink. vm_compute. reflexivity.
Defined.

Lemma derived_counter_witness :
  (∃ gc, gpuCounters (stateAfter "42" 2) = Some gc ∧
         gc !! metricFingerprint (gpuMetric utilCounter "42") = Some 84%float) ∧
  cycleAfter "42" 1 = Done (gpuText "42" +:+ gpuCounterText "84", None).
Proof.
  split; [|vm_compute; reflexivity].
  destruct (derived_counter_after_k_cycles (H := exampleExternals []) gpuPipeline
              (exampleCollector [] FE_GPU) (λ _, exampleEnv [] (calmWorld "42"))
              (stateAfter "42") (λ _, gpuGrouping "42") (λ _, gpuMetric utilCounter "42")
              (metricFingerprint (gpuMetric utilCounter "42")) 42%float ∅ 2)
    with (i := 1) as [Hacc _].
  - reflexivity.
  - reflexivity.
  - reflexivity.
  - intros i Hi. split; [apply exampleEnv_ok|]. split; [|split; [|split]].
    + exists (returned ("", None)
                (@run (exampleExternals []) (exampleEnv [] (calmWorld "42")) gpuPipeline
                   (stateAfter "42" i))).
      apply (pair_eq_fst (@run (exampleExternals []) (exampleEnv [] (calmWorld "42"))
                            gpuPipeline (stateAfter "42" i))).
      destruct i as [|[|i]]; [vm_compute; reflexivity..|lia].
    + reflexivity.
    + vm_compute; reflexivity.
    + vm_compute; reflexivity.
  - lia.
  - exact Hacc.
Defined.

(** Ten cycles that report [0.1]: the derived metric of the tenth holds the
    float64 sum of ten times the parsed value, which is not ten times it. *)
Lemma derived_counter_is_a_float_sum :
  Strconv.ParseFloat "0.1" = Ok 0x1.999999999999ap-4%float ∧
  cycleAfter "0.1" 9 = Done (gpuText "0.1" +:+ gpuCounterText "0.9999999999999999", None) ∧
  Strconv.FormatFloat (10 * 0x1.999999999999ap-4) = "1" ∧
  (kfold 10 0x1.999999999999ap-4 =? 10 * 0x1.999999999999ap-4)%float = false.
Proof. repeat split; vm_compute; reflexivity. Qed.


Lemma render_failure_witness :
  (@run (exampleExternals [MigFormat]) (exampleEnv [MigFormat] (calmWorld "42"))
     (plainPipeline [MigFormat]) freshState).1 =
    Done ("", Some "failed to format metrics; err: template: cannot write") ∧
  (@run (exampleExternals [SwitchFormat]) (exampleEnv [SwitchFormat] (calmWorld "42"))
     (plainPipeline [SwitchFormat]) freshState).1 =
    Done (gpuText "42" +:+ gpuCounterText "42" +:+ otherText +:+ otherText +:+ otherText,
          None).
Proof.
  split.
  - destruct (render_failure_isolated (H := exampleExternals [MigFormat])
                (exampleEnv [MigFormat] (calmWorld "42")) (plainPipeline [MigFormat]))
      as (Hgpu & _).
    assert (isExtended
              (@gpuExtended (exampleExternals [MigFormat])
                 (exampleEnv [MigFormat] (calmWorld "42")) (plainPipeline [MigFormat])
                 (exampleCollector [MigFormat] FE_GPU) freshState).1 = true) as Hext
      by (vm_compute; reflexivity).
    rewrite (Hgpu (exampleCollector [MigFormat] FE_GPU) freshState _ _
               "" "template: cannot write" eq_refl (extendedOf_eq _ Hext) eq_refl).
    reflexivity.
  - destruct (render_failure_isolated (H := exampleExternals [SwitchFormat])
                (exampleEnv [SwitchFormat] (calmWorld "42")) (plainPipeline [SwitchFormat]))
      as (_ & _ & _ & Hall).
    rewrite (Hall freshState
               (gpuText "42" +:+ gpuCounterText "42" +:+ otherText +:+ otherText +:+ otherText)
               (@stages (exampleExternals [SwitchFormat])
                  (exampleEnv [SwitchFormat] (calmWorld "42")) (plainPipeline [SwitchFormat])
                  allGroups "" freshState).2).
    + reflexivity.
    + apply pair_eq_fst. vm_compute; reflexivity.
Defined.

(** C2. The scheduler after a cycle, the buffer of [out] full and nobody
    receiving: a cycle that succeeded is dropped with a log entry and the
    loop goes on, but a cycle that failed sends the empty string without
    looking at the buffer, and that send blocks. *)
Theorem failed_cycle_send_blocks_on_full_channel `{!Externals} (env : Env)
    (m : MetricsPipeline) (out : Chan) (s s1 : State) (o : string) (err : option error) :
  run env m s = (Done (o, err), s1) →
  parked out = 0 →
  length (buf out) = cap out →
  iteration env m TickCase out s =
    match err with
    | None =>
        (Done (Continues out),
         mkState (gpuCounters s1) (sink s1)
           (logs s1 ++ [(ErrorLevel, "Channel is full skipping.")]))
    | Some err =>
        (Done (BlocksSending ""),
         mkState (gpuCounters s1) (sink s1)
           (logs s1 ++ [(ErrorLevel, "Failed to collect metrics; err: " +:+ err)]))
    end.
Proof.
  intros Hrun Hp Hfull. destruct err as [err|].
  - by eapply iteration_failure_blocks.
  - destruct (iteration_success env m out s o s1 Hrun) as (out' & s' & -> & Hdrop); [lia|].
    by destruct (Hdrop Hfull) as [-> ->].
Qed.

Lemma failed_cycle_send_witness :
  (@iteration (exampleExternals []) (exampleEnv [] switchDownWorld) (plainPipeline [])
     TickCase fullChan freshState).1 = Done (BlocksSending "") ∧
  (@iteration (exampleExternals []) (exampleEnv [] (calmWorld "42")) (plainPipeline [])
     TickCase fullChan freshState).1 = Done (Continues fullChan).
Proof.
  split.
  - rewrite (failed_cycle_send_blocks_on_full_channel (H := exampleExternals [])
               (exampleEnv [] switchDownWorld) (plainPipeline []) fullChan freshState
               (@run (exampleExternals []) (exampleEnv [] switchDownWorld) (plainPipeline [])
                  freshState).2
               "" (Some "failed to collect switch metrics; err: dcgm: connection lost"));
      [reflexivity|apply pair_eq_fst; vm_compute; reflexivity|reflexivity|reflexivity].
  - rewrite (failed_cycle_send_blocks_on_full_channel (H := exampleExternals [])
               (exampleEnv [] (calmWorld "42")) (plainPipeline []) fullChan freshState
               (@run (exampleExternals []) (exampleEnv [] (calmWorld "42")) (plainPipeline [])
                  freshState).2
               (gpuText "42" +:+ gpuCounterText "42" +:+ otherText +:+ otherText +:+
                otherText +:+ otherText) None);
      [reflexivity|apply pair_eq_fst; vm_compute; reflexivity|reflexivity|reflexivity].
Defined.

(** * More facts about the pipeline *)

(** ** A cycle without a meter *)

Lemma whenMetered_None `{!Externals} m (observe : M unit) s :
  OtelMeter (config m) = None → whenMetered m observe s = (Done (), s).
Proof. unfold whenMetered. by intros ->. Qed.

Lemma groupStage_unmetered `{!Externals} env m collector cf observe t ff formatted s :
  OtelMeter (config m) = None →
  ∃ flow s', groupStage env m collector cf observe t ff formatted s = (Done flow, s') ∧
             gpuCounters s' = gpuCounters s ∧ sink s' = sink s.
Proof.
  intros Hm. unfold groupStage. destruct collector as [collector|]; [|by eexists _, _].
  destruct (GetMetrics collector (world env)) as [metrics|err]; [|by eexists _, _].
  erewrite bind_Done by by apply whenMetered_None.
  case_decide; [|by eexists _, _].
  destruct (FormatMetrics t metrics) as [txt [err|]]; by eexists _, _.
Qed.

Lemma gpuStage_unmetered `{!Externals} env m s gc :
  OtelMeter (config m) = None →
  gpuCounters s = Some gc →
  ∃ flow s' gc', gpuStage env m s = (Done flow, s') ∧
                 gpuCounters s' = Some gc' ∧ sink s' = sink s.
Proof.
  intros Hm Hgc. unfold gpuStage. destruct (gpuCollector m) as [collector|];
    [|by eexists _, _, _].
  unfold gpuExtended.
  destruct (GetMetrics collector (world env)) as [metrics|err]; [|by eexists _, _, _].
  destruct (applyTransformations _ _ _ _) as [metrics'|err]; [|by eexists _, _, _].
  pose proof (extendWithCounters_spec env metrics' s gc Hgc) as Hext. simpl in Hext.
  erewrite bind_Done; last first.
  { erewrite bind_Done by by apply whenMetered_None.
    erewrite bind_Done by exact Hext. done. }
  lazy beta iota.
  destruct (FormatMetrics _ _) as [txt [err|]]; by eexists _, _, _.
Qed.

Lemma stageOf_unmetered `{!Externals} env m g formatted s gc :
  OtelMeter (config m) = None →
  gpuCounters s = Some gc →
  ∃ flow s' gc', stageOf env m g formatted s = (Done flow, s') ∧
                 gpuCounters s' = Some gc' ∧ sink s' = sink s.
Proof.
  intros Hm Hgc. destruct g; simpl; [by eapply gpuStage_unmetered|..];
    unfold switchStage, linkStage, cpuStage, coreStage;
    (edestruct groupStage_unmetered as (flow & s' & -> & Hk & Hs); [done|];
     eexists _, _, gc; by rewrite Hk).
Qed.

Lemma stages_unmetered `{!Externals} env m gs : ∀ formatted s gc,
  OtelMeter (config m) = None →
  gpuCounters s = Some gc →
  ∃ flow s' gc', stages env m gs formatted s = (Done flow, s') ∧
                 gpuCounters s' = Some gc' ∧ sink s' = sink s.
Proof.
  induction gs as [|g gs IH]; intros formatted s gc Hm Hgc; simpl.
  - by eexists _, _, _.
  - destruct (stageOf_unmetered env m g formatted s gc Hm Hgc)
      as (flow & s1 & gc1 & Hstage & Hgc1 & Hs1).
    unfold andThen. erewrite bind_Done by done. destruct flow as [formatted'|text err].
    + destruct (IH formatted' s1 gc1 Hm Hgc1) as (flow & s2 & gc2 & -> & Hgc2 & Hs2).
      eexists _, _, _. split; [done|]. split; [done|]. by rewrite Hs2.
    + by eexists _, _, _.
Qed.

(** X1. A pipeline without a meter, its accumulator allocated, finishes every
    cycle: [run] returns a text or an error, it does not panic; and it sends
    nothing to the push sink. *)
Theorem run_without_meter_returns `{!Externals} (env : Env) (m : MetricsPipeline)
    (s : State) (gc : gmap string float) :
  OtelMeter (config m) = None →
  gpuCounters s = Some gc →
  ∃ text err s' gc',
    run env m s = (Done (text, err), s') ∧
    gpuCounters s' = Some gc' ∧ sink s' = sink s.
Proof.
  intros Hm Hgc. rewrite run_stages.
  destruct (stages_unmetered env m [FE_GPU; FE_SWITCH; FE_LINK; FE_CPU; FE_CPU_CORE]
              "" s gc Hm Hgc) as (flow & s' & gc' & Hrun & Hgc' & Hs').
  erewrite bind_Done by done. destruct flow; by eexists _, _, _, _.
Qed.

Lemma run_without_meter_witness :
  ∃ text err s' gc',
    @run (exampleExternals []) (exampleEnv [] switchDownWorld) (plainPipeline []) freshState =
      (Done (text, err), s') ∧
    gpuCounters s' = Some gc' ∧ sink s' = sink freshState.
Proof.
  apply (run_without_meter_returns (H := exampleExternals []) _ _ _ ∅); reflexivity.
Defined.

(** ** The accumulator of a pipeline built for a test *)

Lemma accumulateMetric_nil `{!Externals} nc nm mv s :
  gpuCounters s = None →
  accumulateMetric nc nm mv s =
    match ParseFloat (Value mv) with
    | Ok _ => (Panicked AssignmentToNilMap, s)
    | Err _ => (Done nm, mkState None (sink s) (logs s ++ parseWarning mv))
    end.
Proof.
  intros Hs. unfold accumulateMetric, parseWarning.
  destruct (ParseFloat (Value mv)) as [val|err].
  - unfold mbind, M_bind, addToCounter. by rewrite Hs.
  - unfold mbind, M_bind, logf, mret, M_ret. by rewrite Hs.
Qed.

Lemma accumulateList_nil `{!Externals} nc l : ∀ nm s,
  gpuCounters s = None →
  ∃ s', gpuCounters s' = None ∧
    forEachWith (accumulateMetric nc) nm l s =
      if existsb parses l then (Panicked AssignmentToNilMap, s') else (Done nm, s').
Proof.
  induction l as [|mv l IH]; intros nm s Hs; simpl.
  - by exists s.
  - unfold mbind, M_bind. rewrite accumulateMetric_nil by done. unfold parses at 1.
    destruct (ParseFloat (Value mv)) as [val|err] eqn:Hp; simpl.
    + by exists s.
    + by destruct (IH nm (mkState None (sink s) (logs s ++ parseWarning mv)) eq_refl)
        as (s' & Hs' & ->); exists s'.
Qed.

Lemma accumulateEntries_nil `{!Externals} es : ∀ ext s,
  gpuCounters s = None →
  existsb (λ entry, existsb parses entry.2) es = true →
  ∃ s', forEachWith accumulateCounter ext es s = (Panicked AssignmentToNilMap, s').
Proof.
  induction es as [|[c l] es IH]; intros ext s Hs Hex; [done|].
  simpl in *. unfold mbind at 1, M_bind at 1. unfold mbind at 1, M_bind at 1.
  destruct (accumulateList_nil (derivedCounter c) l [] s Hs) as (s1 & Hs1 & ->).
  destruct (existsb parses l); [by eexists|].
  unfold mret, M_ret. by apply IH.
Qed.

(** X2. The pipeline of [NewMetricsPipelineWithGPUCollector] has no accumulator
    map: without a meter, its first cycle in which the collector reports a
    metric whose value parses panics on the assignment to the nil map. *)
Theorem test_pipeline_panics_on_a_value `{!Externals} (c : Config)
    (collector : DCGMCollector) (cs : list Counter) (env : Env)
    (metrics : MetricsByCounter) (counter : Counter) (l : list Metric)
    (metricVal : Metric) (val : float) :
  OtelMeter c = None →
  EnvOK env →
  GetMetrics collector (world env) = Ok metrics →
  metrics !! counter = Some l →
  metricVal ∈ l →
  ParseFloat (Value metricVal) = Ok val →
  ∃ s', run env (NewMetricsPipelineWithGPUCollector c collector cs).1
          (NewMetricsPipelineWithGPUCollector c collector cs).2 =
        (Panicked AssignmentToNilMap, s').
Proof.
  intros Hm [Hvisit _] Hget Hc Hin Hval.
  set (m := (NewMetricsPipelineWithGPUCollector c collector cs).1).
  set (s0 := (NewMetricsPipelineWithGPUCollector c collector cs).2).
  assert (∃ s', gpuStage env m s0 = (Panicked AssignmentToNilMap, s')) as [s' Hs'].
  { edestruct (accumulateEntries_nil
                 (rangeMap (visit env AccumulateSite metrics) metrics) metrics s0)
      as [s' Hs']; [done| |].
    { apply existsb_exists. exists (counter, l). split.
      - apply list_elem_of_In. by apply elem_of_rangeMap.
      - apply existsb_exists. exists metricVal. split; [by apply list_elem_of_In|].
        unfold parses. by rewrite Hval. }
    exists s'. unfold gpuStage, gpuExtended. simpl. rewrite Hget. simpl.
    erewrite bind_Panicked; [done|].
    erewrite bind_Done by by apply whenMetered_None.
    erewrite bind_Panicked; [done|]. exact Hs'. }
  exists s'. rewrite run_stages. cbn [stages stageOf].
  erewrite bind_Panicked; [done|]. unfold andThen at 1.
  erewrite bind_Panicked; [done|]. exact Hs'.
Qed.

Lemma test_pipeline_witness :
  ∃ s', @run (exampleExternals []) (exampleEnv [] (calmWorld "42"))
          (NewMetricsPipelineWithGPUCollector (mkConfig 30000 false "" None)
             (exampleCollector [] FE_GPU) [utilCounter]).1
          (NewMetricsPipelineWithGPUCollector (mkConfig 30000 false "" None)
             (exampleCollector [] FE_GPU) [utilCounter]).2 =
        (Panicked AssignmentToNilMap, s').
Proof.
  apply (test_pipeline_panics_on_a_value (H := exampleExternals []) _ _ _ _
           (gpuGrouping "42") utilCounter [gpuMetric utilCounter "42"]
           (gpuMetric utilCounter "42") 42%float).
  - reflexivity.
  - apply exampleEnv_ok.
  - reflexivity.
  - reflexivity.
  - by left.
  - vm_compute; reflexivity.
Defined.

(** ** What the emitters send *)

Lemma lowerKeys_values `{!Externals} (attrs : list KeyValue) : (lowerKeys attrs).*2 = attrs.*2.
Proof. unfold lowerKeys. rewrite <- list_fmap_compose. by apply list_fmap_ext. Qed.

Lemma state_eta (s : State) : mkState (gpuCounters s) (sink s ++ []) (logs s) = s.
Proof. destruct s. simpl. by rewrite app_nil_r. Qed.

Lemma emitterOf_observeGroup `{!Externals} env m g :
  ∃ capacity, emitterOf env m g = observeGroup env m g capacity (groupAttrs env g).
Proof. destruct g; by exists (λ _, 0). Qed.

Lemma observeList_metered `{!Externals} m counter attrsOf i l : ∀ attrs s,
  Metered counter →
  instrumentFor m counter = Some i →
  forallb parses l = true →
  forEachWith (λ attrs metricVal, OtelObserve m counter metricVal (attrs ++ attrsOf metricVal))
    attrs l s =
  (Done (attrsAfter attrsOf attrs l),
   mkState (gpuCounters s) (sink s ++ eventsOf i attrsOf attrs l) (logs s)).
Proof.
  induction l as [|mv l IH]; intros attrs s Hc Hi Hl; simpl.
  - by rewrite state_eta.
  - simpl in Hl. apply andb_true_iff in Hl as [Hmv Hl]. unfold parses in Hmv.
    unfold mbind, M_bind. rewrite OtelObserve_cases, decide_True, Hi by done.
    destruct (ParseFloat (Value mv)) as [val|err]; [|done].
    rewrite IH by done. simpl. by rewrite <- app_assoc.
Qed.

Lemma observeList_unmetered `{!Externals} m counter attrsOf l : ∀ attrs s,
  ¬ Metered counter →
  forEachWith (λ attrs metricVal, OtelObserve m counter metricVal (attrs ++ attrsOf metricVal))
    attrs l s =
  (Done (attrsAfter attrsOf attrs l), s).
Proof.
  induction l as [|mv l IH]; intros attrs s Hc; simpl; [done|].
  unfold mbind, M_bind. rewrite OtelObserve_cases, decide_False by done. by apply IH.
Qed.

Lemma observable_parses `{!Externals} m counter l :
  Metered counter →
  (∀ metricVal, metricVal ∈ l → Observable m counter metricVal) →
  forallb parses l = true.
Proof.
  intros Hc Hl. apply forallb_forall. intros mv Hmv%list_elem_of_In.
  destruct (Hl mv Hmv Hc) as [_ [val Hval]]. unfold parses. by rewrite Hval.
Qed.

Lemma observeEntries_spec `{!Externals} m attrsOf (es : list (Counter * list Metric)) : ∀ s,
  (∀ c l, (c, l) ∈ es → l ≠ [] ∧ ∀ metricVal, metricVal ∈ l → Observable m c metricVal) →
  forEach (λ '(counter, metricVals),
    match metricVals with
    | [] => panic (IndexOutOfRange 0 0)
    | first :: _ =>
        forEachWith (λ attrs metricVal,
          OtelObserve m counter metricVal (attrs ++ attrsOf metricVal))
          [] metricVals ;;
        mret ()
    end) es s =
  (Done (), mkState (gpuCounters s) (sink s ++ (es ≫= entryEvents m attrsOf)) (logs s)).
Proof.
  induction es as [|[c l] es IH]; intros s Hes.
  - simpl. by rewrite state_eta.
  - destruct (Hes c l) as [Hne Hobs]; [by left|].
    destruct l as [|first l]; [done|].
    cbn [forEach]. rewrite bind_cons.
    unfold entryEvents at 1. cbn [fst snd]. destruct (decide (Metered c)) as [Hc|Hc].
    + destruct (Hobs first) as [[i Hi] _]; [by left|done|]. rewrite Hi.
      erewrite bind_Done; last first.
      { erewrite bind_Done; [done|].
        apply (observeList_metered m c attrsOf i); eauto using observable_parses. }
      rewrite IH by (intros; apply Hes; by right).
      simpl. by rewrite <- app_assoc.
    + erewrite bind_Done; last first.
      { erewrite bind_Done; [done|]. by apply observeList_unmetered. }
      by rewrite IH by (intros; apply Hes; by right).
Qed.

Lemma emitterOf_spec `{!Externals} env m g metrics s :
  EnvOK env →
  (∀ c l, metrics !! c = Some l →
     l ≠ [] ∧ ∀ metricVal, metricVal ∈ l → Observable m c metricVal) →
  emitterOf env m g metrics s =
  (Done (),
   mkState (gpuCounters s)
     (sink s ++ (rangeMap (visit env (ObserveSite g) metrics) metrics
                   ≫= entryEvents m (groupAttrs env g)))
     (logs s)).
Proof.
  intros [Hvisit _] Hobs. destruct (emitterOf_observeGroup env m g) as [capacity ->].
  unfold observeGroup. apply observeEntries_spec.
  intros c l Hin. apply Hobs. by eapply elem_of_rangeMap_lookup.
Qed.

Lemma eventsOf_length `{!Externals} i attrsOf l : ∀ attrs,
  forallb parses l = true → length (eventsOf i attrsOf attrs l) = length l.
Proof.
  induction l as [|mv l IH]; intros attrs Hl; simpl; [done|].
  simpl in Hl. apply andb_true_iff in Hl as [Hmv Hl]. unfold parses in Hmv.
  destruct (ParseFloat (Value mv)); [|done]. simpl. by rewrite IH.
Qed.

Lemma eventsOf_lookup `{!Externals} i attrsOf l : ∀ attrs j metricVal e,
  l !! j = Some metricVal →
  eventsOf i attrsOf attrs l !! j = Some e →
  evInstrument e = i ∧ ParseFloat (Value metricVal) = Ok (evValue e) ∧
  (evAttrs e).*2 = attrs.*2 ++ (concat (attrsOf <$> take (S j) l)).*2.
Proof.
  induction l as [|mv l IH]; intros attrs j metricVal e Hj He; [done|].
  simpl in He. destruct (ParseFloat (Value mv)) as [val|err] eqn:Hval; [|done].
  destruct j as [|j]; simpl in *.
  - simplify_eq. simpl. split; [done|]. split; [done|].
    by rewrite lowerKeys_values, fmap_app, app_nil_r.
  - destruct (IH _ _ _ _ Hj He) as (Hi & Hp & Ha). split; [done|]. split; [done|].
    rewrite Ha, lowerKeys_values, !fmap_app. by rewrite <- app_assoc.
Qed.

(** X3. An emitter on a grouping whose metrics can all be observed and whose
    lists are not empty: the events of the metrics of a metered counter go
    to the sink in the order of its list, one for each metric, and the event
    of a metric carries the attribute values of every metric that precedes
    it in the list and then its own, since the buffer is made once for the
    counter and never emptied. *)
Theorem emitter_attributes_accumulate `{!Externals} (env : Env) (m : MetricsPipeline)
    (g : EntityGroup) (metrics : MetricsByCounter) (s : State)
    (counter : Counter) (l : list Metric) (i : Instrument) :
  EnvOK env →
  (∀ c l, metrics !! c = Some l →
     l ≠ [] ∧ ∀ metricVal, metricVal ∈ l → Observable m c metricVal) →
  metrics !! counter = Some l →
  Metered counter →
  instrumentFor m counter = Some i →
  ∃ before es after,
    emitterOf env m g metrics s =
      (Done (), mkState (gpuCounters s) (sink s ++ before ++ es ++ after) (logs s)) ∧
    length es = length l ∧
    ∀ j metricVal, l !! j = Some metricVal →
      ∃ e, es !! j = Some e ∧ evInstrument e = i ∧
           ParseFloat (Value metricVal) = Ok (evValue e) ∧
           (evAttrs e).*2 = (concat (groupAttrs env g <$> take (S j) l)).*2.
Proof.
  intros Henv Hobs Hl Hc Hi. rewrite emitterOf_spec by done.
  destruct Henv as [Hvisit _].
  assert ((counter, l) ∈ rangeMap (visit env (ObserveSite g) metrics) metrics) as Hin
    by by apply elem_of_rangeMap.
  apply list_elem_of_split in Hin as (es1 & es2 & ->).
  exists (es1 ≫= entryEvents m (groupAttrs env g)),
         (eventsOf i (groupAttrs env g) [] l),
         (es2 ≫= entryEvents m (groupAttrs env g)).
  assert (forallb parses l = true) as Hparses.
  { apply (observable_parses m counter); [done|]. by apply Hobs. }
  split; [|split].
  - rewrite bind_app, bind_cons. unfold entryEvents at 2. simpl.
    by rewrite decide_True, Hi by done.
  - by apply eventsOf_length.
  - intros j metricVal Hj.
    destruct (lookup_lt_is_Some_2 (eventsOf i (groupAttrs env g) [] l) j) as [e He].
    { rewrite eventsOf_length by done. by eapply lookup_lt_Some. }
    exists e. split; [done|]. by apply (eventsOf_lookup _ _ _ _ _ _ _ Hj He).
Qed.

Lemma meteredMetrics_perm (es1 es2 : list (Counter * list Metric)) :
  es1 ≡ₚ es2 → length (meteredMetrics es1) = length (meteredMetrics es2).
Proof. intros Hp. unfold meteredMetrics. by rewrite Hp. Qed.

Lemma entryEvents_length `{!Externals} m attrsOf c l :
  (∀ metricVal, metricVal ∈ l → Observable m c metricVal) →
  l ≠ [] →
  length (entryEvents m attrsOf (c, l)) = length (if decide (Metered c) then l else []).
Proof.
  intros Hobs Hne. unfold entryEvents. simpl. case_decide as Hc; [|done].
  destruct l as [|first l]; [done|].
  destruct (Hobs first) as [[i ->] _]; [by left|done|].
  apply eventsOf_length. by apply (observable_parses m c).
Qed.

(** X4. An emitter on such a grouping sends one event for each metric of a
    counter, a gauge or a histogram, and none for a metric of another type;
    it leaves the accumulator and the log as they were. *)
Theorem emitter_sends_one_event_per_metric `{!Externals} (env : Env) (m : MetricsPipeline)
    (g : EntityGroup) (metrics : MetricsByCounter) (s : State) :
  EnvOK env →
  (∀ c l, metrics !! c = Some l →
     l ≠ [] ∧ ∀ metricVal, metricVal ∈ l → Observable m c metricVal) →
  ∃ evs,
    emitterOf env m g metrics s =
      (Done (), mkState (gpuCounters s) (sink s ++ evs) (logs s)) ∧
    length evs = length (meteredMetrics (map_to_list metrics)).
Proof.
  intros Henv Hobs. rewrite emitterOf_spec by done. eexists. split; [done|].
  destruct Henv as [Hvisit _].
  rewrite <- (meteredMetrics_perm _ _ (rangeMap_perm _ _ (Hvisit (ObserveSite g) metrics))).
  assert (∀ c l, (c, l) ∈ rangeMap (visit env (ObserveSite g) metrics) metrics →
            l ≠ [] ∧ ∀ metricVal, metricVal ∈ l → Observable m c metricVal) as Hes.
  { intros c l Hin. apply Hobs. by eapply elem_of_rangeMap_lookup. }
  induction (rangeMap (visit env (ObserveSite g) metrics) metrics) as [|[c l] es IH];
    [done|].
  unfold meteredMetrics. rewrite !bind_cons, !length_app.
  destruct (Hes c l) as [Hne Hl]; [by left|].
  rewrite entryEvents_length by done. simpl. f_equal.
  apply IH. intros; apply Hes; by right.
Qed.

(** X5. A grouping that holds only counters of other types ([label], [summary],
    ...), none of them with an empty list: the emitter returns and changes
    nothing, whatever the values of the metrics are, and also in a pipeline
    that has no instruments. *)
Theorem emitter_ignores_other_types `{!Externals} (env : Env) (m : MetricsPipeline)
    (g : EntityGroup) (metrics : MetricsByCounter) (s : State) :
  EnvOK env →
  (∀ c l, metrics !! c = Some l → ¬ Metered c ∧ l ≠ []) →
  emitterOf env m g metrics s = (Done (), s).
Proof.
  intros Henv Hother. rewrite emitterOf_spec; [|done|].
  - assert (∀ es : list (Counter * list Metric),
              (∀ c l, (c, l) ∈ es → ¬ Metered c) →
              es ≫= entryEvents m (groupAttrs env g) = []) as Hnil.
    { induction es as [|[c l] es IH]; intros Hes; [done|].
      rewrite bind_cons, IH by (intros; eapply Hes; by right).
      unfold entryEvents. simpl. rewrite decide_False; [done|]. eapply Hes. by left. }
    rewrite Hnil; [by rewrite state_eta|].
    intros c l Hin. eapply Hother. by eapply elem_of_rangeMap_lookup.
  - intros c l Hl. destruct (Hother c l Hl) as [Hc Hne]. split; [done|].
    by intros metricVal _ ?.
Qed.

(** ** Empty groupings and failing transformations *)

Lemma rangeMap_empty `{Countable K} {V} (ks : list K) : rangeMap ks (∅ : gmap K V) = [].
Proof. induction ks as [|k ks IH]; [done|]. unfold rangeMap in *. simpl. by rewrite lookup_empty. Qed.

Lemma emitterOf_empty `{!Externals} env m g s : emitterOf env m g ∅ s = (Done (), s).
Proof.
  destruct (emitterOf_observeGroup env m g) as [capacity ->].
  unfold observeGroup. by rewrite rangeMap_empty.
Qed.

Lemma whenMetered_empty `{!Externals} env m g s :
  whenMetered m (emitterOf env m g ∅) s = (Done (), s).
Proof. unfold whenMetered. destruct (OtelMeter (config m)); [apply emitterOf_empty|done]. Qed.

(** X6. An empty grouping. When the collector of another group than the
    GPUs reports one, the block adds nothing to the text, logs nothing and
    does not execute the template. The GPU block has no such test: when the
    grouping that its collector reports is empty after the transformations,
    it executes its template on the empty grouping and returns the text or
    the error of the template. *)
Theorem empty_grouping_is_rendered_for_gpus_only `{!Externals} (env : Env)
    (m : MetricsPipeline) :
  (∀ g collector formatted s,
     g ≠ FE_GPU →
     collectorOf m g = Some collector →
     GetMetrics collector (world env) = Ok ∅ →
     stageOf env m g formatted s = (Done (Next formatted), s)) ∧
  (∀ collector s,
     gpuCollector m = Some collector →
     gpuSample env m collector = Some ∅ →
     gpuStage env m s =
       (Done (match FormatMetrics (migMetricsFormat m) ∅ with
              | (_, Some err) => Return "" (Some ("failed to format metrics; err: " +:+ err))
              | (text, None) => Next text
              end), s)).
Proof.
  split.
  - intros g collector formatted s Hg Hc Hget.
    rewrite stageOf_group by done. unfold groupStage. rewrite Hc, Hget.
    erewrite bind_Done by apply whenMetered_empty.
    rewrite decide_False; [done|]. rewrite map_size_empty. lia.
  - intros collector s Hc Hg. unfold gpuStage. rewrite Hc.
    erewrite bind_Done; last first.
    { rewrite (gpuExtended_sample _ _ _ _ _ Hg).
      erewrite bind_Done by apply (whenMetered_empty env m FE_GPU).
      unfold extendWithCounters. rewrite rangeMap_empty. simpl. done. }
    lazy beta iota. by destruct (FormatMetrics (migMetricsFormat m) ∅) as [text [err|]].
Qed.

Lemma applyTransformations_app `{!Externals} w ts1 ts2 sysInfo : ∀ metrics,
  applyTransformations w (ts1 ++ ts2) metrics sysInfo =
    match applyTransformations w ts1 metrics sysInfo with
    | Ok metrics1 => applyTransformations w ts2 metrics1 sysInfo
    | Err err => Err err
    end.
Proof.
  induction ts1 as [|t ts1 IH]; intros metrics; simpl; [done|].
  by destruct (Process t w metrics sysInfo) as [metrics1 [err|]].
Qed.

(** X7. A transformation that fails ends the cycle: [run] returns the empty
    string and an error that names the transformation, the transformations
    after it are not run, and nothing is sent, accumulated or logged. *)
Theorem transformation_failure_aborts_cycle `{!Externals} (env : Env) (m : MetricsPipeline)
    (collector : DCGMCollector) (metrics metrics1 metrics2 : MetricsByCounter)
    (ts1 ts2 : list Transform) (t : Transform) (err : error) (s : State) :
  gpuCollector m = Some collector →
  GetMetrics collector (world env) = Ok metrics →
  transformations m = ts1 ++ t :: ts2 →
  applyTransformations (world env) ts1 metrics (SysInfo collector) = Ok metrics1 →
  Process t (world env) metrics1 (SysInfo collector) = (metrics2, Some err) →
  run env m s =
    (Done ("", Some ("failed to transform metrics for transform '" +:+ Name t +:+
                     "'; err: " +:+ err)), s).
Proof.
  intros Hc Hget Hts H1 Ht. rewrite run_stages. cbn [stages stageOf].
  erewrite bind_Done; last first.
  { unfold andThen at 1. erewrite bind_Done; last first.
    { unfold gpuStage. rewrite Hc. erewrite bind_Done; last first.
      { unfold gpuExtended. rewrite Hget, Hts, applyTransformations_app, H1. simpl.
        rewrite Ht. done. }
      done. }
    done. }
  done.
Qed.

(** ** The accumulator after a cycle *)

Lemma series_nil_visited `{!Externals} env (g : MetricsByCounter) fp :
  EnvOK env →
  series g fp = [] →
  ∀ metricVal, metricVal ∈ metricsOf (rangeMap (visit env AccumulateSite g) g) →
    metricFingerprint metricVal ≠ fp.
Proof.
  intros [Hvisit _] Hs metricVal Hin Hfp.
  assert (metricVal ∈ series g fp) as Hin'; [|rewrite Hs in Hin'; by apply elem_of_nil in Hin'].
  unfold series. apply list_elem_of_filter. split; [done|].
  unfold metricsOf in *. apply list_elem_of_bind in Hin as (entry & Hmv & Hentry).
  apply list_elem_of_bind. exists entry. split; [done|].
  by rewrite <- (rangeMap_perm _ _ (Hvisit AccumulateSite g)).
Qed.

(** X8. A cycle that returns, with a text or with an error of the GPU template
    or of a later group, has added every value of the GPU grouping that
    parses to the accumulator: the map is the one the loop over the grouping
    leaves, and the entry of a series that is not in the grouping is as it
    was. *)
Theorem cycle_accumulates_even_when_it_fails `{!Externals} (env : Env)
    (m : MetricsPipeline) (collector : DCGMCollector) (g : MetricsByCounter)
    (s s' : State) (gc : gmap string float) (r : string * option error) :
  EnvOK env →
  gpuCollector m = Some collector →
  gpuSample env m collector = Some g →
  gpuCounters s = Some gc →
  run env m s = (Done r, s') →
  gpuCounters s' =
    Some (totals gc (metricsOf (rangeMap (visit env AccumulateSite g) g))) ∧
  ∀ fp, series g fp = [] →
    ∃ gc', gpuCounters s' = Some gc' ∧ gc' !! fp = gc !! fp.
Proof.
  intros Henv Hc Hg Hgc Hrun.
  destruct (run_gpu_inv _ _ _ _ _ _ _ Hc Hg Hrun) as (s1 & ext & s2 & _ & Hk1 & Hext & _ & Hk2).
  rewrite Hgc in Hk1.
  pose proof (extendWithCounters_spec env g s1 gc Hk1) as Hspec. simpl in Hspec.
  rewrite Hspec in Hext. injection Hext as _ <-. simpl in Hk2.
  split; [done|]. intros fp Hfp. eexists. split; [done|].
  apply totals_lookup_other. by apply series_nil_visited.
Qed.

(** ** The accumulator only grows *)

Global Instance KeepsKeys_preorder : PreOrder KeepsKeys.
Proof.
  split.
  - intros s gc Hgc. eauto.
  - intros s1 s2 s3 H12 H23 gc Hgc.
    destruct (H12 gc Hgc) as (gc2 & Hgc2 & Hsub2).
    destruct (H23 gc2 Hgc2) as (gc3 & Hgc3 & Hsub3). eauto.
Qed.

Lemma effect_weaken (R1 R2 : relation State) {A} (ma : M A) :
  (∀ s s', R1 s s' → R2 s s') → Effect R1 ma → Effect R2 ma.
Proof. intros Hsub Hma s r s' E. apply Hsub. by eapply Hma. Qed.

Lemma SameCounters_KeepsKeys s s' : SameCounters s s' → KeepsKeys s s'.
Proof. intros Hs gc Hgc. exists gc. split; [by rewrite Hs|done]. Qed.

Lemma grows_addToCounter fp val : Effect KeepsKeys (addToCounter fp val).
Proof.
  intros s r s' E gc Hgc. unfold addToCounter in E. rewrite Hgc in E. simplify_eq.
  eexists. split; [done|]. intros fp' Hfp'.
  destruct (decide (fp = fp')) as [->|Hne].
  - rewrite lookup_insert_eq. eauto.
  - by rewrite lookup_insert_ne.
Qed.

Lemma grows_extendWithCounters `{!Externals} env metrics :
  Effect KeepsKeys (extendWithCounters env metrics).
Proof.
  unfold extendWithCounters. apply effect_forEachWith; [apply _|].
  intros ext [c l] _. unfold accumulateCounter.
  apply effect_bind; [apply _| |intros; apply effect_ret; apply _].
  apply effect_forEachWith; [apply _|]. intros nm mv _. unfold accumulateMetric.
  destruct (ParseFloat (Value mv));
    (apply effect_bind; [apply _| |intros; apply effect_ret; apply _]).
  - apply grows_addToCounter.
  - apply (effect_weaken SameCounters); [apply SameCounters_KeepsKeys|apply keeps_logf].
Qed.

Lemma grows_gpuStage `{!Externals} env m : Effect KeepsKeys (gpuStage env m).
Proof.
  unfold gpuStage. destruct (gpuCollector m) as [collector|]; [|apply effect_ret; apply _].
  apply effect_bind; [apply _| |].
  - unfold gpuExtended.
    destruct (GetMetrics collector (world env)) as [metrics|]; [|apply effect_ret; apply _].
    destruct (applyTransformations _ _ _ _) as [metrics'|]; [|apply effect_ret; apply _].
    apply effect_bind; [apply _| |intros _].
    + apply (effect_weaken SameCounters); [apply SameCounters_KeepsKeys|].
      apply effect_whenMetered; [apply _|]. apply (keeps_emitterOf env m FE_GPU).
    + apply effect_bind; [apply _| |intros; apply effect_ret; apply _].
      apply grows_extendWithCounters.
  - intros [flow|ext]; [apply effect_ret; apply _|].
    destruct (FormatMetrics _ _) as [txt [err|]]; apply effect_ret; apply _.
Qed.

Lemma grows_stages `{!Externals} env m gs : ∀ formatted,
  Effect KeepsKeys (stages env m gs formatted).
Proof.
  induction gs as [|g gs IH]; intros formatted; simpl; [apply effect_ret; apply _|].
  apply effect_andThen; [apply _| |done].
  destruct (decide (g = FE_GPU)) as [->|Hg]; [apply grows_gpuStage|].
  apply (effect_weaken SameCounters); [apply SameCounters_KeepsKeys|].
  by apply keeps_stageOf.
Qed.

Lemma grows_run `{!Externals} env m : Effect KeepsKeys (run env m).
Proof.
  intros s r s' E. rewrite run_stages in E. revert s r s' E.
  apply effect_bind; [apply _|apply grows_stages|].
  intros [formatted|text err]; apply effect_ret; apply _.
Qed.

Lemma grows_logf lvl msg : Effect KeepsKeys (logf lvl msg).
Proof. apply (effect_weaken SameCounters); [apply SameCounters_KeepsKeys|apply keeps_logf]. Qed.

Lemma grows_iteration `{!Externals} env m sel out : Effect KeepsKeys (iteration env m sel out).
Proof.
  unfold iteration. destruct sel; [apply effect_ret; apply _|].
  apply effect_bind; [apply _|apply grows_run|]. intros [o [err|]].
  - apply effect_bind; [apply _|apply grows_logf|]. intros _.
    destruct (send out ""); apply effect_ret; apply _.
  - case_decide.
    + apply effect_bind; [apply _|apply grows_logf|]. intros _. apply effect_ret; apply _.
    + destruct (send out o); apply effect_ret; apply _.
Qed.

(** X9. Whatever the scheduler and its cycles do, and however they end, they
    never delete from the accumulator: a fingerprint that has an entry keeps
    one. *)
Theorem accumulator_entries_are_never_removed `{!Externals} (m : MetricsPipeline)
    (events : list (Selected * Env)) (out : Chan) (s s' : State)
    (r : Outcome LoopStep) (gc : gmap string float) :
  Run m events out s = (r, s') →
  gpuCounters s = Some gc →
  ∃ gc', gpuCounters s' = Some gc' ∧ ∀ fp, is_Some (gc !! fp) → is_Some (gc' !! fp).
Proof.
  intros Hrun Hgc. revert Hgc. generalize gc.
  change (KeepsKeys s s'). revert s r s' Hrun.
  change (Effect KeepsKeys (Run m events out)).
  unfold Run. apply effect_bind; [apply _|apply grows_logf|]. intros _.
  revert out. induction events as [|[sel env] events IH]; intros out; simpl.
  - apply effect_ret; apply _.
  - apply effect_bind; [apply _|apply grows_iteration|].
    intros [|out'|v]; [apply effect_ret; apply _|apply IH|apply effect_ret; apply _].
Qed.

(** ** An unbuffered channel *)

Lemma unbuffered_loop `{!Externals} m events : ∀ out s out' s',
  cap out = 0 → buf out = [] →
  loop m events out s = (Done (Continues out'), s') →
  cap out' = 0 ∧ buf out' = [] ∧ ∃ k, handed out' = handed out ++ replicate k "".
Proof.
  induction events as [|[sel env] events IH]; intros out s out' s' Hcap Hbuf Hloop.
  - simpl in Hloop. unfold mret, M_ret in Hloop. simplify_eq.
    split; [done|]. split; [done|]. exists 0. simpl. by rewrite app_nil_r.
  - simpl in Hloop. apply bind_inv_Done in Hloop as (step & s1 & Hit & Hloop).
    destruct step as [|out1|v]; [done| |done].
    assert (cap out1 = 0 ∧ buf out1 = [] ∧
            (handed out1 = handed out ∨ handed out1 = handed out ++ [""])) as (Hc1 & Hb1 & Hh1).
    { unfold iteration in Hit. destruct sel; [done|].
      apply bind_inv_Done in Hit as ([o [err|]] & s2 & _ & Hit).
      - apply bind_inv_Done in Hit as ([] & s3 & _ & Hit).
        unfold send in Hit. rewrite Hcap, Hbuf in Hit. simpl in Hit.
        case_decide; [|done]. unfold mret, M_ret in Hit. simplify_eq. simpl. eauto.
      - rewrite decide_True in Hit by by rewrite Hcap, Hbuf.
        apply bind_inv_Done in Hit as ([] & s3 & _ & Hit).
        unfold mret, M_ret in Hit. simplify_eq. eauto. }
    destruct (IH out1 s1 out' s' Hc1 Hb1 Hloop) as (Hc & Hb & k & Hk).
    split; [done|]. split; [done|]. destruct Hh1 as [Hh1|Hh1]; rewrite Hh1 in Hk.
    + by exists k.
    + exists (S k). by rewrite Hk, <- app_assoc.
Qed.

(** X10. On an unbuffered channel the test [len(out) == cap(out)] always holds:
    the scheduler drops the text of every cycle that succeeds, also when a
    receiver is waiting, and all that a receiver can ever get from it is the
    empty string sent after a cycle that failed. *)
Theorem unbuffered_channel_gets_no_text `{!Externals} (m : MetricsPipeline)
    (events : list (Selected * Env)) (out out' : Chan) (s s' : State) :
  cap out = 0 →
  buf out = [] →
  Run m events out s = (Done (Continues out'), s') →
  buf out' = [] ∧ ∃ k, handed out' = handed out ++ replicate k "".
Proof.
  intros Hcap Hbuf Hrun. unfold Run in Hrun.
  apply bind_inv_Done in Hrun as ([] & s1 & _ & Hloop).
  by destruct (unbuffered_loop m events out s1 out' s' Hcap Hbuf Hloop) as (_ & ? & ?).
Qed.

(** ** What [NewMetricsPipeline] returns *)

Lemma registerCounter_Err `{!Externals} meter om counter err :
  registerCounter meter om counter = Err err ↔
  ∃ kind e, instrumentCall meter counter = Some (kind, Err e) ∧
            err = "failed to create " +:+ kind +:+ " metric " +:+ FieldName counter +:+
                  ": " +:+ e.
Proof.
  unfold registerCounter, instrumentCall. split.
  - intros Hr. repeat case_decide;
      try (destruct (Float64Gauge _ _ _) as [i|e]);
      try (destruct (Float64Counter _ _ _) as [i|e]);
      try (destruct (Float64Histogram _ _ _) as [i|e]);
      simplify_eq; by eexists _, _.
  - intros (kind & e & Hcall & ->).
    repeat case_decide; [injection Hcall as <- ->; done..|done].
Qed.

Lemma registerCounters_Err `{!Externals} meter cs : ∀ om err,
  registerCounters meter om cs = Err err ↔
  ∃ cs1 counter cs2 kind e,
    cs = cs1 ++ counter :: cs2 ∧
    (∀ c kind e, c ∈ cs1 → instrumentCall meter c ≠ Some (kind, Err e)) ∧
    instrumentCall meter counter = Some (kind, Err e) ∧
    err = "failed to create " +:+ kind +:+ " metric " +:+ FieldName counter +:+ ": " +:+ e.
Proof.
  induction cs as [|c cs IH]; intros om err; simpl.
  - split; [done|]. intros (cs1 & ? & ? & ? & ? & Hcs & _). by destruct cs1.
  - destruct (registerCounter meter om c) as [om'|err'] eqn:Hc.
    + rewrite IH. split.
      * intros (cs1 & counter & cs2 & kind & e & -> & Hcs1 & Hcall & ->).
        exists (c :: cs1), counter, cs2, kind, e. split; [done|]. split; [|done].
        intros c' kind' e' [->|Hin]%elem_of_cons Hcall'; [|by eapply Hcs1].
        assert (registerCounter meter om c =
                Err ("failed to create " +:+ kind' +:+ " metric " +:+ FieldName c +:+
                     ": " +:+ e')) as Herr by (apply registerCounter_Err; eauto).
        by rewrite Hc in Herr.
      * intros (cs1 & counter & cs2 & kind & e & Hcs & Hcs1 & Hcall & ->).
        destruct cs1 as [|c' cs1]; simplify_eq/=.
        -- assert (registerCounter meter om counter =
                   Err ("failed to create " +:+ kind +:+ " metric " +:+
                        FieldName counter +:+ ": " +:+ e)) as Herr
             by (apply registerCounter_Err; eauto).
           by rewrite Hc in Herr.
        -- exists cs1, counter, cs2, kind, e. split; [done|]. split; [|done].
           intros c kind' e' Hin. apply Hcs1. by right.
    + split.
      * intros [= <-]. apply registerCounter_Err in Hc as (kind & e & Hcall & ->).
        exists [], c, cs, kind, e. split; [done|]. split; [|done].
        by intros ? ? ? ?%elem_of_nil.
      * intros (cs1 & counter & cs2 & kind & e & Hcs & Hcs1 & Hcall & ->).
        destruct cs1 as [|c' cs1]; simplify_eq/=.
        -- assert (registerCounter meter om counter =
                   Err ("failed to create " +:+ kind +:+ " metric " +:+
                        FieldName counter +:+ ": " +:+ e)) as Herr
             by (apply registerCounter_Err; eauto).
           rewrite Hc in Herr. by simplify_eq.
        -- apply registerCounter_Err in Hc as (kind' & e' & Hcall' & _).
           exfalso. eapply (Hcs1 c'); [by left|done].
Qed.

Lemma NewMetricsPipeline_result `{!Externals} NewPodMapper newHPCMapper cfg cs hostname
    newDCGMCollector Get :
  ∃ lg,
  NewMetricsPipeline NewPodMapper newHPCMapper cfg cs hostname newDCGMCollector Get =
   (match
      match OtelMeter cfg with
      | Some meter =>
          match registerCounters meter (mkOtelMeters ∅ ∅ ∅) cs with
          | Ok om => Ok (Some om)
          | Err err => Err err
          end
      | None => Ok None
      end
    with
    | Err err => Err err
    | Ok om =>
        Ok (mkMetricsPipeline cfg
              (getTransformations NewPodMapper newHPCMapper cfg).1
              (mkTemplate "migMetrics" MigFormat) (mkTemplate "switchMetrics" SwitchFormat)
              (mkTemplate "switchMetrics" LinkFormat) (mkTemplate "cpuMetrics" CpuFormat)
              (mkTemplate "cpuMetrics" CpuCoreFormat) cs
              (constructed cfg cs hostname newDCGMCollector Get FE_GPU ≫= λ r, r.1.1)
              (constructed cfg cs hostname newDCGMCollector Get FE_SWITCH ≫= λ r, r.1.1)
              (constructed cfg cs hostname newDCGMCollector Get FE_LINK ≫= λ r, r.1.1)
              (constructed cfg cs hostname newDCGMCollector Get FE_CPU ≫= λ r, r.1.1)
              (constructed cfg cs hostname newDCGMCollector Get FE_CPU_CORE ≫= λ r, r.1.1)
              om,
            mkState (Some ∅) [] lg,
            omap (λ g, (λ r, r.1.2) <$> constructed cfg cs hostname newDCGMCollector Get g)
              allGroups)
    end, lg).
Proof.
  unfold NewMetricsPipeline, newCollectorFor, constructed, allGroups. simpl.
  destruct (Get FE_GPU), (Get FE_SWITCH), (Get FE_LINK), (Get FE_CPU), (Get FE_CPU_CORE);
    simpl;
    repeat match goal with
           | |- context [newDCGMCollector cs hostname cfg ?i] =>
               destruct (newDCGMCollector cs hostname cfg i) as [[? ?] ?]
           end;
    destruct (getTransformations NewPodMapper newHPCMapper cfg) as [ts lg6];
    destruct (OtelMeter cfg) as [meter|]; simpl;
    try destruct (registerCounters meter _ cs); eexists; reflexivity.
Qed.

(** X11. [NewMetricsPipeline] returns an error in one case only: a meter is
    configured and refuses the instrument of a counter, a gauge or a
    histogram of the list; the error names the first such counter. Neither
    an error of the constructor of a collector nor one of the pod mapper
    makes it fail. *)
Theorem NewMetricsPipeline_fails_only_on_an_instrument `{!Externals}
    (NewPodMapper : Config → result Transform) (newHPCMapper : Config → Transform)
    (cfg : Config) (cs : list Counter) (hostname : string)
    (newDCGMCollector : DCGMCollectorConstructor) (Get : EntityGroup → option Item)
    (err : error) :
  (NewMetricsPipeline NewPodMapper newHPCMapper cfg cs hostname newDCGMCollector Get).1 =
    Err err ↔
  ∃ meter cs1 counter cs2 kind e,
    OtelMeter cfg = Some meter ∧
    cs = cs1 ++ counter :: cs2 ∧
    (∀ c kind e, c ∈ cs1 → instrumentCall meter c ≠ Some (kind, Err e)) ∧
    instrumentCall meter counter = Some (kind, Err e) ∧
    err = "failed to create " +:+ kind +:+ " metric " +:+ FieldName counter +:+ ": " +:+ e.
Proof.
  destruct (NewMetricsPipeline_result NewPodMapper newHPCMapper cfg cs hostname
              newDCGMCollector Get) as [lg ->].
  cbn [fst]. destruct (OtelMeter cfg) as [meter|].
  - destruct (registerCounters meter _ cs) as [om|err'] eqn:Hreg.
    + split; [done|]. intros (meter' & cs1 & counter & cs2 & kind & e & [= <-] & Hrest).
      assert (registerCounters meter (mkOtelMeters ∅ ∅ ∅) cs = Err err) as Herr
        by (apply registerCounters_Err; eauto 10).
      by rewrite Hreg in Herr.
    + split.
      * intros [= <-]. apply registerCounters_Err in Hreg
          as (cs1 & counter & cs2 & kind & e & Hrest). eauto 10.
      * intros (meter' & cs1 & counter & cs2 & kind & e & [= <-] & Hrest).
        assert (registerCounters meter (mkOtelMeters ∅ ∅ ∅) cs = Err err) as Herr
          by (apply registerCounters_Err; eauto 10).
        rewrite Hreg in Herr. by simplify_eq.
  - split; [done|]. by intros (? & ? & ? & ? & ? & ? & ? & _).
Qed.

(** X12. The pipeline [NewMetricsPipeline] returns: for each group, the collector
    the constructor returned for it if the system information lists the
    group, also when the constructor reported an error, and none otherwise;
    one cleanup for each listed group, in the order GPU, switch, link, CPU,
    CPU core; an empty accumulator; and instruments only when a meter is
    configured. *)
Theorem NewMetricsPipeline_collectors `{!Externals}
    (NewPodMapper : Config → result Transform) (newHPCMapper : Config → Transform)
    (cfg : Config) (cs : list Counter) (hostname : string)
    (newDCGMCollector : DCGMCollectorConstructor) (Get : EntityGroup → option Item)
    (m : MetricsPipeline) (s0 : State) (cleanups : list Cleanup) (lg : list LogEntry) :
  NewMetricsPipeline NewPodMapper newHPCMapper cfg cs hostname newDCGMCollector Get =
    (Ok (m, s0, cleanups), lg) →
  (∀ g, collectorOf m g =
          constructed cfg cs hostname newDCGMCollector Get g ≫= λ r, r.1.1) ∧
  cleanups =
    omap (λ g, (λ r, r.1.2) <$> constructed cfg cs hostname newDCGMCollector Get g)
      allGroups ∧
  gpuCounters s0 = Some ∅ ∧ sink s0 = [] ∧
  (is_Some (otelMeters m) ↔ is_Some (OtelMeter cfg)).
Proof.
  intros Hnew. destruct (NewMetricsPipeline_result NewPodMapper newHPCMapper cfg cs
                           hostname newDCGMCollector Get) as [lg' Hres].
  rewrite Hnew in Hres.
  destruct (OtelMeter cfg) as [meter|].
  - destruct (registerCounters meter _ cs) as [om|]; [|done].
    injection Hres as -> -> -> _. split; [by intros []|]. split; [done|].
    split; [done|]. split; [done|]. simpl. split; eauto.
  - injection Hres as -> -> -> _. split; [by intros []|]. split; [done|].
    split; [done|]. split; [done|]. simpl. split; by intros [? ?].
Qed.

(** ** What the fingerprint tells apart *)

Lemma string_app_assoc (s1 s2 s3 : string) : (s1 +:+ s2) +:+ s3 = s1 +:+ s2 +:+ s3.
Proof.
  induction s1 as [|c s1 IH]; [done|].
  change (String c ((s1 +:+ s2) +:+ s3) = String c (s1 +:+ s2 +:+ s3)). by rewrite IH.
Qed.

Lemma string_app_inv_head (s a b : string) : s +:+ a = s +:+ b → a = b.
Proof.
  induction s as [|c s IH]; [done|].
  change (String c (s +:+ a) = String c (s +:+ b) → a = b). intros [= E]. by apply IH.
Qed.

Lemma string_app_sep_inj (c : ascii) (x y r r' : string) :
  freeOf c x = true → freeOf c y = true →
  x +:+ String c r = y +:+ String c r' → x = y ∧ r = r'.
Proof.
  revert y. induction x as [|a x IH]; intros [|b y] Hx Hy E.
  - change (String c r = String c r') in E. by simplify_eq.
  - change (String c r = String b (y +:+ String c r')) in E.
    injection E as <- _. simpl in Hy. by rewrite Ascii.eqb_refl in Hy.
  - change (String a (x +:+ String c r) = String c r') in E.
    injection E as -> _. simpl in Hx. by rewrite Ascii.eqb_refl in Hx.
  - change (String a (x +:+ String c r) = String b (y +:+ String c r')) in E.
    injection E as -> E. simpl in Hx, Hy.
    apply andb_true_iff in Hx as [_ Hx]. apply andb_true_iff in Hy as [_ Hy].
    destruct (IH y Hx Hy E) as [-> ->]. done.
Qed.

Lemma field_inj (name x y r r' : string) :
  freeOf "," x = true → freeOf "," y = true →
  field name x +:+ r = field name y +:+ r' → x = y ∧ r = r'.
Proof.
  intros Hx Hy E. unfold field in E. rewrite !string_app_assoc in E.
  apply string_app_inv_head in E. apply (string_app_inv_head "=") in E.
  by apply (string_app_sep_inj "," x y r r').
Qed.

(** X13. Two metrics with the same fingerprint have the same field name, the
    same entity identifiers and the same host name, when none of these
    contains a comma: series that differ in one of them never share an entry
    of the accumulator. *)
Theorem fingerprint_separates_identifiers (m1 m2 : Metric) :
  Forall (λ s, freeOf "," s = true) (identifiers m1) →
  Forall (λ s, freeOf "," s = true) (identifiers m2) →
  metricFingerprint m1 = metricFingerprint m2 →
  identifiers m1 = identifiers m2.
Proof.
  unfold identifiers, metricFingerprint, metricFingerprintAt. intros H1 H2 E.
  repeat match goal with
         | H : Forall _ (_ :: _) |- _ => apply Forall_cons in H as [? H]
         end.
  repeat match goal with
         | E : field _ _ +:+ _ = field _ _ +:+ _ |- _ =>
             apply field_inj in E as [-> E]; [|done..]
         end.
  done.
Qed.

Lemma fingerprint_identifiers_witness :
  identifiers (labelled "1") = identifiers (labelled "2").
Proof.
  apply fingerprint_separates_identifiers.
  - repeat constructor.
  - repeat constructor.
  - vm_compute; reflexivity.
Defined.

Lemma pairsText_nil (m : gmap string string) : pairsText m (sortStrings []) = "".
Proof. reflexivity. Qed.

(** X14. The fingerprint does not say whether a pair is a label or an attribute:
    a metric with the pairs as labels and no attributes and the metric with
    the same pairs as attributes and no labels have one fingerprint, and so
    one entry in the accumulator. *)
Theorem fingerprint_confuses_labels_and_attributes (m : Metric)
    (pairs : gmap string string) :
  metricFingerprint (withPairs m pairs ∅) = metricFingerprint (withPairs m ∅ pairs).
Proof.
  unfold metricFingerprint, metricFingerprintAt, withPairs, keysOf. simpl.
  rewrite map_to_list_empty. simpl. rewrite !pairsText_nil.
  by rewrite string_app_nil_r.
Qed.

(** ** The pod watcher *)

Lemma namespacedName_inj (namespace name : string) (meta : podwatcher.ObjectMeta) :
  freeOf "/" namespace = true →
  freeOf "/" (podwatcher.Namespace meta) = true →
  namespace +:+ "/" +:+ name = podwatcher.namespacedName meta →
  namespace = podwatcher.Namespace meta ∧ name = podwatcher.Name meta.
Proof.
  intros Hn Hm E. unfold podwatcher.namespacedName in E.
  by apply (string_app_sep_inj "/") in E.
Qed.

(** X15. After [addPod] (and after [updatePod], whatever the old object was)
    [GetObjectMeta] returns the metadata of the pod for its namespace and
    name, and what it returned before for another namespace or name, the
    namespaces containing no slash; the mutex is released. *)
Theorem pod_is_found_after_add (pw : podwatcher.PodWatcher) (pod : podwatcher.Pod)
    (oldObj : podwatcher.Object) (namespace name : string) :
  podwatcher.mu pw = false →
  freeOf "/" namespace = true →
  freeOf "/" (podwatcher.Namespace (podwatcher.PodObjectMeta pod)) = true →
  ∃ pw',
    podwatcher.addPod pw (podwatcher.PodObject pod) = podwatcher.Returns () pw' ∧
    podwatcher.updatePod pw oldObj (podwatcher.PodObject pod) = podwatcher.Returns () pw' ∧
    podwatcher.mu pw' = false ∧
    podwatcher.GetObjectMeta pw' namespace name =
      podwatcher.Returns
        (if decide (namespace = podwatcher.Namespace (podwatcher.PodObjectMeta pod) ∧
                    name = podwatcher.Name (podwatcher.PodObjectMeta pod))
         then Some (podwatcher.PodObjectMeta pod)
         else podwatcher.m pw !! (namespace +:+ "/" +:+ name))
        pw'.
Proof.
  intros Hmu Hn Hp. unfold podwatcher.addPod, podwatcher.updatePod. rewrite Hmu.
  eexists. split; [done|]. split; [done|]. split; [done|].
  unfold podwatcher.GetObjectMeta. simpl. f_equal. case_decide as Hd.
  - destruct Hd as [-> ->]. by rewrite lookup_insert_eq.
  - rewrite lookup_insert_ne; [done|]. intros E. apply Hd.
    symmetry in E. by apply namespacedName_inj in E.
Qed.

Lemma pod_is_found_witness :
  ∃ pw',
    podwatcher.addPod (podwatcher.mkPodWatcher false ∅) (podwatcher.PodObject trainerPod) =
      podwatcher.Returns () pw' ∧
    podwatcher.GetObjectMeta pw' "ml" "trainer-0" =
      podwatcher.Returns (Some (podwatcher.PodObjectMeta trainerPod)) pw'.
Proof.
  destruct (pod_is_found_after_add (podwatcher.mkPodWatcher false ∅) trainerPod
              podwatcher.OtherObject "ml" "trainer-0") as (pw' & Hadd & _ & _ & Hget);
    [reflexivity..|].
  exists pw'. split; [done|]. rewrite Hget. by rewrite decide_True.
Defined.

(** X16. After [deletePod] [GetObjectMeta] returns [nil] for the namespace and
    name of the pod, also when the pod was not in the map, and what it
    returned before for another namespace or name, the namespaces containing
    no slash. *)
Theorem pod_is_gone_after_delete (pw : podwatcher.PodWatcher) (pod : podwatcher.Pod)
    (namespace name : string) :
  podwatcher.mu pw = false →
  freeOf "/" namespace = true →
  freeOf "/" (podwatcher.Namespace (podwatcher.PodObjectMeta pod)) = true →
  ∃ pw',
    podwatcher.deletePod pw (podwatcher.PodObject pod) = podwatcher.Returns () pw' ∧
    podwatcher.mu pw' = false ∧
    podwatcher.GetObjectMeta pw' namespace name =
      podwatcher.Returns
        (if decide (namespace = podwatcher.Namespace (podwatcher.PodObjectMeta pod) ∧
                    name = podwatcher.Name (podwatcher.PodObjectMeta pod))
         then None
         else podwatcher.m pw !! (namespace +:+ "/" +:+ name))
        pw'.
Proof.
  intros Hmu Hn Hp. unfold podwatcher.deletePod. rewrite Hmu.
  eexists. split; [done|]. split; [done|].
  unfold podwatcher.GetObjectMeta. simpl. f_equal. case_decide as Hd.
  - destruct Hd as [-> ->]. by rewrite lookup_delete_eq.
  - rewrite lookup_delete_ne; [done|]. intros E. apply Hd.
    symmetry in E. by apply namespacedName_inj in E.
Qed.

Lemma pod_is_gone_witness :
  ∃ pw',
    podwatcher.deletePod
      (podwatcher.mkPodWatcher false
         {[ "ml/trainer-0" := podwatcher.PodObjectMeta trainerPod ]})
      (podwatcher.PodObject trainerPod) = podwatcher.Returns () pw' ∧
    podwatcher.GetObjectMeta pw' "ml" "trainer-0" = podwatcher.Returns None pw'.
Proof.
  destruct (pod_is_gone_after_delete
              (podwatcher.mkPodWatcher false
                 {[ "ml/trainer-0" := podwatcher.PodObjectMeta trainerPod ]})
              trainerPod "ml" "trainer-0") as (pw' & Hdel & _ & Hget); [reflexivity..|].
  exists pw'. split; [done|]. rewrite Hget. by rewrite decide_True.
Defined.

(** ** The text of a cycle *)

Lemma stage_section `{!Externals} env m g formatted s :
  g ≠ FE_GPU →
  (∀ collector, collectorOf m g = Some collector →
     ∃ metrics, GetMetrics collector (world env) = Ok metrics ∧
       ∀ s, ∃ s', whenMetered m (emitterOf env m g metrics) s = (Done (), s')) →
  ∃ s', stageOf env m g formatted s =
          (Done (Next (formatted +:+ sectionText env m g)), s').
Proof.
  intros Hg Hok. rewrite stageOf_group by done. unfold groupStage, sectionText.
  destruct (collectorOf m g) as [collector|]; [|rewrite string_app_nil_r; by eexists].
  destruct (Hok collector eq_refl) as (metrics & -> & Hobs).
  destruct (Hobs s) as [s1 Hs1]. erewrite bind_Done by done.
  case_decide; [|rewrite string_app_nil_r; by eexists].
  destruct (FormatMetrics (templateOf m g) metrics) as [txt [err|]]; by eexists.
Qed.

(** X17. When the GPU block falls through, the collectors of the other groups
    answer and their emitters return, [run] returns, without error, the
    text of the GPU block followed by the texts of the switches, the links,
    the CPUs and the CPU cores, in this order; a group that has no
    collector, an empty grouping or a failing template adds the empty
    string. *)
Theorem run_text_in_group_order `{!Externals} (env : Env) (m : MetricsPipeline)
    (gpuText : string) (s s1 : State) :
  (∀ g collector, g ≠ FE_GPU → collectorOf m g = Some collector →
     ∃ metrics, GetMetrics collector (world env) = Ok metrics ∧
       ∀ s, ∃ s', whenMetered m (emitterOf env m g metrics) s = (Done (), s')) →
  gpuStage env m s = (Done (Next gpuText), s1) →
  ∃ s',
    run env m s =
      (Done (gpuText +:+ sectionText env m FE_SWITCH +:+ sectionText env m FE_LINK +:+
             sectionText env m FE_CPU +:+ sectionText env m FE_CPU_CORE, None), s').
Proof.
  intros Hok Hgpu. rewrite run_stages. cbn [stages].
  destruct (stage_section env m FE_SWITCH gpuText s1) as [s2 H2]; [done|intros; by apply Hok|].
  destruct (stage_section env m FE_LINK (gpuText +:+ sectionText env m FE_SWITCH) s2)
    as [s3 H3]; [done|intros; by apply Hok|].
  destruct (stage_section env m FE_CPU
              ((gpuText +:+ sectionText env m FE_SWITCH) +:+ sectionText env m FE_LINK) s3)
    as [s4 H4]; [done|intros; by apply Hok|].
  destruct (stage_section env m FE_CPU_CORE
              (((gpuText +:+ sectionText env m FE_SWITCH) +:+ sectionText env m FE_LINK)
               +:+ sectionText env m FE_CPU) s4)
    as [s5 H5]; [done|intros; by apply Hok|].
  exists s5. erewrite bind_Done; last first.
  { unfold andThen at 1. erewrite bind_Done by exact Hgpu.
    unfold andThen at 1. erewrite bind_Done by exact H2.
    unfold andThen at 1. erewrite bind_Done by exact H3.
    unfold andThen at 1. erewrite bind_Done by exact H4.
    unfold andThen at 1. erewrite bind_Done by exact H5. done. }
  by rewrite !string_app_assoc.
Qed.

(** ** The further statements on the example node *)

Lemma twoGpus_observable (c : Counter) (l : list Metric) :
  twoGpus !! c = Some l →
  l ≠ [] ∧ ∀ metricVal, metricVal ∈ l →
    @Observable (exampleExternals []) builtPipeline c metricVal.
Proof.
  intros Hl. unfold twoGpus in Hl. apply lookup_singleton_Some in Hl as [<- <-].
  split; [done|]. intros metricVal Hin _. split.
  - exists (mkInstrument KGauge "dcgm_fi_dev_gpu_util" "GPU utilization (in %).").
    vm_compute; reflexivity.
  - apply elem_of_cons in Hin as [->|Hin]; [|apply list_elem_of_singleton in Hin as ->].
    + exists 42%float. vm_compute; reflexivity.
    + exists 17%float. vm_compute; reflexivity.
Qed.

Lemma emitter_attributes_witness :
  ∃ before es after e,
    @emitterOf (exampleExternals []) (exampleEnv [] (calmWorld "42")) builtPipeline FE_GPU
      twoGpus freshState =
      (Done (), mkState (gpuCounters freshState)
                  (sink freshState ++ before ++ es ++ after) (logs freshState)) ∧
    es !! 1 = Some e ∧
    (evAttrs e).*2 =
      ["0"; "GPU-5fd4f087"; "00000000:00:04.0"; "nvidia0"; "NVIDIA A100"; "node-1";
       "1"; "GPU-0a1b2c3d"; "00000000:00:05.0"; "nvidia1"; "NVIDIA A100"; "node-1"].
Proof.
  destruct (emitter_attributes_accumulate (H := exampleExternals [])
              (exampleEnv [] (calmWorld "42")) builtPipeline FE_GPU twoGpus freshState
              utilCounter [gpuMetric utilCounter "42"; gpu1Metric utilCounter "17"]
              (mkInstrument KGauge "dcgm_fi_dev_gpu_util" "GPU utilization (in %)."))
    as (before & es & after & Hrun & _ & Hall).
  - apply exampleEnv_ok.
  - apply twoGpus_observable.
  - reflexivity.
  - right. by left.
  - vm_compute; reflexivity.
  - destruct (Hall 1 (gpu1Metric utilCounter "17") eq_refl) as (e & He & _ & _ & Ha).
    exists before, es, after, e. split; [exact Hrun|]. split; [exact He|].
    rewrite Ha. vm_compute; reflexivity.
Defined.

Lemma emitter_count_witness :
  ∃ evs,
    @emitterOf (exampleExternals []) (exampleEnv [] (calmWorld "42")) builtPipeline FE_GPU
      twoGpus freshState =
      (Done (), mkState (gpuCounters freshState) (sink freshState ++ evs)
                  (logs freshState)) ∧
    length evs = 2.
Proof.
  destruct (emitter_sends_one_event_per_metric (H := exampleExternals [])
              (exampleEnv [] (calmWorld "42")) builtPipeline FE_GPU twoGpus freshState)
    as (evs & Hrun & Hlen).
  - apply exampleEnv_ok.
  - apply twoGpus_observable.
  - exists evs. split; [exact Hrun|]. rewrite Hlen. vm_compute; reflexivity.
Defined.

Lemma emitter_ignores_witness :
  @emitterOf (exampleExternals []) (exampleEnv [] (calmWorld "42")) bareMeteredPipeline
    FE_GPU {[ driverCounter := [driverMetric] ]} freshState = (Done (), freshState).
Proof.
  apply (emitter_ignores_other_types (H := exampleExternals [])).
  - apply exampleEnv_ok.
  - intros c l Hl. apply lookup_singleton_Some in Hl as [<- <-]. split; [|done].
    intros [E|[E|E]]; discriminate E.
Defined.

Lemma empty_grouping_witness :
  @stageOf (exampleExternals []) (exampleEnv [] quietWorld) (plainPipeline []) FE_SWITCH
    (gpuText "42") freshState = (Done (Next (gpuText "42")), freshState) ∧
  @gpuStage (exampleExternals []) (exampleEnv [] idleWorld) (plainPipeline []) freshState =
    (Done (Next ""), freshState) ∧
  @gpuStage (exampleExternals [MigFormat]) (exampleEnv [MigFormat] idleWorld)
    (plainPipeline [MigFormat]) freshState =
    (Done (Return "" (Some "failed to format metrics; err: template: cannot write")),
     freshState).
Proof.
  split; [|split].
  - destruct (empty_grouping_is_rendered_for_gpus_only (H := exampleExternals [])
                (exampleEnv [] quietWorld) (plainPipeline [])) as [Hother _].
    by apply (Hother FE_SWITCH (exampleCollector [] FE_SWITCH)).
  - destruct (empty_grouping_is_rendered_for_gpus_only (H := exampleExternals [])
                (exampleEnv [] idleWorld) (plainPipeline [])) as [_ Hgpu].
    by rewrite (Hgpu (exampleCollector [] FE_GPU) freshState eq_refl eq_refl).
  - destruct (empty_grouping_is_rendered_for_gpus_only (H := exampleExternals [MigFormat])
                (exampleEnv [MigFormat] idleWorld) (plainPipeline [MigFormat])) as [_ Hgpu].
    by rewrite (Hgpu (exampleCollector [MigFormat] FE_GPU) freshState eq_refl eq_refl).
Defined.

Lemma transformation_failure_witness :
  @run (exampleExternals []) (exampleEnv [] (calmWorld "42")) transformingPipeline freshState =
    (Done ("", Some "failed to transform metrics for transform 'podMapper'; err: kubelet: connection refused"),
     freshState).
Proof.
  apply (transformation_failure_aborts_cycle (H := exampleExternals [])
           (exampleEnv [] (calmWorld "42")) transformingPipeline (exampleCollector [] FE_GPU)
           (gpuGrouping "42") (gpuGrouping "42") (gpuGrouping "42") [] [] failingTransform
           "kubelet: connection refused" freshState); reflexivity.
Defined.

Lemma failed_cycle_accumulates_witness :
  (@run (exampleExternals []) (exampleEnv [] switchDownWorld) (plainPipeline [])
     freshState).1 =
    Done ("", Some "failed to collect switch metrics; err: dcgm: connection lost") ∧
  ∃ gc',
    gpuCounters (@run (exampleExternals []) (exampleEnv [] switchDownWorld)
                   (plainPipeline []) freshState).2 = Some gc' ∧
    gc' !! metricFingerprint (gpuMetric utilCounter "42") = Some 42%float.
Proof.
  assert ((@run (exampleExternals []) (exampleEnv [] switchDownWorld) (plainPipeline [])
             freshState).1 =
          Done ("", Some "failed to collect switch metrics; err: dcgm: connection lost"))
    as Hrun by (vm_compute; reflexivity).
  split; [exact Hrun|].
  destruct (cycle_accumulates_even_when_it_fails (H := exampleExternals [])
              (exampleEnv [] switchDownWorld) (plainPipeline []) (exampleCollector [] FE_GPU)
              (gpuGrouping "42") freshState _ ∅ _
              (exampleEnv_ok _ _) eq_refl eq_refl eq_refl (pair_eq_fst _ _ Hrun))
    as [Hgc _].
  eexists. split; [exact Hgc|]. vm_compute; reflexivity.
Defined.

Lemma accumulator_entries_witness :
  ∃ gc',
    gpuCounters (@Run (exampleExternals []) (plainPipeline [])
                   [(TickCase, exampleEnv [] (calmWorld "42"))] fullChan usedState).2 =
      Some gc' ∧
    is_Some (gc' !! "old").
Proof.
  destruct (accumulator_entries_are_never_removed (H := exampleExternals [])
              (plainPipeline []) [(TickCase, exampleEnv [] (calmWorld "42"))] fullChan
              usedState _ _ {[ "old" := 1%float ]} (surjective_pairing _) eq_refl)
    as (gc' & Hgc' & Hkeeps).
  exists gc'. split; [exact Hgc'|]. apply Hkeeps. by eexists.
Defined.

Lemma unbuffered_channel_witness :
  (@Run (exampleExternals []) (plainPipeline [])
     [(TickCase, exampleEnv [] (calmWorld "42")); (TickCase, exampleEnv [] switchDownWorld)]
     unbufferedChan freshState).1 = Done (Continues (mkChan [] 0 0 [""])) ∧
  buf (mkChan [] 0 0 [""]) = [] ∧
  ∃ k, handed (mkChan [] 0 0 [""]) = handed unbufferedChan ++ replicate k "".
Proof.
  assert ((@Run (exampleExternals []) (plainPipeline [])
             [(TickCase, exampleEnv [] (calmWorld "42"));
              (TickCase, exampleEnv [] switchDownWorld)]
             unbufferedChan freshState).1 = Done (Continues (mkChan [] 0 0 [""]))) as Hrun
    by (vm_compute; reflexivity).
  split; [exact Hrun|].
  exact (unbuffered_channel_gets_no_text (H := exampleExternals []) (plainPipeline []) _
           unbufferedChan (mkChan [] 0 0 [""]) freshState _
           eq_refl eq_refl (pair_eq_fst _ _ Hrun)).
Defined.

Lemma NewMetricsPipeline_collectors_witness :
  @collectorOf (exampleExternals []) builtPipeline FE_GPU = Some (exampleCollector [] FE_GPU) ∧
  @collectorOf (exampleExternals []) builtPipeline FE_SWITCH = None.
Proof.
  pose proof exampleNew_built as Hnew. unfold exampleNew in Hnew.
  destruct (NewMetricsPipeline_collectors (H := exampleExternals []) _ _ _ _ _ _ _ _ _ _ _
              Hnew) as (Hc & _).
  by rewrite !Hc.
Defined.

Lemma run_text_witness :
  ∃ s',
    @run (exampleExternals [SwitchFormat]) (exampleEnv [SwitchFormat] (calmWorld "42"))
      (plainPipeline [SwitchFormat]) freshState =
    (Done (gpuText "42" +:+ gpuCounterText "42" +:+ otherText +:+ otherText +:+ otherText,
           None), s').
Proof.
  destruct (run_text_in_group_order (H := exampleExternals [SwitchFormat])
              (exampleEnv [SwitchFormat] (calmWorld "42")) (plainPipeline [SwitchFormat])
              (gpuText "42" +:+ gpuCounterText "42") freshState
              (@gpuStage (exampleExternals [SwitchFormat])
                 (exampleEnv [SwitchFormat] (calmWorld "42")) (plainPipeline [SwitchFormat])
                 freshState).2) as [s' Hrun].
  - intros g collector Hg Hc.
    assert (@collectorOf (exampleExternals [SwitchFormat]) (plainPipeline [SwitchFormat]) g =
            Some (exampleCollector [SwitchFormat] g)) as Hc' by (by destruct g).
    rewrite Hc' in Hc. injection Hc as <-. exists otherGrouping.
    split; [by destruct g|]. intros s. by exists s.
  - apply pair_eq_fst. vm_compute; reflexivity.
  - exists s'. rewrite Hrun. repeat f_equal.
Defined.

(** ** The keys of the attributes sent *)

Lemma lowered_OtelObserve `{!Externals} m counter metricVal attrs :
  Effect (Emitted LowerCased) (OtelObserve m counter metricVal attrs).
Proof.
  intros s r s' E. rewrite OtelObserve_cases in E.
  destruct (decide (Metered counter)); [|simplify_eq; reflexivity].
  destruct (instrumentFor m counter) as [i|]; [|simplify_eq; reflexivity].
  destruct (ParseFloat (Value metricVal)) as [val|err]; [|simplify_eq; reflexivity].
  simplify_eq. eexists [_]. split; [done|]. constructor; [|done]. by eexists.
Qed.

(** X18. However an emitter ends, every event it has sent carries attributes
    whose keys went through [strings.ToLower], those of the labels and of
    the attributes of the metric included. *)
Theorem emitted_keys_are_lower_cased `{!Externals} (env : Env) (m : MetricsPipeline)
    (g : EntityGroup) (metrics : MetricsByCounter) (s s' : State) (r : Outcome unit) :
  emitterOf env m g metrics s = (r, s') →
  ∃ evs, sink s' = sink s ++ evs ∧ Forall LowerCased evs.
Proof.
  revert s r s'. change (Effect (Emitted LowerCased) (emitterOf env m g metrics)).
  destruct (emitterOf_observeGroup env m g) as [capacity ->]. unfold observeGroup.
  apply effect_forEach; [apply _|]. intros [counter [|first l]] _;
    [apply effect_panic; apply _|].
  apply effect_bind; [apply _| |intros; apply effect_ret; apply _].
  apply effect_forEachWith; [apply _|]. intros attrs metricVal _.
  apply lowered_OtelObserve.
Qed.

Lemma emitted_keys_witness :
  ∃ evs,
    sink (@emitterOf (exampleExternals []) (exampleEnv [] (calmWorld "42")) builtPipeline
            FE_GPU twoGpus freshState).2 = sink freshState ++ evs ∧
    Forall (@LowerCased (exampleExternals [])) evs.
Proof.
  exact (emitted_keys_are_lower_cased (H := exampleExternals []) _ _ _ _ _ _ _
           (surjective_pairing _)).
Defined.

(** ** [getIDOfType] *)

(** X19. The identifier of a MIG instance is the GPU and the instance, whatever
    the type asked for, also an unsupported one; and two MIG instances with
    the same identifier are the same instance of the same GPU, when the GPU
    fields contain no hyphen. *)
Theorem mig_identifier_is_unambiguous (GPUUID DeviceName : KubernetesGPUIDType)
    (m1 m2 : Metric) (idType1 idType2 : KubernetesGPUIDType) :
  MigProfile m1 ≠ "" →
  MigProfile m2 ≠ "" →
  freeOf "-" (GPU m1) = true →
  freeOf "-" (GPU m2) = true →
  getIDOfType GPUUID DeviceName m1 idType1 = Ok (GPU m1 +:+ "-" +:+ GPUInstanceID m1) ∧
  (getIDOfType GPUUID DeviceName m1 idType1 = getIDOfType GPUUID DeviceName m2 idType2 →
   GPU m1 = GPU m2 ∧ GPUInstanceID m1 = GPUInstanceID m2).
Proof.
  intros Hm1 Hm2 Hg1 Hg2. unfold getIDOfType. rewrite !decide_True by done.
  split; [done|]. intros [= E]. by apply (string_app_sep_inj "-") in E.
Qed.

Lemma mig_identifier_witness :
  getIDOfType "uid" "device-name" (migMetric "3") "no-such-type" = Ok "0-3" ∧
  (getIDOfType "uid" "device-name" (migMetric "3") "no-such-type" =
   getIDOfType "uid" "device-name" (migMetric "3") "uid" →
   GPU (migMetric "3") = GPU (migMetric "3") ∧
   GPUInstanceID (migMetric "3") = GPUInstanceID (migMetric "3")).
Proof.
  apply (mig_identifier_is_unambiguous "uid" "device-name" (migMetric "3") (migMetric "3")
           "no-such-type" "uid"); done.
Defined.

(** ** A value that does not parse, in the cycle *)





